(** * evohomeasync2: zones, hot water and the schedule codec

    A shallow embedding of [evohomeasync2/zone.py] and
    [evohomeasync2/hotwater.py]: the status cache and its accessors, the
    schedule read and write paths (with the textual key substitution that
    [get_schedule] performs between [json.dumps] and [json.loads]), the
    mode commands, the constructors and the deprecated stubs.

    Python [str] is modelled by [string], whose characters stand for the code
    points U+0000..U+00FF.  Coroutines are run to completion: an [await] is a
    sequenced call.  The calls of the logger are left out. *)

From Stdlib Require Import String Ascii List Bool Arith Lia NArith DecimalString.
From Stdlib Require DecimalNat.
Import ListNotations.
Open Scope string_scope.
Set Warnings "-register-all".


(** ** Text: the [str] methods used by the source *)

Module Text.

Definition code (c : ascii) : N := N_of_ascii c.
Definition chr (n : N) : ascii := ascii_of_N n.

Definition dquote : ascii := chr 34.
Definition backslash : ascii := chr 92.

Definition in_range (lo hi : N) (c : ascii) : bool :=
  (N.leb lo (code c) && N.leb (code c) hi)%bool.

Definition is_digit : ascii -> bool := in_range 48 57.
Definition is_upper : ascii -> bool := in_range 65 90.
Definition is_lower : ascii -> bool := in_range 97 122.

Definition upper_char (c : ascii) : ascii :=
  if is_lower c then chr (code c - 32)%N else c.
Definition lower_char (c : ascii) : ascii :=
  if is_upper c then chr (code c + 32)%N else c.

Fixpoint str_lower (s : string) : string :=
  match s with
  | EmptyString => EmptyString
  | String c s' => String (lower_char c) (str_lower s')
  end.

(** [str.capitalize()]: first character upper-cased, all the others
    lower-cased (ASCII case mapping). *)
Definition capitalize (s : string) : string :=
  match s with
  | EmptyString => EmptyString
  | String c s' => String (upper_char c) (str_lower s')
  end.

(** [str.replace(old, new)] scans left to right and replaces the
    occurrences of [old] that do not overlap.  [skip] counts the characters
    of an occurrence already replaced that are still to be passed over. *)
Fixpoint replace_from (old new s : string) (skip : nat) : string :=
  match s with
  | EmptyString => EmptyString
  | String c s' =>
      match skip with
      | S k => replace_from old new s' k
      | O =>
          if prefix old s
          then new ++ replace_from old new s' (String.length old - 1)
          else String c (replace_from old new s' 0)
      end
  end.

Fixpoint insert_after_each (new s : string) : string :=
  match s with
  | EmptyString => EmptyString
  | String c s' => String c (new ++ insert_after_each new s')
  end.

Definition str_replace (s old new : string) : string :=
  match old with
  | EmptyString => new ++ insert_after_each new s
  | _ => replace_from old new s 0
  end.

Fixpoint str_all (p : ascii -> bool) (s : string) : bool :=
  match s with
  | EmptyString => true
  | String c s' => (p c && str_all p s')%bool
  end.

Definition differs (c : ascii) (x : ascii) : bool := negb (Ascii.eqb x c).

End Text.

(** ** Python values, exceptions and the [dict] operations *)

Module Py.
Import Text.

(** The values that reach the functions of the source.  A number is
    identified with the literal that Python prints for it ([str] of an [int],
    [repr] of a [float]): both are injective and inverted by [int()] and
    [float()], so the literal determines the number.  [PObject] is any other
    object (a [set], [bytes], a [datetime], ...), named by its class; [PRef k]
    stands, inside a container, for the [k]-th enclosing container itself (a
    reference cycle).  A [dict] keeps its insertion order and has [str] keys
    ([_EvoDictT]). *)
Inductive pyval : Type :=
| PNone
| PBool (b : bool)
| PNum (lit : string)
| PStr (s : string)
| PList (items : list pyval)
| PDict (entries : list (string * pyval))
| PObject (cls : string)
| PRef (up : nat).

Definition dict : Type := list (string * pyval).

Inductive exn : Type :=
| TypeError (msg : string)
| ValueError (msg : string)
| OverflowError (msg : string)
| JSONDecodeError
| KeyError (key : string)
| AttributeError (msg : string)
| AssertionError (msg : string)
| NotImplementedError (msg : string)
| InvalidSchedule (msg : string)
| BrokerError (why : string).

Inductive result (A : Type) : Type :=
| Ok (a : A)
| Raise (e : exn).
Arguments Ok {A} a.
Arguments Raise {A} e.

(** [str(exc)]; the decoder's message and position are not reproduced. *)
Definition str_exn (e : exn) : string :=
  match e with
  | TypeError m | ValueError m | OverflowError m | AssertionError m
  | AttributeError m
  | NotImplementedError m | InvalidSchedule m | BrokerError m => m
  | KeyError k => "'" ++ k ++ "'"
  | JSONDecodeError => "JSONDecodeError"
  end.

(** [d.get(k)] as an option, [d[k]], and [d[k] = v]: an existing key keeps
    its place, a new key goes last. *)
Fixpoint dict_get (d : dict) (k : string) : option pyval :=
  match d with
  | [] => None
  | (k', v) :: d' => if String.eqb k' k then Some v else dict_get d' k
  end.

Fixpoint dict_set (d : dict) (k : string) (v : pyval) : dict :=
  match d with
  | [] => [(k, v)]
  | (k', v') :: d' =>
      if String.eqb k' k then (k', v) :: d' else (k', v') :: dict_set d' k v
  end.

Definition get (d : dict) (k : string) : pyval :=
  match dict_get d k with Some v => v | None => PNone end.

Definition getitem (d : dict) (k : string) : result pyval :=
  match dict_get d k with Some v => Ok v | None => Raise (KeyError k) end.

(** [dict(pairs)] *)
Definition dict_of_pairs (pairs : list (string * pyval)) : dict :=
  fold_left (fun d kv => dict_set d (fst kv) (snd kv)) pairs [].

(** The part of a number literal before its exponent. *)
Fixpoint mantissa (lit : string) : string :=
  match lit with
  | EmptyString => EmptyString
  | String c s =>
      if (Ascii.eqb c "e" || Ascii.eqb c "E")%bool then EmptyString
      else String c (mantissa s)
  end.

Definition zero_char (c : ascii) : bool :=
  (Ascii.eqb c "0" || Ascii.eqb c "-" || Ascii.eqb c ".")%bool.

Definition is_float_literal (lit : string) : bool :=
  negb (str_all (fun c => (is_digit c || Ascii.eqb c "-")%bool) lit).

(** Truth value of an object: [None], [False], zero and the empty [str],
    [list] and [dict] are false. *)
Definition truthy (v : pyval) : bool :=
  match v with
  | PNone => false
  | PBool b => b
  | PNum lit => negb (str_all zero_char (mantissa lit))
  | PStr s => negb (String.eqb s "")
  | PList l => match l with [] => false | _ => true end
  | PDict d => match d with [] => false | _ => true end
  | PObject _ => true
  | PRef _ => true
  end.

(** [type(v).__name__] *)
Definition type_name (v : pyval) : string :=
  match v with
  | PNone => "NoneType"
  | PBool _ => "bool"
  | PNum lit => if is_float_literal lit then "float" else "int"
  | PStr _ => "str"
  | PList _ => "list"
  | PDict _ => "dict"
  | PObject cls => cls
  | PRef _ => "dict"
  end.

Definition py_int (n : nat) : pyval :=
  PNum (NilZero.string_of_uint (Nat.to_uint n)).

(** [str(v)], as an f-string interpolates it.  Exact on [str], [None],
    [bool] and numbers; a container or another object is shown by its class
    only (the source interpolates identifiers, which are [str]). *)
Definition py_str (v : pyval) : string :=
  match v with
  | PStr s => s
  | PNone => "None"
  | PBool true => "True"
  | PBool false => "False"
  | PNum lit =>
      if String.eqb lit "NaN" then "nan"
      else if String.eqb lit "Infinity" then "inf"
      else if String.eqb lit "-Infinity" then "-inf"
      else lit
  | _ => "<" ++ type_name v ++ ">"
  end.

(** [v.get(k)] and [v[k] = x] on an arbitrary object, and [iter(v)]. *)
Definition py_get (v : pyval) (k : string) : result pyval :=
  match v with
  | PDict d => Ok (get d k)
  | _ => Raise (AttributeError
                  ("'" ++ type_name v ++ "' object has no attribute 'get'"))
  end.

Definition subscript (v : pyval) (k : string) : result pyval :=
  match v with
  | PDict d => getitem d k
  | PList _ => Raise (TypeError "list indices must be integers or slices, not str")
  | PStr _ => Raise (TypeError "string indices must be integers, not 'str'")
  | _ => Raise (TypeError ("'" ++ type_name v ++ "' object is not subscriptable"))
  end.

Definition setitem (v : pyval) (k : string) (x : pyval) : result pyval :=
  match v with
  | PDict d => Ok (PDict (dict_set d k x))
  | PList _ => Raise (TypeError "list indices must be integers or slices, not str")
  | _ => Raise (TypeError
                  ("'" ++ type_name v ++ "' object does not support item assignment"))
  end.

Fixpoint chars (s : string) : list pyval :=
  match s with
  | EmptyString => []
  | String c s' => PStr (String c "") :: chars s'
  end.

Definition py_iter (v : pyval) : result (list pyval) :=
  match v with
  | PList l => Ok l
  | PStr s => Ok (chars s)
  | PDict d => Ok (map (fun kv => PStr (fst kv)) d)
  | _ => Raise (TypeError ("'" ++ type_name v ++ "' object is not iterable"))
  end.

End Py.

(** ** [json.dumps] and [json.loads]

    The encoder with its default options ([ensure_ascii], separators [", "]
    and [": "], [check_circular], [allow_nan]) and the decoder
    ([json.decoder] and [json.scanner]).

    This is the codec on the values and the texts of the model.  Two limits
    of the interpreter are outside it: the limit on the decimal digits of an
    [int] that is written or read (4300 by default) and the limit on the
    depth of the calls.  Where the interpreter raises [ValueError] or
    [RecursionError] for them, the functions below encode and decode.  A
    text that names a character above U+00FF is outside it as well. *)

Module Json.
Import Text Py.

(** *** Encoder *)

Definition hex_digit (n : N) : ascii :=
  if N.ltb n 10 then chr (48 + n)%N else chr (87 + n)%N.

(** [ESCAPE_DCT] and the [\uXXXX] form of [py_encode_basestring_ascii]. *)
Definition escape_char (c : ascii) : string :=
  if Ascii.eqb c dquote then String backslash (String dquote "")
  else if Ascii.eqb c backslash then String backslash (String backslash "")
  else if N.eqb (code c) 10 then String backslash "n"
  else if N.eqb (code c) 13 then String backslash "r"
  else if N.eqb (code c) 9 then String backslash "t"
  else if N.eqb (code c) 12 then String backslash "f"
  else if N.eqb (code c) 8 then String backslash "b"
  else if in_range 32 126 c then String c ""
  else String backslash
         (String "u" (String "0" (String "0"
            (String (hex_digit (N.div (code c) 16))
               (String (hex_digit (N.modulo (code c) 16)) ""))))).

Fixpoint escape (s : string) : string :=
  match s with
  | EmptyString => EmptyString
  | String c s' => escape_char c ++ escape s'
  end.

Definition encode_str (s : string) : string :=
  String dquote (escape s ++ String dquote "").

(** The text written for a serializable value; items are joined by [", "]
    and a key is followed by [": "]. *)
Fixpoint encode (v : pyval) : string :=
  match v with
  | PNone => "null"
  | PBool true => "true"
  | PBool false => "false"
  | PNum lit => lit
  | PStr s => encode_str s
  | PList l => "[" ++ String.concat ", " (map encode l) ++ "]"
  | PDict d =>
      "{" ++
      String.concat ", "
        (map (fun kv => encode_str (fst kv) ++ ": " ++ encode (snd kv)) d)
      ++ "}"
  | PObject _ => ""
  | PRef _ => ""
  end.

(** The first object, in the order of the traversal, that the encoder
    refuses: an object of an unsupported class ([TypeError]) or a container
    met again inside itself ([ValueError]). *)
Fixpoint dumps_error (v : pyval) : option exn :=
  match v with
  | PObject cls =>
      Some (TypeError ("Object of type " ++ cls ++ " is not JSON serializable"))
  | PRef _ => Some (ValueError "Circular reference detected")
  | PList l =>
      (fix first (l : list pyval) : option exn :=
         match l with
         | [] => None
         | x :: l' =>
             match dumps_error x with Some e => Some e | None => first l' end
         end) l
  | PDict d =>
      (fix first (d : list (string * pyval)) : option exn :=
         match d with
         | [] => None
         | (_, x) :: d' =>
             match dumps_error x with Some e => Some e | None => first d' end
         end) d
  | _ => None
  end.

Definition json_dumps (v : pyval) : result string :=
  match dumps_error v with
  | Some e => Raise e
  | None => Ok (encode v)
  end.

(** *** Decoder *)

Definition is_ws (c : ascii) : bool :=
  (Ascii.eqb c " " || N.eqb (code c) 9 || N.eqb (code c) 10
   || N.eqb (code c) 13)%bool.

Fixpoint skip_ws (s : string) : string :=
  match s with
  | EmptyString => EmptyString
  | String c s' => if is_ws c then skip_ws s' else s
  end.

Fixpoint drop (n : nat) (s : string) : string :=
  match n, s with
  | S k, String _ s' => drop k s'
  | _, _ => s
  end.

(** [expect c s]: the text after [c] when [s] starts with [c]. *)
Definition expect (c : ascii) (s : string) : option string :=
  match s with
  | String x r => if Ascii.eqb x c then Some r else None
  | EmptyString => None
  end.

Definition hex_value (c : ascii) : option N :=
  if is_digit c then Some (code c - 48)%N
  else if in_range 97 102 c then Some (code c - 87)%N
  else if in_range 65 70 c then Some (code c - 55)%N
  else None.

Inductive str_state : Type :=
| Plain
| Escaped
| Hex (left : nat) (acc : N).

Definition unescape (c : ascii) : option ascii :=
  if Ascii.eqb c dquote then Some dquote
  else if Ascii.eqb c backslash then Some backslash
  else if Ascii.eqb c "/" then Some "/"%char
  else if Ascii.eqb c "b" then Some (chr 8)
  else if Ascii.eqb c "f" then Some (chr 12)
  else if Ascii.eqb c "n" then Some (chr 10)
  else if Ascii.eqb c "r" then Some (chr 13)
  else if Ascii.eqb c "t" then Some (chr 9)
  else None.

Definition cons_char (c : ascii) (r : option (string * string))
  : option (string * string) :=
  match r with
  | Some (s, rest) => Some (String c s, rest)
  | None => None
  end.

(** [py_scanstring] in strict mode, from just after the opening quote: the
    decoded string and the text after the closing quote.  A [\uXXXX] escape
    above U+00FF has no image in [string] and is refused here. *)
Fixpoint scanstring (s : string) (st : str_state)
  : option (string * string) :=
  match s with
  | EmptyString => None
  | String c s' =>
      match st with
      | Plain =>
          if Ascii.eqb c dquote then Some (EmptyString, s')
          else if Ascii.eqb c backslash then scanstring s' Escaped
          else if N.ltb (code c) 32 then None
          else cons_char c (scanstring s' Plain)
      | Escaped =>
          if Ascii.eqb c "u" then scanstring s' (Hex 4 0)
          else match unescape c with
               | Some x => cons_char x (scanstring s' Plain)
               | None => None
               end
      | Hex n acc =>
          match hex_value c with
          | None => None
          | Some h =>
              let acc' := (acc * 16 + h)%N in
              match n with
              | 0 => None
              | 1 => if N.ltb acc' 256
                     then cons_char (chr acc') (scanstring s' Plain)
                     else None
              | S k => scanstring s' (Hex k acc')
              end
          end
      end
  end.

(** Longest prefix of digits, and the rest. *)
Fixpoint span_digits (s : string) : string * string :=
  match s with
  | EmptyString => (EmptyString, EmptyString)
  | String c s' =>
      if is_digit c
      then let (d, r) := span_digits s' in (String c d, r)
      else (EmptyString, s)
  end.

(** The three groups of [NUMBER_RE]: an integer part (an optional minus
    sign, then a single zero or a non-zero digit and further digits), an
    optional fraction (a dot and at least one digit) and an optional exponent
    (e or E, an optional sign, at least one digit). *)
Definition scan_int (s : string) : option (string * string) :=
  match s with
  | String c s' =>
      if Ascii.eqb c "0" then Some ("0", s')
      else if is_digit c then let (d, r) := span_digits s' in Some (String c d, r)
      else None
  | EmptyString => None
  end.

Definition scan_integer (s : string) : option (string * string) :=
  match s with
  | String c s' =>
      if Ascii.eqb c "-"
      then match scan_int s' with
           | Some (d, r) => Some (String c d, r)
           | None => None
           end
      else scan_int s
  | EmptyString => None
  end.

Definition scan_frac (s : string) : string * string :=
  match s with
  | String c s' =>
      if Ascii.eqb c "."
      then match span_digits s' with
           | (EmptyString, _) => (EmptyString, s)
           | (d, r) => (String c d, r)
           end
      else (EmptyString, s)
  | EmptyString => (EmptyString, s)
  end.

Definition scan_exp (s : string) : string * string :=
  match s with
  | String c s' =>
      if (Ascii.eqb c "e" || Ascii.eqb c "E")%bool
      then match s' with
           | String g s'' =>
               if (Ascii.eqb g "-" || Ascii.eqb g "+")%bool
               then match span_digits s'' with
                    | (EmptyString, _) => (EmptyString, s)
                    | (d, r) => (String c (String g d), r)
                    end
               else match span_digits s' with
                    | (EmptyString, _) => (EmptyString, s)
                    | (d, r) => (String c d, r)
                    end
           | EmptyString => (EmptyString, s)
           end
      else (EmptyString, s)
  | EmptyString => (EmptyString, s)
  end.

Definition scan_number (s : string) : option (string * string) :=
  match scan_integer s with
  | None => None
  | Some (i, r1) =>
      let (f, r2) := scan_frac r1 in
      let (e, r3) := scan_exp r2 in
      Some (i ++ f ++ e, r3)
  end.

(** A literal that [NUMBER_RE] matches whole: a finite number. *)
Definition is_number_literal (lit : string) : bool :=
  match scan_number lit with
  | Some (tok, EmptyString) => String.eqb tok lit
  | _ => false
  end.

Definition keyword (kw : string) (v : pyval) (s : string)
  : option (pyval * string) :=
  if prefix kw s then Some (v, drop (String.length kw) s) else None.

Definition or_else {A} (a : option A) (b : option A) : option A :=
  match a with Some _ => a | None => b end.

(** The cases of [scan_once] that are not a string, an object or an
    array, in its order: the three constants, a number, the three names of
    the numbers that are not finite. *)
Definition scan_literal (s : string) : option (pyval * string) :=
  or_else (keyword "null" PNone s)
 (or_else (keyword "true" (PBool true) s)
 (or_else (keyword "false" (PBool false) s)
 (or_else (match scan_number s with
           | Some (tok, r) => Some (PNum tok, r)
           | None => None
           end)
 (or_else (keyword "NaN" (PNum "NaN") s)
 (or_else (keyword "Infinity" (PNum "Infinity") s)
          (keyword "-Infinity" (PNum "-Infinity") s)))))).

(** [scan_once], [JSONArray] and [JSONObject].  [fuel] bounds the depth of
    the calls; a scan that ends needs no more fuel than the characters it
    reads, so the length of the text is always enough. *)
Fixpoint scan_once (fuel : nat) (s : string) {struct fuel}
  : option (pyval * string) :=
  match fuel with
  | O => None
  | S f =>
      match s with
      | EmptyString => None
      | String c s' =>
          if Ascii.eqb c dquote then
            match scanstring s' Plain with
            | Some (str, r) => Some (PStr str, r)
            | None => None
            end
          else if Ascii.eqb c "{" then
            match expect "}" (skip_ws s') with
            | Some r => Some (PDict [], r)
            | None =>
                match expect dquote (skip_ws s') with
                | Some r =>
                    match members f r with
                    | Some (pairs, r') => Some (PDict (dict_of_pairs pairs), r')
                    | None => None
                    end
                | None => None
                end
            end
          else if Ascii.eqb c "[" then
            match expect "]" (skip_ws s') with
            | Some r => Some (PList [], r)
            | None =>
                match elements f (skip_ws s') with
                | Some (l, r) => Some (PList l, r)
                | None => None
                end
            end
          else scan_literal s
      end
  end

with elements (fuel : nat) (s : string) {struct fuel}
  : option (list pyval * string) :=
  match fuel with
  | O => None
  | S f =>
      match scan_once f s with
      | None => None
      | Some (v, r) =>
          match expect "]" (skip_ws r) with
          | Some r' => Some ([v], r')
          | None =>
              match expect "," (skip_ws r) with
              | Some r' =>
                  match elements f (skip_ws r') with
                  | Some (l, r'') => Some (v :: l, r'')
                  | None => None
                  end
              | None => None
              end
          end
      end
  end

with members (fuel : nat) (s : string) {struct fuel}
  : option (list (string * pyval) * string) :=
  match fuel with
  | O => None
  | S f =>
      match scanstring s Plain with
      | None => None
      | Some (key, r) =>
          match expect ":" (skip_ws r) with
          | None => None
          | Some r1 =>
              match scan_once f (skip_ws r1) with
              | None => None
              | Some (v, r2) =>
                  match expect "}" (skip_ws r2) with
                  | Some r3 => Some ([(key, v)], r3)
                  | None =>
                      match expect "," (skip_ws r2) with
                      | Some r3 =>
                          match expect dquote (skip_ws r3) with
                          | Some r4 =>
                              match members f r4 with
                              | Some (l, r5) => Some ((key, v) :: l, r5)
                              | None => None
                              end
                          | None => None
                          end
                      | None => None
                      end
                  end
              end
          end
      end
  end.

(** [json.loads]: one value, optional white space around it, nothing after. *)
Definition json_loads (s : string) : result pyval :=
  match scan_once (S (String.length s)) (skip_ws s) with
  | Some (v, r) =>
      match skip_ws r with
      | EmptyString => Ok v
      | String _ _ => Raise JSONDecodeError
      end
  | None => Raise JSONDecodeError
  end.

End Json.


(** ** Constants of [schema/const.py] and [const.py] *)

Module Const.

(** [schema/const.py] and [const.py] are not among the sources: the values
    of their constants are taken from the specification. *)

(** Modelled from the spec: the remote names of the schedule fields, the
    lower-camel-case forms of the fields the spec lists (daily-schedules,
    day-of-week, dhw-state, switchpoints, temperature, time-of-day) and of
    the heat setpoint of a switchpoint. *)
Definition SZ_DAILY_SCHEDULES : string := "dailySchedules".
Definition SZ_DAY_OF_WEEK : string := "dayOfWeek".
Definition SZ_DHW_STATE : string := "dhwState".
Definition SZ_SWITCHPOINTS : string := "switchpoints".
Definition SZ_TEMPERATURE : string := "temperature".
Definition SZ_TIME_OF_DAY : string := "timeOfDay".
Definition SZ_HEAT_SETPOINT : string := "heatSetpoint".

(** Modelled from the spec: the two type discriminators, which start the
    paths of the remote resources. *)
Definition SZ_TEMPERATURE_ZONE : string := "temperatureZone".
Definition SZ_DOMESTIC_HOT_WATER : string := "domesticHotWater".

(** Modelled from the spec: the fields of a configuration, named as the
    properties that read them. *)
Definition SZ_ZONE_ID : string := "zoneId".
Definition SZ_DHW_ID : string := "dhwId".
Definition SZ_NAME : string := "name".
Definition SZ_MODEL_TYPE : string := "modelType".
Definition SZ_ZONE_TYPE : string := "zoneType".
Definition SZ_SETPOINT_CAPABILITIES : string := "setpointCapabilities".
Definition SZ_SCHEDULE_CAPABILITIES : string := "scheduleCapabilities".
Definition SZ_DHW_STATE_CAPABILITIES_RESPONSE : string :=
  "dhwStateCapabilitiesResponse".
Definition SZ_SCHEDULE_CAPABILITIES_RESPONSE : string :=
  "scheduleCapabilitiesResponse".

(** Modelled from the spec: the fields of a status, named as the properties
    that read them. *)
Definition SZ_ACTIVE_FAULTS : string := "activeFaults".
Definition SZ_TEMPERATURE_STATUS : string := "temperatureStatus".
Definition SZ_SETPOINT_STATUS : string := "setpointStatus".
Definition SZ_STATE_STATUS : string := "stateStatus".

(** Modelled from the spec: the fields and the modes of the heating
    command, as the spec writes its payloads. *)
Definition SZ_SETPOINT_MODE : string := "SetpointMode".
Definition SZ_HEAT_SETPOINT_VALUE : string := "HeatSetpointValue".
Definition SZ_TIME_UNTIL : string := "TimeUntil".
Definition SZ_PERMANENT_OVERRIDE : string := "PermanentOverride".
Definition SZ_TEMPORARY_OVERRIDE : string := "TemporaryOverride".
Definition SZ_FOLLOW_SCHEDULE : string := "FollowSchedule".

(** Modelled from the spec: the one timestamp format of the client, "an
    external constant" whose pattern the spec leaves open; nothing below
    depends on its value. *)
Definition API_STRFTIME : string := "%Y-%m-%dT%H:%M:%SZ".

End Const.

(** ** The schedule schema *)

Module Schema.
Import Text Py Json Const.

(** [schema/schedule.py] is not among the sources: [SCH_SCHEDULE] is taken
    from the specification.  A schedule is a dict whose only field is the
    sequence of daily schedules; a daily schedule has a day name and a
    sequence of switchpoints; a switchpoint has a fixed-format time of day
    and either a heat setpoint (a number) or a hot-water state.  Every field is
    required and no other field is accepted, in any order.  The number of
    daily schedules is not constrained here. *)

Definition has_key (d : dict) (k : string) : bool :=
  match dict_get d k with Some _ => true | None => false end.

(** All the [required] keys and no other one. *)
Definition exact_keys (required : list string) (d : dict) : bool :=
  (Nat.eqb (List.length d) (List.length required)
   && forallb (has_key d) required)%bool.

Definition field (k : string) (p : pyval -> bool) (d : dict) : bool :=
  match dict_get d k with Some v => p v | None => false end.

Definition list_of (p : pyval -> bool) (v : pyval) : bool :=
  match v with PList l => forallb p l | _ => false end.

(** Modelled from the spec: the day names of the remote representation. *)
Definition DAYS_OF_WEEK : list string :=
  ["Monday"; "Tuesday"; "Wednesday"; "Thursday"; "Friday"; "Saturday";
   "Sunday"].

Definition is_day_name (v : pyval) : bool :=
  match v with
  | PStr s => existsb (String.eqb s) DAYS_OF_WEEK
  | _ => false
  end.

Definition digit_value (c : ascii) : nat := N.to_nat (code c - 48).

(** Modelled from the spec: a fixed-format time of day, ["HH:MM:SS"] as
    [strptime] accepts it. *)
Definition is_time_of_day (v : pyval) : bool :=
  match v with
  | PStr (String h1 (String h2 (String c1 (String m1 (String m2
            (String c2 (String s1 (String s2 EmptyString)))))))) =>
      (forallb is_digit [h1; h2; m1; m2; s1; s2]
       && Ascii.eqb c1 ":" && Ascii.eqb c2 ":"
       && Nat.ltb (10 * digit_value h1 + digit_value h2) 24
       && Nat.ltb (10 * digit_value m1 + digit_value m2) 60
       && Nat.ltb (10 * digit_value s1 + digit_value s2) 60)%bool
  | _ => false
  end.

(** Modelled from the spec: a heat setpoint is a finite number. *)
Definition is_number (v : pyval) : bool :=
  match v with
  | PNum lit => is_number_literal lit
  | _ => false
  end.

(** Modelled from the spec: a hot-water state is ["On"] or ["Off"]. *)
Definition is_dhw_state (v : pyval) : bool :=
  match v with
  | PStr s => (String.eqb s "On" || String.eqb s "Off")%bool
  | _ => false
  end.

(** Modelled from the spec: a switchpoint has a time of day and either a
    heat setpoint or a hot-water state. *)
Definition SCH_SWITCHPOINT (v : pyval) : bool :=
  match v with
  | PDict d =>
      (exact_keys [SZ_HEAT_SETPOINT; SZ_TIME_OF_DAY] d
       && field SZ_HEAT_SETPOINT is_number d
       && field SZ_TIME_OF_DAY is_time_of_day d)
      || (exact_keys [SZ_DHW_STATE; SZ_TIME_OF_DAY] d
          && field SZ_DHW_STATE is_dhw_state d
          && field SZ_TIME_OF_DAY is_time_of_day d)
  | _ => false
  end%bool.

(** Modelled from the spec: a daily schedule has a day name and a sequence
    of switchpoints. *)
Definition SCH_DAILY_SCHEDULE (v : pyval) : bool :=
  match v with
  | PDict d =>
      exact_keys [SZ_DAY_OF_WEEK; SZ_SWITCHPOINTS] d
      && field SZ_DAY_OF_WEEK is_day_name d
      && field SZ_SWITCHPOINTS (list_of SCH_SWITCHPOINT) d
  | _ => false
  end%bool.

(** Modelled from the spec: a schedule is the sequence of its daily
    schedules. *)
Definition SCH_SCHEDULE (v : pyval) : bool :=
  match v with
  | PDict d =>
      exact_keys [SZ_DAILY_SCHEDULES] d
      && field SZ_DAILY_SCHEDULES (list_of SCH_DAILY_SCHEDULE) d
  | _ => false
  end%bool.

End Schema.

(** ** The broker and the state of a call *)

Module Broker.
Import Py.

Inductive schema_name : Type :=
| SCH_DHW_STATUS
| SCH_ZONE_STATUS
| SCH_SCHEDULE.

(** A call of [Broker.get] or [Broker.put] with its arguments. *)
Inductive request : Type :=
| GET (url : string) (schema : schema_name)
| PUT (url : string) (json : pyval) (schema : option schema_name).

(** The broker is outside the sources: it is given by what it answers (a
    decoded, validated payload, or an exception) to a request that follows
    the requests made so far. *)
Definition Broker : Type := list request -> request -> result pyval.

Record ControlSystem : Type := { tcs_broker : Broker }.

(** The instance attributes of a zone or hot-water object. *)
Record instance : Type := {
  _broker : Broker;
  _config : dict;
  _id : pyval;
  _status : pyval
}.

(** What a coroutine of the object can change: the object and the list of
    the broker calls made. *)
Record state : Type := { self : instance; calls : list request }.

Definition M (A : Type) : Type := state -> result A * state.

Definition ret {A} (a : A) : M A := fun s => (Ok a, s).
Definition raise {A} (e : exn) : M A := fun s => (Raise e, s).
Definition bind {A B} (m : M A) (k : A -> M B) : M B :=
  fun s =>
    match m s with
    | (Ok a, s') => k a s'
    | (Raise e, s') => (Raise e, s')
    end.
Definition lift {A} (r : result A) : M A := fun s => (r, s).
Definition get_self : M instance := fun s => (Ok (self s), s).

Definition call (r : request) : M pyval :=
  fun s =>
    (_broker (self s) (calls s) r,
     {| self := self s; calls := calls s ++ [r] |}).

Definition broker_get (url : string) (schema : schema_name) : M pyval :=
  call (GET url schema).
Definition broker_put (url : string) (json : pyval)
  (schema : option schema_name) : M pyval :=
  call (PUT url json schema).

End Broker.

Declare Scope py_scope.
Delimit Scope py_scope with py.
Notation "x <- m ;; k" := (Broker.bind m (fun x => k))
  (at level 61, m at next level, right associativity) : py_scope.

(** ** [zone.py] *)

Module ZoneBaseDeprecated.
Import Py Broker.

Definition NoReturn : Type := Empty_set.

Definition zone_type (self : instance) : result NoReturn :=
  Raise (NotImplementedError "ZoneBase.zone_type is deprecated, use ._type").

Definition schedule : M NoReturn :=
  raise (NotImplementedError
           "ZoneBase.schedule() is deprecrated, use .get_schedule()").

End ZoneBaseDeprecated.

Module ZoneBase.
Import Text Py Json Const Broker.
Local Open Scope py_scope.

Definition CAPITALIZED_KEYS : list string :=
  [SZ_DAILY_SCHEDULES; SZ_DAY_OF_WEEK; SZ_DHW_STATE; SZ_SWITCHPOINTS;
   SZ_TEMPERATURE; SZ_TIME_OF_DAY].

(** [super().__init__(tcs)] and the attributes the subclass sets next. *)
Definition new (tcs : ControlSystem) (config : dict) (id : pyval) : instance :=
  {| _broker := tcs_broker tcs; _config := config; _id := id;
     _status := PDict [] |}.

Definition _update_status (status : pyval) : M unit :=
  fun s =>
    (Ok tt,
     {| self := {| _broker := _broker (self s); _config := _config (self s);
                   _id := _id (self s); _status := status |};
        calls := calls s |}).

Definition activeFaults (self : instance) : result pyval :=
  py_get (_status self) SZ_ACTIVE_FAULTS.

Definition temperatureStatus (self : instance) : result pyval :=
  py_get (_status self) SZ_TEMPERATURE_STATUS.

(** The loop of [get_schedule] over [enumerate(...)]: each item gets its
    position under the capitalized day-of-week key. *)
Fixpoint number_days (day_of_week : nat) (items : list pyval)
  : result (list pyval) :=
  match items with
  | [] => Ok []
  | setpoints :: rest =>
      match setitem setpoints (capitalize SZ_DAY_OF_WEEK) (py_int day_of_week) with
      | Raise e => Raise e
      | Ok setpoints' =>
          match number_days (S day_of_week) rest with
          | Raise e => Raise e
          | Ok rest' => Ok (setpoints' :: rest')
          end
      end
  end.

(** The items of a list are the objects the loop changes; the items that
    iterating a [str] or a [dict] yields are not part of [result]. *)
Definition store_days (result days : pyval) (items : list pyval) : pyval :=
  match result, days with
  | PDict d, PList _ => PDict (dict_set d (capitalize SZ_DAILY_SCHEDULES) (PList items))
  | _, _ => result
  end.

Definition replace_keys (response_text : string) : string :=
  fold_left
    (fun text key_name => str_replace text key_name (capitalize key_name))
    CAPITALIZED_KEYS response_text.

(** [except (OverflowError, TypeError, ValueError)]; [JSONDecodeError] is a
    subclass of [ValueError]. *)
Definition except_dumps (exc : exn) : bool :=
  match exc with
  | OverflowError _ | TypeError _ | ValueError _ | JSONDecodeError => true
  | _ => false
  end.

(** [except json.JSONDecodeError] *)
Definition except_decode (exc : exn) : bool :=
  match exc with
  | JSONDecodeError => true
  | _ => false
  end.

Section Class.

(** The class attributes that the two subclasses set. *)
Variable _type : string.
Variable STATUS_SCHEMA : schema_name.

Definition url (me : instance) (leaf : string) : string :=
  _type ++ "/" ++ py_str (_id me) ++ "/" ++ leaf.

Definition _refresh_status : M pyval :=
  me <- get_self ;;
  status <- broker_get (url me "status") STATUS_SCHEMA ;;
  _ <- _update_status status ;;
  ret status.

Definition get_schedule : M pyval :=
  me <- get_self ;;
  schedule <- broker_get (url me "schedule") SCH_SCHEDULE ;;
  response_text <- lift (json_dumps schedule) ;;
  let response_text := replace_keys response_text in
  result <- lift (json_loads response_text) ;;
  days <- lift (subscript result (capitalize SZ_DAILY_SCHEDULES)) ;;
  items <- lift (py_iter days) ;;
  items' <- lift (number_days 0 items) ;;
  ret (store_days result days items').

Definition set_schedule (schedule : pyval) : M unit :=
  me <- get_self ;;
  schedule <-
    match schedule with
    | PDict _ =>
        match json_dumps schedule with
        | Ok _ => ret schedule
        | Raise exc =>
            if except_dumps exc
            then raise (InvalidSchedule ("Invalid schedule: " ++ str_exn exc))
            else raise exc
        end
    | PStr text =>
        match json_loads text with
        | Ok value => ret value
        | Raise exc =>
            if except_decode exc
            then raise (InvalidSchedule ("Invalid schedule: " ++ str_exn exc))
            else raise exc
        end
    | _ =>
        raise (InvalidSchedule
                 ("Invalid schedule type: <class '" ++ type_name schedule ++ "'>"))
    end ;;
  _ <- broker_put (url me "schedule") schedule (Some SCH_SCHEDULE) ;;
  ret tt.

End Class.

End ZoneBase.

(** A [datetime] is given by what its [strftime] prints for a format. *)
Module Datetime.

Record dt : Type := { strftime : string -> string }.

End Datetime.

Module Zone.
Import Text Py Json Const Broker Datetime.
Local Open Scope py_scope.

Definition STATUS_SCHEMA : schema_name := SCH_ZONE_STATUS.
Definition _type : string := SZ_TEMPERATURE_ZONE.

Definition zoneId_of (config : dict) : result pyval := getitem config SZ_ZONE_ID.

Definition zoneId (self : instance) : result pyval := zoneId_of (_config self).

(** [Zone(tcs, config)]: the assertion (assertions are enabled, as by
    default) evaluates [self.zoneId], then [self._id] is set from it. *)
Definition __init__ (tcs : ControlSystem) (config : dict) : result instance :=
  match zoneId_of config with
  | Raise e => Raise e
  | Ok id =>
      if truthy id
      then match zoneId_of config with
           | Raise e => Raise e
           | Ok id' => Ok (ZoneBase.new tcs config id')
           end
      else Raise (AssertionError "Invalid config dict")
  end.

Definition modelType (self : instance) : result pyval :=
  getitem (_config self) SZ_MODEL_TYPE.
Definition setpointCapabilities (self : instance) : result pyval :=
  getitem (_config self) SZ_SETPOINT_CAPABILITIES.
Definition scheduleCapabilities (self : instance) : result pyval :=
  getitem (_config self) SZ_SCHEDULE_CAPABILITIES.
Definition zoneType (self : instance) : result pyval :=
  getitem (_config self) SZ_ZONE_TYPE.

Definition name (self : instance) : result pyval :=
  let found := get (_config self) SZ_NAME in
  if truthy found then Ok found else getitem (_config self) SZ_NAME.

Definition setpointStatus (self : instance) : result pyval :=
  py_get (_status self) SZ_SETPOINT_STATUS.

Definition activeFaults := ZoneBase.activeFaults.
Definition temperatureStatus := ZoneBase.temperatureStatus.
Definition _refresh_status : M pyval := ZoneBase._refresh_status _type STATUS_SCHEMA.
Definition get_schedule : M pyval := ZoneBase.get_schedule _type.
Definition set_schedule : pyval -> M unit := ZoneBase.set_schedule _type.
Definition zone_type := ZoneBaseDeprecated.zone_type.
Definition schedule := ZoneBaseDeprecated.schedule.

Definition _set_mode (heat_setpoint : pyval) : M unit :=
  me <- get_self ;;
  _ <- broker_put (ZoneBase.url _type me "heatSetpoint") heat_setpoint None ;;
  ret tt.

Definition set_temperature (temperature : pyval) (until : option dt) : M unit :=
  let mode :=
    match until with
    | None =>
        PDict [(SZ_SETPOINT_MODE, PStr SZ_PERMANENT_OVERRIDE);
               (SZ_HEAT_SETPOINT_VALUE, temperature);
               (SZ_TIME_UNTIL, PNone)]
    | Some until =>
        PDict [(SZ_SETPOINT_MODE, PStr SZ_TEMPORARY_OVERRIDE);
               (SZ_HEAT_SETPOINT_VALUE, temperature);
               (SZ_TIME_UNTIL, PStr (strftime until API_STRFTIME))]
    end in
  _set_mode mode.

Definition cancel_temp_override : M unit :=
  let mode :=
    PDict [(SZ_SETPOINT_MODE, PStr SZ_FOLLOW_SCHEDULE);
           (SZ_HEAT_SETPOINT_VALUE, PNum "0.0");
           (SZ_TIME_UNTIL, PNone)] in
  _set_mode mode.

End Zone.

(** ** [hotwater.py] *)

Module HotWaterDeprecated.
Import Py Broker.

Definition NoReturn : Type := Empty_set.

Definition zoneId (self : instance) : result NoReturn :=
  Raise (NotImplementedError "HotWater.zoneId is deprecated, use .dhwId (or ._id)").

Definition get_dhw_state (args : list pyval) (kwargs : dict) : M NoReturn :=
  raise (NotImplementedError
           "HotWater.get_dhw_state() is deprecated, use .update_status()").

Definition set_dhw_on (args : list pyval) (kwargs : dict) : M NoReturn :=
  raise (NotImplementedError "HotWater.set_dhw_on() is deprecated, use .set_on()").

Definition set_dhw_off (args : list pyval) (kwargs : dict) : M NoReturn :=
  raise (NotImplementedError
           "HotWater.set_dhw_off() is deprecated, use .set_off()").

Definition set_dhw_auto (args : list pyval) (kwargs : dict) : M NoReturn :=
  raise (NotImplementedError
           "HotWater.set_dhw_auto() is deprecated, use .set_auto()").

End HotWaterDeprecated.

Module HotWater.
Import Text Py Json Const Broker Datetime.
Local Open Scope py_scope.

Definition STATUS_SCHEMA : schema_name := SCH_DHW_STATUS.
Definition _type : string := SZ_DOMESTIC_HOT_WATER.

Definition dhwId_of (config : dict) : result pyval := getitem config SZ_DHW_ID.

Definition dhwId (self : instance) : result pyval := dhwId_of (_config self).

(** [HotWater(tcs, config)], as [Zone(tcs, config)] with [self.dhwId]. *)
Definition __init__ (tcs : ControlSystem) (config : dict) : result instance :=
  match dhwId_of config with
  | Raise e => Raise e
  | Ok id =>
      if truthy id
      then match dhwId_of config with
           | Raise e => Raise e
           | Ok id' => Ok (ZoneBase.new tcs config id')
           end
      else Raise (AssertionError "Invalid config dict")
  end.

Definition dhwStateCapabilitiesResponse (self : instance) : result pyval :=
  getitem (_config self) SZ_DHW_STATE_CAPABILITIES_RESPONSE.
Definition scheduleCapabilitiesResponse (self : instance) : result pyval :=
  getitem (_config self) SZ_SCHEDULE_CAPABILITIES_RESPONSE.

Definition name (self : instance) : result pyval := Ok (PStr "Domestic Hot Water").

Definition stateStatus (self : instance) : result pyval :=
  py_get (_status self) SZ_STATE_STATUS.

Definition activeFaults := ZoneBase.activeFaults.
Definition temperatureStatus := ZoneBase.temperatureStatus.
Definition _refresh_status : M pyval := ZoneBase._refresh_status _type STATUS_SCHEMA.
Definition get_schedule : M pyval := ZoneBase.get_schedule _type.
Definition set_schedule : pyval -> M unit := ZoneBase.set_schedule _type.
Definition zone_type := ZoneBaseDeprecated.zone_type.
Definition schedule := ZoneBaseDeprecated.schedule.
Definition zoneId := HotWaterDeprecated.zoneId.
Definition get_dhw_state := HotWaterDeprecated.get_dhw_state.
Definition set_dhw_on := HotWaterDeprecated.set_dhw_on.
Definition set_dhw_off := HotWaterDeprecated.set_dhw_off.
Definition set_dhw_auto := HotWaterDeprecated.set_dhw_auto.

Definition _set_mode (state : pyval) : M unit :=
  me <- get_self ;;
  _ <- broker_put (ZoneBase.url _type me "state") state None ;;
  ret tt.

Definition set_on (until : option dt) : M unit :=
  let mode :=
    match until with
    | None =>
        PDict [("Mode", PStr "PermanentOverride"); ("State", PStr "On");
               ("UntilTime", PNone)]
    | Some until =>
        PDict [("Mode", PStr "TemporaryOverride"); ("State", PStr "On");
               ("UntilTime", PStr (strftime until API_STRFTIME))]
    end in
  _set_mode mode.

Definition set_off (until : option dt) : M unit :=
  let mode :=
    match until with
    | None =>
        PDict [("Mode", PStr "PermanentOverride"); ("State", PStr "Off");
               ("UntilTime", PNone)]
    | Some until =>
        PDict [("Mode", PStr "TemporaryOverride"); ("State", PStr "Off");
               ("UntilTime", PStr (strftime until API_STRFTIME))]
    end in
  _set_mode mode.

Definition set_auto : M unit :=
  let mode :=
    PDict [("Mode", PStr "FollowSchedule"); ("State", PStr "");
           ("UntilTime", PNone)] in
  _set_mode mode.

End HotWater.

(** * Vocabulary of the statements *)

Module Spec.
Import Text Py Json Const Broker.

(** What a coroutine that makes the single broker call [r] returns and
    leaves behind: [None] when the broker answers, the broker's exception
    otherwise, and the call recorded in both cases. *)
Definition answer (s : state) (r : request) : result unit :=
  match _broker (self s) (calls s) r with
  | Ok _ => Ok tt
  | Raise e => Raise e
  end.

Definition after (s : state) (r : request) : state :=
  {| self := self s; calls := calls s ++ [r] |}.

(** The object with its status replaced. *)
Definition with_status (me : instance) (status : pyval) : instance :=
  {| _broker := _broker me; _config := _config me; _id := _id me;
     _status := status |}.

(** An accessor reads a field of a payload: the value sent, or [None] when
    the payload has no such field. *)
Definition reads (accessor : instance -> result pyval) (key : string)
  (payload : dict) (me : instance) : Prop :=
  match dict_get payload key with
  | Some v => accessor me = Ok v
  | None => accessor me = Ok PNone
  end.

Fixpoint contains (needle hay : string) : bool :=
  (prefix needle hay ||
   match hay with
   | EmptyString => false
   | String _ hay' => contains needle hay'
   end)%bool.

(** The exception of a retired operation: a [NotImplementedError] whose
    message tells which operation to use. *)
Definition deprecated_use (replacement : string) (e : exn) : Prop :=
  exists msg, e = NotImplementedError msg
              /\ contains ("use " ++ replacement) msg = true.

(** The failure of a constructor on a configuration whose identifier field
    [id_field] is missing (the lookup fails) or empty (the assertion
    fails). *)
Definition config_integrity_error (id_field : string) (e : exn) : Prop :=
  e = KeyError id_field \/ e = AssertionError "Invalid config dict".

(** A broker that answers every request with the same payload, one that
    always fails, and objects over them. *)
Definition answering (payload : pyval) : Broker := fun _ _ => Ok payload.
Definition failing : Broker := fun _ _ => Raise (BrokerError "503").

Definition sample_status : dict :=
  [(SZ_TEMPERATURE_STATUS,
    PDict [("temperature", PNum "20.5"); ("isAvailable", PBool true)]);
   (SZ_ACTIVE_FAULTS, PList [])].

Definition sample_zone (b : Broker) : instance :=
  ZoneBase.new {| tcs_broker := b |}
    [(SZ_ZONE_ID, PStr "3432521"); (SZ_NAME, PStr "Kitchen")] (PStr "3432521").

Definition sample_state (b : Broker) : state :=
  {| self := sample_zone b; calls := [] |}.

(** A schedule as the remote side sends it, with the days listed from
    Sunday back to Monday and the fields of the second switchpoint in the
    other order. *)
Definition sample_day (day : string) : pyval :=
  PDict [(SZ_DAY_OF_WEEK, PStr day);
         (SZ_SWITCHPOINTS,
          PList [PDict [(SZ_HEAT_SETPOINT, PNum "21.5");
                        (SZ_TIME_OF_DAY, PStr "06:30:00")];
                 PDict [(SZ_TIME_OF_DAY, PStr "22:00:00");
                        (SZ_HEAT_SETPOINT, PNum "16.0")]])].

Definition sample_schedule : pyval :=
  PDict [(SZ_DAILY_SCHEDULES,
          PList (map sample_day (rev Schema.DAYS_OF_WEEK)))].

End Spec.

(** ** The schedule codec, structurally

    The vocabulary in which the read path is described: the values that the
    encoder writes without escapes, the renaming of the known keys over the
    decoded tree, the numbering of the daily schedules, and the content of
    a schedule. *)

Module Codec.
Import Text Py Json Const.

Definition plain_char (c : ascii) : bool :=
  (in_range 32 126 c && negb (Ascii.eqb c dquote)
   && negb (Ascii.eqb c backslash))%bool.

Definition plain (s : string) : bool := str_all plain_char s.

Definition numeric_char (c : ascii) : bool :=
  (is_digit c || Ascii.eqb c "-" || Ascii.eqb c "+" || Ascii.eqb c "."
   || Ascii.eqb c "e" || Ascii.eqb c "E")%bool.

(** A character that occurs in none of the keys to replace. *)
Definition separator (c : ascii) : bool :=
  forallb (str_all (differs c)) ZoneBase.CAPITALIZED_KEYS.

(** Serializable values whose strings need no escape and whose numbers are
    finite. *)
Fixpoint canonical (v : pyval) : bool :=
  match v with
  | PNone => true
  | PBool _ => true
  | PNum lit => is_number_literal lit
  | PStr s => plain s
  | PList l => forallb canonical l
  | PDict d => forallb (fun kv => (plain (fst kv) && canonical (snd kv))%bool) d
  | PObject _ => false
  | PRef _ => false
  end.

Fixpoint distinct (keys : list string) : bool :=
  match keys with
  | [] => true
  | k :: rest => (negb (existsb (String.eqb k) rest) && distinct rest)%bool
  end.

(** No dict of the value has a key twice. *)
Fixpoint unique_keys (v : pyval) : bool :=
  match v with
  | PList l => forallb unique_keys l
  | PDict d =>
      (distinct (map fst d) && forallb (fun kv => unique_keys (snd kv)) d)%bool
  | _ => true
  end.

(** A bound on the depth of calls that decoding the text of a value takes. *)
Fixpoint weight (v : pyval) : nat :=
  match v with
  | PList l => S (list_sum (map (fun x => S (weight x)) l))
  | PDict d => S (list_sum (map (fun kv => S (weight (snd kv))) d))
  | _ => 1
  end.

(** Text that cannot continue a number: empty, or starting with a character
    that no number contains. *)
Definition delimited (rest : string) : bool :=
  match rest with
  | EmptyString => true
  | String c _ => negb (numeric_char c)
  end.

(** The first character of the text of a serializable value. *)
Definition value_start (c : ascii) : bool :=
  (Ascii.eqb c dquote || Ascii.eqb c "{" || Ascii.eqb c "[" || Ascii.eqb c "n"
   || Ascii.eqb c "t" || Ascii.eqb c "f" || is_digit c || Ascii.eqb c "-")%bool.

Definition starts_with (p : ascii -> bool) (s : string) : bool :=
  match s with
  | EmptyString => false
  | String c _ => p c
  end.

(** [f] applied to every string of a value, keys included. *)
Fixpoint map_str (f : string -> string) (v : pyval) : pyval :=
  match v with
  | PStr s => PStr (f s)
  | PList l => PList (map (map_str f) l)
  | PDict d => PDict (map (fun kv => (f (fst kv), map_str f (snd kv))) d)
  | _ => v
  end.

(** The renaming as a transform of the tree: each dict key of the known set
    is capitalized, nothing else changes. *)
Definition rename_key (k : string) : string :=
  if existsb (String.eqb k) ZoneBase.CAPITALIZED_KEYS then capitalize k else k.

Fixpoint rename_keys (v : pyval) : pyval :=
  match v with
  | PList l => PList (map rename_keys l)
  | PDict d => PDict (map (fun kv => (rename_key (fst kv), rename_keys (snd kv))) d)
  | _ => v
  end.

(** The daily schedules numbered from [start] in the order of the list. *)
Fixpoint number_from (start : nat) (days : list pyval) : list pyval :=
  match days with
  | [] => []
  | day :: rest =>
      match day with
      | PDict d => PDict (dict_set d (capitalize SZ_DAY_OF_WEEK) (py_int start))
      | _ => day
      end :: number_from (S start) rest
  end.

(** Decoding in the words of the specification: rename the known fields,
    then number the daily schedules from 0. *)
Definition decode (schedule : pyval) : pyval :=
  match rename_keys schedule with
  | PDict d =>
      match dict_get d (capitalize SZ_DAILY_SCHEDULES) with
      | Some (PList days) =>
          PDict (dict_set d (capitalize SZ_DAILY_SCHEDULES)
                   (PList (number_from 0 days)))
      | _ => PDict d
      end
  | v => v
  end.

(** The names of the fields of a schedule, remote and internal. *)
Record field_names : Type := {
  daily_schedules : string;
  switchpoints : string;
  time_of_day : string;
  heat_setpoint : string;
  dhw_state : string
}.

Definition remote_names : field_names :=
  {| daily_schedules := SZ_DAILY_SCHEDULES; switchpoints := SZ_SWITCHPOINTS;
     time_of_day := SZ_TIME_OF_DAY; heat_setpoint := SZ_HEAT_SETPOINT;
     dhw_state := SZ_DHW_STATE |}.

Definition internal_names : field_names :=
  {| daily_schedules := capitalize SZ_DAILY_SCHEDULES;
     switchpoints := capitalize SZ_SWITCHPOINTS;
     time_of_day := capitalize SZ_TIME_OF_DAY;
     heat_setpoint := SZ_HEAT_SETPOINT;
     dhw_state := capitalize SZ_DHW_STATE |}.

Fixpoint traverse {A B} (f : A -> option B) (l : list A) : option (list B) :=
  match l with
  | [] => Some []
  | x :: l' =>
      match f x, traverse f l' with
      | Some y, Some r => Some (y :: r)
      | _, _ => None
      end
  end.

(** The (time of day, setpoint or state) pair of a switchpoint. *)
Definition switchpoint_pair (n : field_names) (sp : pyval)
  : option (pyval * pyval) :=
  match sp with
  | PDict d =>
      match dict_get d (time_of_day n) with
      | None => None
      | Some t =>
          match dict_get d (heat_setpoint n) with
          | Some x => Some (t, x)
          | None =>
              match dict_get d (dhw_state n) with
              | Some x => Some (t, x)
              | None => None
              end
          end
      end
  | _ => None
  end.

Definition day_switchpoints (n : field_names) (day : pyval)
  : option (list (pyval * pyval)) :=
  match day with
  | PDict d =>
      match dict_get d (switchpoints n) with
      | Some (PList sps) => traverse (switchpoint_pair n) sps
      | _ => None
      end
  | _ => None
  end.

(** The content of a schedule: for each daily schedule in order, its
    switchpoints in order. *)
Definition schedule_content (n : field_names) (schedule : pyval)
  : option (list (list (pyval * pyval))) :=
  match schedule with
  | PDict d =>
      match dict_get d (daily_schedules n) with
      | Some (PList days) => traverse (day_switchpoints n) days
      | _ => None
      end
  | _ => None
  end.

(** The shapes that the schedule schema accepts, field order included. *)
Definition time_char (c : ascii) : bool := (is_digit c || Ascii.eqb c ":")%bool.

Inductive setpoint_field : string -> pyval -> Prop :=
| heat_field (lit : string) :
    is_number_literal lit = true -> setpoint_field SZ_HEAT_SETPOINT (PNum lit)
| dhw_field (state : string) :
    state = "On" \/ state = "Off" -> setpoint_field SZ_DHW_STATE (PStr state).

Inductive switchpoint_shape : pyval -> Prop :=
| value_then_time (k : string) (x : pyval) (t : string) :
    setpoint_field k x -> str_all time_char t = true ->
    switchpoint_shape (PDict [(k, x); (SZ_TIME_OF_DAY, PStr t)])
| time_then_value (k : string) (x : pyval) (t : string) :
    setpoint_field k x -> str_all time_char t = true ->
    switchpoint_shape (PDict [(SZ_TIME_OF_DAY, PStr t); (k, x)]).

Inductive day_shape : pyval -> Prop :=
| name_then_switchpoints (day : string) (sps : list pyval) :
    In day Schema.DAYS_OF_WEEK -> Forall switchpoint_shape sps ->
    day_shape (PDict [(SZ_DAY_OF_WEEK, PStr day); (SZ_SWITCHPOINTS, PList sps)])
| switchpoints_then_name (day : string) (sps : list pyval) :
    In day Schema.DAYS_OF_WEEK -> Forall switchpoint_shape sps ->
    day_shape (PDict [(SZ_SWITCHPOINTS, PList sps); (SZ_DAY_OF_WEEK, PStr day)]).

Inductive schedule_shape : pyval -> Prop :=
| daily_schedules_of (days : list pyval) :
    Forall day_shape days ->
    schedule_shape (PDict [(SZ_DAILY_SCHEDULES, PList days)]).

(** The text of a member of a dict, and the same after its opening quote and
    in front of [tail]. *)
Definition member_text (kv : string * pyval) : string :=
  encode_str (fst kv) ++ ": " ++ encode (snd kv).

Definition after_quote (k : string) (x : pyval) (tail : string) : string :=
  k ++ String dquote (String ":" (String " " (encode x ++ tail))).

(** The decoder, given fuel for the depth of [x], reads [x] back from its
    text in front of a delimiter. *)
Definition scans (x : pyval) : Prop :=
  forall fuel rest,
    weight x <= fuel -> delimited rest = true ->
    scan_once fuel (encode x ++ rest) = Some (x, rest).

(** A scan that succeeds with fuel [f] reads at least one character, and
    succeeds alike with any fuel that is at least the number of characters
    read. *)
Definition stable {A} (scan : nat -> string -> option (A * string)) (f : nat)
  : Prop :=
  forall s a r,
    scan f s = Some (a, r) ->
    String.length r < String.length s
    /\ forall f', String.length s - String.length r <= f' ->
                  scan f' s = Some (a, r).

(** A value on which the substitution in the text renames the known keys
    and nothing else, and whose renamed form decodes from its text. *)
Definition codec_ok (v : pyval) : Prop :=
  canonical v = true
  /\ map_str ZoneBase.replace_keys v = rename_keys v
  /\ canonical (rename_keys v) = true
  /\ unique_keys (rename_keys v) = true.

Definition key_ok (k : string) : Prop :=
  plain k = true
  /\ ZoneBase.replace_keys k = rename_key k
  /\ plain (rename_key k) = true.

(** What [get_schedule] does with the payload that the broker returned. *)
Definition read_path (schedule : pyval) : result pyval :=
  match json_dumps schedule with
  | Raise e => Raise e
  | Ok response_text =>
      match json_loads (ZoneBase.replace_keys response_text) with
      | Raise e => Raise e
      | Ok result =>
          match subscript result (capitalize SZ_DAILY_SCHEDULES) with
          | Raise e => Raise e
          | Ok days =>
              match py_iter days with
              | Raise e => Raise e
              | Ok items =>
                  match ZoneBase.number_days 0 items with
                  | Raise e => Raise e
                  | Ok items' => Ok (ZoneBase.store_days result days items')
                  end
              end
          end
      end
  end.

End Codec.

(** ** The rest of the read path, sequences of calls, and [setup.py] *)

Module ReadPath.
Import Text Py Json Const Codec.

(** The end of [get_schedule], from the decoded [result] on: the lookup of
    the capitalized daily-schedules key, the loop that numbers the entries,
    and the value returned. *)
Definition finish (result : pyval) : Py.result pyval :=
  match subscript result (capitalize SZ_DAILY_SCHEDULES) with
  | Raise e => Raise e
  | Ok days =>
      match py_iter days with
      | Raise e => Raise e
      | Ok items =>
          match ZoneBase.number_days 0 items with
          | Raise e => Raise e
          | Ok items' => Ok (ZoneBase.store_days result days items')
          end
      end
  end.

(** A string in which none of the keys to replace occurs. *)
Definition key_free (s : string) : bool :=
  forallb (fun k => negb (Spec.contains k s)) ZoneBase.CAPITALIZED_KEYS.

Definition known_key (k : string) : bool :=
  existsb (String.eqb k) ZoneBase.CAPITALIZED_KEYS.

(** A value whose string values are free of the keys to replace and whose
    dict keys are either one of them or free of them. *)
Fixpoint renamable (v : pyval) : bool :=
  match v with
  | PStr s => key_free s
  | PList l => forallb renamable l
  | PDict d =>
      forallb
        (fun kv => ((known_key (fst kv) || key_free (fst kv))
                    && renamable (snd kv))%bool) d
  | _ => true
  end.

(** A member of a dict with its key and its value renamed. *)
Definition renamed (kv : string * pyval) : string * pyval :=
  (rename_key (fst kv), rename_keys (snd kv)).

Definition is_dict (v : pyval) : bool :=
  match v with PDict _ => true | _ => false end.

(** What one turn of the loop of [get_schedule] makes of an entry that is a
    dict: its ordinal stored under the capitalized day-of-week key. *)
Definition numbered (ordinal : nat) (day : pyval) : pyval :=
  match day with
  | PDict d => PDict (dict_set d (capitalize SZ_DAY_OF_WEEK) (py_int ordinal))
  | _ => day
  end.

End ReadPath.

Module Trace.
Import Text Py Json Const Broker Datetime.

(** The coroutines of a heating zone and of a hot-water object, as calls
    with their arguments; the retired ones included. *)
Inductive zone_call : Type :=
| Refresh
| GetSchedule
| SetSchedule (schedule : pyval)
| SetTemperature (temperature : pyval) (until : option dt)
| CancelTempOverride
| Schedule.

Inductive dhw_call : Type :=
| DhwRefresh
| DhwGetSchedule
| DhwSetSchedule (schedule : pyval)
| SetOn (until : option dt)
| SetOff (until : option dt)
| SetAuto
| DhwSchedule
| GetDhwState (args : list pyval) (kwargs : dict)
| SetDhwOn (args : list pyval) (kwargs : dict)
| SetDhwOff (args : list pyval) (kwargs : dict)
| SetDhwAuto (args : list pyval) (kwargs : dict).

(** The state that a coroutine leaves, whatever it returns or raises. *)
Definition leaves {A} (m : M A) (s : state) : state := snd (m s).

Definition zone_step (c : zone_call) : state -> state :=
  match c with
  | Refresh => leaves Zone._refresh_status
  | GetSchedule => leaves Zone.get_schedule
  | SetSchedule schedule => leaves (Zone.set_schedule schedule)
  | SetTemperature temperature until =>
      leaves (Zone.set_temperature temperature until)
  | CancelTempOverride => leaves Zone.cancel_temp_override
  | Schedule => leaves Zone.schedule
  end.

Definition dhw_step (c : dhw_call) : state -> state :=
  match c with
  | DhwRefresh => leaves HotWater._refresh_status
  | DhwGetSchedule => leaves HotWater.get_schedule
  | DhwSetSchedule schedule => leaves (HotWater.set_schedule schedule)
  | SetOn until => leaves (HotWater.set_on until)
  | SetOff until => leaves (HotWater.set_off until)
  | SetAuto => leaves HotWater.set_auto
  | DhwSchedule => leaves HotWater.schedule
  | GetDhwState args kwargs => leaves (HotWater.get_dhw_state args kwargs)
  | SetDhwOn args kwargs => leaves (HotWater.set_dhw_on args kwargs)
  | SetDhwOff args kwargs => leaves (HotWater.set_dhw_off args kwargs)
  | SetDhwAuto args kwargs => leaves (HotWater.set_dhw_auto args kwargs)
  end.

(** Calls made one after the other on the same object. *)
Definition run {C} (step : C -> state -> state) (cs : list C) (s : state)
  : state :=
  fold_left (fun s c => step c s) cs s.

Definition request_url (r : request) : string :=
  match r with
  | GET url _ => url
  | PUT url _ _ => url
  end.

Definition is_zone_refresh (c : zone_call) : bool :=
  match c with Refresh => true | _ => false end.

Definition is_dhw_refresh (c : dhw_call) : bool :=
  match c with DhwRefresh => true | _ => false end.

(** The path under which the object makes its calls. *)
Definition root (_type : string) (s : state) : string :=
  _type ++ "/" ++ py_str (_id (self s)) ++ "/".

(** From [s] to [s'] nothing of the object changed but, possibly, its
    status, and at most [n] calls were made, each on a path under [root]. *)
Definition evolved (root : string) (n : nat) (s s' : state) : Prop :=
  _broker (self s') = _broker (self s)
  /\ _config (self s') = _config (self s)
  /\ _id (self s') = _id (self s)
  /\ exists new,
       calls s' = (calls s ++ new)%list
       /\ List.length new <= n
       /\ Forall (fun r => prefix root (request_url r) = true) new.

(** The status is the one of [s], or what [broker] answered to a GET of
    [url], validated by [schema], after some calls. *)
Definition status_from (broker : Broker) (url : string) (schema : schema_name)
  (s s' : state) : Prop :=
  _status (self s') = _status (self s)
  \/ exists before,
       broker before (GET url schema) = Ok (_status (self s')).

End Trace.

(** [setup.py]: the command that checks the tag of a release. *)
Module Setup.

Definition VERSION : string := "0.3.3b2".

(** [os.environ] *)
Definition environ : Type := list (string * string).

Fixpoint getenv (env : environ) (key : string) : option string :=
  match env with
  | [] => None
  | (k, v) :: env' => if String.eqb k key then Some v else getenv env' key
  end.

(** [str.format] of a value that is [None] or a [str]. *)
Definition shown (tag : option string) : string :=
  match tag with Some t => t | None => "None" end.

(** A call returns or leaves the interpreter through [sys.exit(info)]. *)
Inductive outcome : Type :=
| Returned
| SystemExit (info : string).

Definition tag_differs (tag : option string) : bool :=
  match tag with
  | Some t => negb (String.eqb t VERSION)
  | None => true
  end.

(** [VerifyVersionCommand.run] *)
Definition run (env : environ) : outcome :=
  let tag := getenv env "CIRCLE_TAG" in
  if tag_differs tag
  then
    let info := "Git tag: " ++ shown tag
                ++ " does not match the version of this app: " ++ VERSION in
    SystemExit info
  else Returned.

End Setup.
(** * Facts on the text operations *)

Module TextFacts.
Import Text.

(** ** [append], [prefix] and [str_all] *)

Lemma app_assoc (a b c : string) : (a ++ b) ++ c = a ++ (b ++ c).
Proof. induction a as [|x a IH]; simpl; [reflexivity | now rewrite IH]. Qed.

Lemma app_nil_r (a : string) : a ++ "" = a.
Proof. induction a as [|x a IH]; simpl; [reflexivity | now rewrite IH]. Qed.

Lemma length_app (a b : string) :
  String.length (a ++ b) = String.length a + String.length b.
Proof. induction a as [|x a IH]; simpl; [reflexivity | now rewrite IH]. Qed.

Lemma str_all_app p (a b : string) :
  str_all p (a ++ b) = (str_all p a && str_all p b)%bool.
Proof.
  induction a as [|x a IH]; simpl; [reflexivity|].
  now rewrite IH, andb_assoc.
Qed.

Lemma prefix_length : forall old s,
  prefix old s = true -> String.length old <= String.length s.
Proof.
  induction old as [|x old IH]; intros s H; simpl; [lia|].
  destruct s as [|y s]; simpl in H; [discriminate|].
  destruct (ascii_dec x y); [|discriminate].
  apply IH in H. simpl. lia.
Qed.

Lemma prefix_all p : forall old s,
  prefix old s = true -> str_all p s = true -> str_all p old = true.
Proof.
  induction old as [|x old IH]; intros s H Hs; [reflexivity|].
  destruct s as [|y s]; simpl in H; [discriminate|].
  destruct (ascii_dec x y) as [->|]; [|discriminate].
  simpl in *. apply andb_true_iff in Hs as [Hy Hs].
  rewrite Hy. simpl. eauto.
Qed.

(** A character that does not occur in [old] cuts the search for [old]. *)
Lemma prefix_cut c : forall old a b,
  old <> "" -> str_all (differs c) old = true ->
  prefix old (a ++ String c b) = prefix old a.
Proof.
  induction old as [|x old IH]; intros a b Hne Hc; [congruence|].
  simpl in Hc. apply andb_true_iff in Hc as [Hx Hc].
  destruct a as [|y a]; simpl.
  - destruct (ascii_dec x c) as [->|]; [|reflexivity].
    unfold differs in Hx. now rewrite Ascii.eqb_refl in Hx.
  - destruct (ascii_dec x y); [|reflexivity].
    destruct old as [|x' old']; [now destruct a|].
    apply IH; [discriminate | exact Hc].
Qed.

(** ** [replace_from] and [str.replace] *)

Lemma replace_from_cut c old new : forall a b k,
  old <> "" -> str_all (differs c) old = true ->
  k <= String.length a ->
  replace_from old new (a ++ String c b) k
  = replace_from old new a k ++ String c (replace_from old new b 0).
Proof.
  intros a b k Hne Hc. revert k.
  induction a as [|x a IH]; intros k Hk.
  - simpl in Hk. assert (k = 0) by lia. subst k.
    cbn [append replace_from].
    replace (String c b) with ("" ++ String c b) at 1 by reflexivity.
    rewrite (prefix_cut c old "" b Hne Hc).
    destruct old; [congruence | reflexivity].
  - cbn [append replace_from]. destruct k as [|k].
    + replace (String x (a ++ String c b)) with (String x a ++ String c b)
        by reflexivity.
      rewrite (prefix_cut c old (String x a) b Hne Hc).
      destruct (prefix old (String x a)) eqn:Hp.
      * rewrite IH, app_assoc; [reflexivity|].
        apply prefix_length in Hp. simpl in Hp. lia.
      * rewrite IH by lia. reflexivity.
    + apply IH. simpl in Hk. lia.
Qed.

Lemma replace_from_inert p old new : forall s,
  str_all p old = false -> str_all p s = true ->
  replace_from old new s 0 = s.
Proof.
  intros s Hold. induction s as [|x s IH]; intros Hs; [reflexivity|].
  cbn [replace_from].
  destruct (prefix old (String x s)) eqn:Hp.
  - rewrite (prefix_all p _ _ Hp Hs) in Hold. discriminate.
  - simpl in Hs. apply andb_true_iff in Hs as [_ Hs].
    now rewrite IH.
Qed.

Lemma replace_from_all p old new : forall s k,
  str_all p new = true -> str_all p s = true ->
  str_all p (replace_from old new s k) = true.
Proof.
  intros s k Hnew. revert k.
  induction s as [|x s IH]; intros k Hs; [reflexivity|].
  simpl in Hs. apply andb_true_iff in Hs as [Hx Hs].
  cbn [replace_from]. destruct k as [|k]; [|now apply IH].
  destruct (prefix old (String x s)).
  - rewrite str_all_app, Hnew, IH by assumption. reflexivity.
  - simpl. rewrite Hx, IH by assumption. reflexivity.
Qed.

(** The same three facts for [str.replace] with a non-empty [old]. *)

Lemma str_replace_cut c old new a b :
  old <> "" -> str_all (differs c) old = true ->
  str_replace (a ++ String c b) old new
  = str_replace a old new ++ String c (str_replace b old new).
Proof.
  intros Hne Hc. unfold str_replace.
  destruct old as [|x old]; [congruence|].
  apply replace_from_cut; [discriminate | exact Hc | lia].
Qed.

Lemma str_replace_inert p old new s :
  str_all p old = false -> str_all p s = true ->
  str_replace s old new = s.
Proof.
  intros Hold Hs. unfold str_replace.
  destruct old as [|x old]; [discriminate|].
  now apply (replace_from_inert p).
Qed.

Lemma str_replace_all p old new s :
  old <> "" -> str_all p new = true -> str_all p s = true ->
  str_all p (str_replace s old new) = true.
Proof.
  intros Hne Hnew Hs. unfold str_replace.
  destruct old as [|x old]; [congruence|].
  now apply replace_from_all.
Qed.

End TextFacts.

(** * Facts on values and on the encoder's refusals *)

Module PyFacts.
Import Text Py Json.

(** Induction on a value together with the values it contains. *)
Section PyvalInd.

Variable P : pyval -> Prop.
Hypothesis HNone : P PNone.
Hypothesis HBool : forall b, P (PBool b).
Hypothesis HNum : forall lit, P (PNum lit).
Hypothesis HStr : forall s, P (PStr s).
Hypothesis HList : forall l, Forall P l -> P (PList l).
Hypothesis HDict : forall d, Forall (fun kv => P (snd kv)) d -> P (PDict d).
Hypothesis HObject : forall cls, P (PObject cls).
Hypothesis HRef : forall up, P (PRef up).

Fixpoint pyval_nested_ind (v : pyval) : P v :=
  match v with
  | PNone => HNone
  | PBool b => HBool b
  | PNum lit => HNum lit
  | PStr s => HStr s
  | PList l =>
      HList l
        ((fix all (l : list pyval) : Forall P l :=
            match l with
            | [] => Forall_nil _
            | x :: l' => Forall_cons x (pyval_nested_ind x) (all l')
            end) l)
  | PDict d =>
      HDict d
        ((fix all (d : list (string * pyval))
            : Forall (fun kv => P (snd kv)) d :=
            match d with
            | [] => Forall_nil _
            | kv :: d' =>
                Forall_cons kv (pyval_nested_ind (snd kv)) (all d')
            end) d)
  | PObject cls => HObject cls
  | PRef up => HRef up
  end.

End PyvalInd.

(** [json.dumps] raises nothing but [TypeError] and [ValueError]. *)
Lemma dumps_error_kind : forall v e,
  dumps_error v = Some e ->
  (exists m, e = TypeError m) \/ (exists m, e = ValueError m).
Proof.
  induction v as [| | | |l IH|d IH| |] using pyval_nested_ind;
    intros e H; simpl in H; try discriminate.
  - induction IH as [|x l Hx _ IHl]; [discriminate|].
    destruct (dumps_error x) eqn:Ex.
    + injection H as <-. now apply Hx.
    + now apply IHl.
  - induction IH as [|[k x] d Hx _ IHd]; [discriminate|].
    simpl in Hx. destruct (dumps_error x) eqn:Ex.
    + injection H as <-. now apply Hx.
    + now apply IHd.
  - injection H as <-. left. eauto.
  - injection H as <-. right. eauto.
Qed.

End PyFacts.

(** * Facts on the coroutines that make one broker call *)

Module BrokerFacts.
Import Text Py Json Const Broker Spec.

Lemma refresh_status_run (_type : string) (schema : schema_name) (s : state) :
  ZoneBase._refresh_status _type schema s
  = match _broker (self s) (calls s)
            (GET (ZoneBase.url _type (self s) "status") schema) with
    | Ok status =>
        (Ok status,
         {| self := with_status (self s) status;
            calls := calls s ++ [GET (ZoneBase.url _type (self s) "status") schema] |})
    | Raise e =>
        (Raise e, after s (GET (ZoneBase.url _type (self s) "status") schema))
    end.
Proof.
  unfold ZoneBase._refresh_status, bind, get_self, broker_get, call.
  destruct (_broker (self s) (calls s) _); reflexivity.
Qed.

Lemma put_run (url : string) (body : pyval) (schema : option schema_name)
  (s : state) :
  bind (broker_put url body schema) (fun _ => ret tt) s
  = (answer s (PUT url body schema), after s (PUT url body schema)).
Proof.
  unfold bind, broker_put, call, answer, after, ret.
  destruct (_broker (self s) (calls s) _); reflexivity.
Qed.

Lemma url_text (_type : string) (me : instance) (leaf : string) :
  ZoneBase.url _type me leaf = _type ++ "/" ++ py_str (_id me) ++ "/" ++ leaf.
Proof. reflexivity. Qed.

End BrokerFacts.

(** * The substitution of the keys, on the text and on the tree *)

Module SubstFacts.
Import Text TextFacts Py Json Const PyFacts Codec.

(** ** [replace_keys] cuts at separators and leaves key-free text alone *)

Lemma fold_replace_cut c : forall keys,
  Forall (fun k => k <> "" /\ str_all (differs c) k = true) keys ->
  forall a b,
    fold_left (fun text k => str_replace text k (capitalize k)) keys
      (a ++ String c b)
    = fold_left (fun text k => str_replace text k (capitalize k)) keys a
      ++ String c
           (fold_left (fun text k => str_replace text k (capitalize k)) keys b).
Proof.
  induction keys as [|k keys IH]; intros H a b; [reflexivity|].
  inversion H as [|? ? [Hne Hc] Hrest]; subst. simpl.
  rewrite (str_replace_cut c) by assumption. now apply IH.
Qed.

Lemma fold_replace_inert p : forall keys,
  Forall (fun k => str_all p k = false) keys ->
  forall s, str_all p s = true ->
    fold_left (fun text k => str_replace text k (capitalize k)) keys s = s.
Proof.
  induction keys as [|k keys IH]; intros H s Hs; [reflexivity|].
  inversion H; subst. simpl.
  rewrite (str_replace_inert p) by assumption. now apply IH.
Qed.

Lemma fold_replace_all p : forall keys,
  Forall (fun k => k <> "" /\ str_all p (capitalize k) = true) keys ->
  forall s, str_all p s = true ->
    str_all p
      (fold_left (fun text k => str_replace text k (capitalize k)) keys s)
    = true.
Proof.
  induction keys as [|k keys IH]; intros H s Hs; [assumption|].
  inversion H as [|? ? [Hne Hc] Hrest]; subst. simpl.
  apply IH; [assumption|]. now apply str_replace_all.
Qed.

Lemma keys_not_empty :
  Forall (fun k => k <> "") ZoneBase.CAPITALIZED_KEYS.
Proof. repeat constructor; discriminate. Qed.

Lemma replace_keys_cut c a b :
  separator c = true ->
  ZoneBase.replace_keys (a ++ String c b)
  = ZoneBase.replace_keys a ++ String c (ZoneBase.replace_keys b).
Proof.
  intros H. apply fold_replace_cut.
  unfold separator in H. rewrite forallb_forall in H.
  apply Forall_forall. intros k Hk. split; [|now apply H].
  pose proof keys_not_empty as Hne. rewrite Forall_forall in Hne. now apply Hne.
Qed.

Lemma replace_keys_empty : ZoneBase.replace_keys "" = "".
Proof. reflexivity. Qed.

Lemma replace_keys_head c b :
  separator c = true ->
  ZoneBase.replace_keys (String c b) = String c (ZoneBase.replace_keys b).
Proof.
  intros H. change (String c b) with ("" ++ String c b).
  now rewrite replace_keys_cut.
Qed.

Lemma replace_keys_last c a :
  separator c = true ->
  ZoneBase.replace_keys (a ++ String c "") = ZoneBase.replace_keys a ++ String c "".
Proof. intros H. now rewrite replace_keys_cut. Qed.

Lemma replace_keys_numeric s :
  str_all numeric_char s = true -> ZoneBase.replace_keys s = s.
Proof.
  apply (fold_replace_inert numeric_char).
  repeat constructor.
Qed.

Lemma replace_keys_plain s :
  plain s = true -> plain (ZoneBase.replace_keys s) = true.
Proof.
  apply (fold_replace_all plain_char).
  repeat constructor; discriminate.
Qed.

(** ** Number literals are key-free *)

Lemma digit_numeric c : is_digit c = true -> numeric_char c = true.
Proof. intros H. unfold numeric_char. now rewrite H. Qed.

Lemma span_digits_numeric : forall s d r,
  span_digits s = (d, r) -> str_all numeric_char d = true.
Proof.
  induction s as [|c s IH]; intros d r H; simpl in H.
  - now injection H as <- <-.
  - destruct (is_digit c) eqn:Hc.
    + destruct (span_digits s) as [d' r'] eqn:Hs. injection H as <- <-.
      simpl. rewrite (digit_numeric _ Hc). simpl. eauto.
    + now injection H as <- <-.
Qed.

Lemma scan_int_numeric s d r :
  scan_int s = Some (d, r) -> str_all numeric_char d = true.
Proof.
  destruct s as [|c s]; simpl; [discriminate|].
  destruct (Ascii.eqb c "0"); [now intros [= <- <-]|].
  destruct (is_digit c) eqn:Hc; [|discriminate].
  destruct (span_digits s) as [d' r'] eqn:Hs. intros [= <- <-].
  simpl. rewrite (digit_numeric _ Hc). simpl.
  now apply (span_digits_numeric s d' r').
Qed.

Lemma scan_integer_numeric s d r :
  scan_integer s = Some (d, r) -> str_all numeric_char d = true.
Proof.
  unfold scan_integer. destruct s as [|c s]; [discriminate|].
  destruct (Ascii.eqb c "-") eqn:Hc.
  - destruct (scan_int s) as [[d' r']|] eqn:Hs; [|discriminate].
    intros [= <- <-]. apply Ascii.eqb_eq in Hc as ->. simpl.
    now apply (scan_int_numeric s d' r').
  - apply scan_int_numeric.
Qed.

Lemma scan_frac_numeric s d r :
  scan_frac s = (d, r) -> str_all numeric_char d = true.
Proof.
  destruct s as [|c s]; simpl; [now intros [= <- <-]|].
  destruct (Ascii.eqb c ".") eqn:Hc; [|now intros [= <- <-]].
  destruct (span_digits s) as [d' r'] eqn:Hs.
  destruct d' as [|x d']; intros [= <- <-]; [reflexivity|].
  apply Ascii.eqb_eq in Hc as ->.
  change (str_all numeric_char (String x d') = true).
  now apply (span_digits_numeric s _ r').
Qed.

Lemma scan_exp_numeric s d r :
  scan_exp s = (d, r) -> str_all numeric_char d = true.
Proof.
  destruct s as [|c s]; simpl; [now intros [= <- <-]|].
  destruct (Ascii.eqb c "e" || Ascii.eqb c "E")%bool eqn:Hc;
    [|now intros [= <- <-]].
  assert (Hn : numeric_char c = true).
  { unfold numeric_char. apply orb_true_iff in Hc as [->| ->];
      now rewrite ?orb_true_r. }
  destruct s as [|g s]; [now intros [= <- <-]|].
  destruct (Ascii.eqb g "-" || Ascii.eqb g "+")%bool eqn:Hg.
  - assert (Hgn : numeric_char g = true).
    { unfold numeric_char. apply orb_true_iff in Hg as [->| ->];
        now rewrite ?orb_true_r. }
    destruct (span_digits s) as [d' r'] eqn:Hs.
    destruct d' as [|x d']; intros [= <- <-]; [reflexivity|].
    cbn [str_all]. rewrite Hn, Hgn. cbn [andb].
    change (str_all numeric_char (String x d') = true).
    now apply (span_digits_numeric s _ r').
  - destruct (span_digits (String g s)) as [d' r'] eqn:Hs.
    destruct d' as [|x d']; intros [= <- <-]; [reflexivity|].
    cbn [str_all]. rewrite Hn. cbn [andb].
    change (str_all numeric_char (String x d') = true).
    now apply (span_digits_numeric (String g s) _ r').
Qed.

Lemma scan_number_numeric s tok r :
  scan_number s = Some (tok, r) -> str_all numeric_char tok = true.
Proof.
  unfold scan_number.
  destruct (scan_integer s) as [[i r1]|] eqn:Hi; [|discriminate].
  destruct (scan_frac r1) as [f r2] eqn:Hf.
  destruct (scan_exp r2) as [e r3] eqn:He.
  intros [= <- <-]. rewrite !str_all_app.
  rewrite (scan_integer_numeric _ _ _ Hi), (scan_frac_numeric _ _ _ Hf),
    (scan_exp_numeric _ _ _ He).
  reflexivity.
Qed.

Lemma number_literal_whole lit :
  is_number_literal lit = true -> scan_number lit = Some (lit, "").
Proof.
  unfold is_number_literal.
  destruct (scan_number lit) as [[tok r]|]; [|discriminate].
  destruct r; [|discriminate].
  intros H. apply String.eqb_eq in H. now subst.
Qed.

Lemma number_literal_numeric lit :
  is_number_literal lit = true -> str_all numeric_char lit = true.
Proof.
  intros H. apply number_literal_whole in H.
  now apply (scan_number_numeric lit lit "").
Qed.

(** ** The substitution on the text is the substitution on the tree *)

Lemma escape_plain : forall s, plain s = true -> escape s = s.
Proof.
  induction s as [|c s IH]; intros H; [reflexivity|].
  unfold plain in H. simpl in H. apply andb_true_iff in H as [Hc Hs].
  simpl. rewrite (IH Hs).
  unfold plain_char in Hc.
  apply andb_true_iff in Hc as [Hc Hb]. apply andb_true_iff in Hc as [Hr Hq].
  apply negb_true_iff in Hq, Hb.
  unfold escape_char. rewrite Hq, Hb.
  unfold in_range in Hr. apply andb_true_iff in Hr as [Hlo Hhi].
  apply N.leb_le in Hlo, Hhi.
  repeat match goal with
         | |- context [N.eqb (code c) ?n] =>
             destruct (N.eqb_spec (code c) n); [lia|]
         end.
  unfold in_range.
  destruct (N.leb_spec 32 (code c)); [|lia].
  destruct (N.leb_spec (code c) 126); [|lia].
  reflexivity.
Qed.

Lemma encode_str_plain s :
  plain s = true -> encode_str s = String dquote (s ++ String dquote "").
Proof. intros H. unfold encode_str. now rewrite escape_plain. Qed.

Lemma separator_dquote : separator dquote = true. Proof. reflexivity. Qed.
Lemma separator_comma : separator "," = true. Proof. reflexivity. Qed.
Lemma separator_space : separator " " = true. Proof. reflexivity. Qed.
Lemma separator_colon : separator ":" = true. Proof. reflexivity. Qed.
Lemma separator_lbracket : separator "[" = true. Proof. reflexivity. Qed.
Lemma separator_rbracket : separator "]" = true. Proof. reflexivity. Qed.
Lemma separator_lbrace : separator "{" = true. Proof. reflexivity. Qed.
Lemma separator_rbrace : separator "}" = true. Proof. reflexivity. Qed.

Lemma replace_keys_encode_str s :
  plain s = true ->
  ZoneBase.replace_keys (encode_str s) = encode_str (ZoneBase.replace_keys s).
Proof.
  intros H.
  rewrite (encode_str_plain s H),
    (encode_str_plain _ (replace_keys_plain s H)).
  rewrite (replace_keys_head _ _ separator_dquote).
  now rewrite (replace_keys_last _ _ separator_dquote).
Qed.

Lemma replace_keys_concat : forall parts,
  ZoneBase.replace_keys (String.concat ", " parts)
  = String.concat ", " (map ZoneBase.replace_keys parts).
Proof.
  induction parts as [|x parts IH]; [reflexivity|].
  destruct parts as [|y parts]; [reflexivity|].
  change (String.concat ", " (x :: y :: parts))
    with (x ++ String "," (String " " (String.concat ", " (y :: parts)))).
  rewrite (replace_keys_cut _ _ _ separator_comma).
  rewrite (replace_keys_head _ _ separator_space), IH.
  reflexivity.
Qed.

Lemma replace_keys_member k text :
  plain k = true ->
  ZoneBase.replace_keys (encode_str k ++ ": " ++ text)
  = encode_str (ZoneBase.replace_keys k) ++ ": " ++ ZoneBase.replace_keys text.
Proof.
  intros H.
  rewrite (encode_str_plain k H),
    (encode_str_plain _ (replace_keys_plain k H)).
  cbn [append]. rewrite !app_assoc. cbn [append].
  rewrite (replace_keys_head _ _ separator_dquote).
  rewrite (replace_keys_cut _ _ _ separator_dquote).
  rewrite (replace_keys_head _ _ separator_colon).
  rewrite (replace_keys_head _ _ separator_space).
  reflexivity.
Qed.

Theorem replace_keys_encode : forall v,
  canonical v = true ->
  ZoneBase.replace_keys (encode v) = encode (map_str ZoneBase.replace_keys v).
Proof.
  induction v as [|b|lit|s|l IH|d IH|cls|up] using pyval_nested_ind;
    intros Hv; simpl in Hv; try discriminate.
  - reflexivity.
  - now destruct b.
  - simpl. apply replace_keys_numeric. now apply number_literal_numeric.
  - simpl. now apply replace_keys_encode_str.
  - cbn [encode map_str]. cbn [append].
    rewrite (replace_keys_head _ _ separator_lbracket).
    rewrite (replace_keys_last _ _ separator_rbracket).
    rewrite replace_keys_concat. do 2 f_equal. f_equal.
    rewrite !map_map. apply map_ext_Forall.
    rewrite forallb_forall in Hv. rewrite Forall_forall in IH |- *.
    intros x Hx. apply IH; auto.
  - cbn [encode map_str]. cbn [append].
    rewrite (replace_keys_head _ _ separator_lbrace).
    rewrite (replace_keys_last _ _ separator_rbrace).
    rewrite replace_keys_concat. do 2 f_equal. f_equal.
    rewrite !map_map. apply map_ext_Forall.
    rewrite forallb_forall in Hv. rewrite Forall_forall in IH |- *.
    intros [k x] Hx. specialize (Hv _ Hx). specialize (IH _ Hx).
    cbv beta in *. cbn [fst snd] in *. apply andb_true_iff in Hv as [Hk Hx'].
    rewrite <- (IH Hx'). exact (replace_keys_member k (encode x) Hk).
Qed.

End SubstFacts.

(** * Decoding the text of a value gives the value back *)

Module DecodeFacts.
Import Text TextFacts Py Json Const PyFacts Codec SubstFacts.

(** ** Characters *)

Ltac by_cases_on c :=
  destruct c as [[] [] [] [] [] [] [] []]; intros; try reflexivity;
  discriminate.

Lemma plain_char_scans c :
  plain_char c = true ->
  Ascii.eqb c dquote = false /\ Ascii.eqb c backslash = false
  /\ N.ltb (code c) 32 = false.
Proof.
  intros H. repeat split; revert H; by_cases_on c.
Qed.

Lemma value_start_not_ws c : value_start c = true -> is_ws c = false.
Proof. by_cases_on c. Qed.

Lemma value_start_not_rbracket c :
  value_start c = true -> Ascii.eqb c "]" = false.
Proof. by_cases_on c. Qed.

Lemma digit_or_minus_start c :
  (is_digit c || Ascii.eqb c "-")%bool = true ->
  Ascii.eqb c dquote = false /\ Ascii.eqb c "{" = false
  /\ Ascii.eqb c "[" = false /\ c <> "n"%char /\ c <> "t"%char
  /\ c <> "f"%char /\ value_start c = true.
Proof.
  intros H. repeat split; try (intros ->; discriminate H); revert H;
    by_cases_on c.
Qed.

Lemma not_numeric_not_digit c : numeric_char c = false -> is_digit c = false.
Proof. by_cases_on c. Qed.

Lemma not_numeric_not_dot c : numeric_char c = false -> Ascii.eqb c "." = false.
Proof. by_cases_on c. Qed.

Lemma not_numeric_not_exp c :
  numeric_char c = false -> (Ascii.eqb c "e" || Ascii.eqb c "E")%bool = false.
Proof. by_cases_on c. Qed.

Lemma not_numeric_not_sign c :
  numeric_char c = false -> (Ascii.eqb c "-" || Ascii.eqb c "+")%bool = false.
Proof. by_cases_on c. Qed.

(** ** White space and strings *)

Lemma skip_ws_start s :
  starts_with value_start s = true -> skip_ws s = s.
Proof.
  destruct s as [|c s]; [discriminate|]. simpl. intros H.
  now rewrite (value_start_not_ws _ H).
Qed.

Lemma scanstring_plain : forall s rest,
  plain s = true ->
  scanstring (s ++ String dquote rest) Plain = Some (s, rest).
Proof.
  induction s as [|c s IH]; intros rest H.
  - reflexivity.
  - unfold plain in H. simpl in H. apply andb_true_iff in H as [Hc Hs].
    destruct (plain_char_scans _ Hc) as [Hq [Hb Hl]].
    cbn [append scanstring]. rewrite Hq, Hb, Hl.
    now rewrite (IH rest Hs).
Qed.

(** ** Numbers: a literal is scanned whole in front of a delimiter *)

Lemma delimited_span rest : delimited rest = true -> span_digits rest = ("", rest).
Proof.
  destruct rest as [|c rest]; [reflexivity|]. simpl. intros H.
  apply negb_true_iff in H. now rewrite (not_numeric_not_digit _ H).
Qed.

Lemma span_digits_ext rest : delimited rest = true ->
  forall s d r, span_digits s = (d, r) -> span_digits (s ++ rest) = (d, r ++ rest).
Proof.
  intros Hrest. induction s as [|c s IH]; intros d r H.
  - simpl in H. injection H as <- <-. now apply delimited_span.
  - simpl in H |- *. destruct (is_digit c).
    + destruct (span_digits s) as [d' r'] eqn:Hs. injection H as <- <-.
      now rewrite (IH d' r' eq_refl).
    + now injection H as <- <-.
Qed.

Lemma scan_int_ext rest : delimited rest = true ->
  forall s d r, scan_int s = Some (d, r) -> scan_int (s ++ rest) = Some (d, r ++ rest).
Proof.
  intros Hrest s d r. destruct s as [|c s]; [discriminate|].
  cbn [append]. unfold scan_int.
  destruct (Ascii.eqb c "0"); [now intros [= <- <-]|].
  destruct (is_digit c); [|discriminate].
  destruct (span_digits s) as [d' r'] eqn:Hs. intros [= <- <-].
  now rewrite (span_digits_ext rest Hrest s d' r' Hs).
Qed.

Lemma scan_integer_ext rest : delimited rest = true ->
  forall s d r,
    scan_integer s = Some (d, r) -> scan_integer (s ++ rest) = Some (d, r ++ rest).
Proof.
  intros Hrest s d r. destruct s as [|c s]; [discriminate|].
  cbn [append]. unfold scan_integer.
  destruct (Ascii.eqb c "-").
  - destruct (scan_int s) as [[d' r']|] eqn:Hs; [|discriminate].
    intros [= <- <-]. now rewrite (scan_int_ext rest Hrest s d' r' Hs).
  - apply (scan_int_ext rest Hrest (String c s)).
Qed.

Lemma scan_frac_ext rest : delimited rest = true ->
  forall s d r, scan_frac s = (d, r) -> scan_frac (s ++ rest) = (d, r ++ rest).
Proof.
  intros Hrest s d r. destruct s as [|c s].
  - intros [= <- <-]. destruct rest as [|x rest]; [reflexivity|].
    simpl in Hrest. apply negb_true_iff in Hrest.
    cbn [append]. unfold scan_frac. now rewrite (not_numeric_not_dot _ Hrest).
  - cbn [append]. unfold scan_frac.
    destruct (Ascii.eqb c "."); [|now intros [= <- <-]].
    destruct (span_digits s) as [d' r'] eqn:Hs.
    rewrite (span_digits_ext rest Hrest s d' r' Hs).
    destruct d'; now intros [= <- <-].
Qed.

Lemma scan_exp_ext rest : delimited rest = true ->
  forall s d r, scan_exp s = (d, r) -> scan_exp (s ++ rest) = (d, r ++ rest).
Proof.
  intros Hrest s d r. destruct s as [|c s].
  - intros [= <- <-]. destruct rest as [|x rest]; [reflexivity|].
    simpl in Hrest. apply negb_true_iff in Hrest.
    cbn [append]. unfold scan_exp. now rewrite (not_numeric_not_exp _ Hrest).
  - cbn [append]. unfold scan_exp.
    destruct (Ascii.eqb c "e" || Ascii.eqb c "E")%bool; [|now intros [= <- <-]].
    destruct s as [|g s].
    + intros [= <- <-]. cbn [append].
      destruct rest as [|x rest]; [reflexivity|].
      pose proof Hrest as Hx. simpl in Hx. apply negb_true_iff in Hx.
      rewrite (not_numeric_not_sign _ Hx).
      now rewrite (delimited_span _ Hrest).
    + cbn [append]. destruct (Ascii.eqb g "-" || Ascii.eqb g "+")%bool.
      * destruct (span_digits s) as [d' r'] eqn:Hs.
        rewrite (span_digits_ext rest Hrest s d' r' Hs).
        destruct d'; now intros [= <- <-].
      * destruct (span_digits (String g s)) as [d' r'] eqn:Hs.
        change (String g (s ++ rest)) with (String g s ++ rest).
        rewrite (span_digits_ext rest Hrest (String g s) d' r' Hs).
        destruct d'; now intros [= <- <-].
Qed.

Lemma scan_number_ext rest : delimited rest = true ->
  forall s tok r,
    scan_number s = Some (tok, r) -> scan_number (s ++ rest) = Some (tok, r ++ rest).
Proof.
  intros Hrest s tok r. unfold scan_number.
  destruct (scan_integer s) as [[i r1]|] eqn:Hi; [|discriminate].
  rewrite (scan_integer_ext rest Hrest s i r1 Hi).
  destruct (scan_frac r1) as [f r2] eqn:Hf.
  rewrite (scan_frac_ext rest Hrest r1 f r2 Hf).
  destruct (scan_exp r2) as [e r3] eqn:He.
  rewrite (scan_exp_ext rest Hrest r2 e r3 He).
  now intros [= <- <-].
Qed.

Lemma number_literal_start lit :
  is_number_literal lit = true ->
  exists c t, lit = String c t /\ (is_digit c || Ascii.eqb c "-")%bool = true.
Proof.
  intros H. apply number_literal_whole in H. unfold scan_number in H.
  destruct lit as [|c t]; [discriminate|]. exists c, t. split; [reflexivity|].
  unfold scan_integer in H. destruct (Ascii.eqb c "-"); [now rewrite orb_true_r|].
  unfold scan_int in H. destruct (Ascii.eqb_spec c "0") as [->|]; [reflexivity|].
  destruct (is_digit c); [reflexivity | discriminate].
Qed.

Lemma scan_once_number fuel lit rest :
  is_number_literal lit = true -> delimited rest = true ->
  scan_once (S fuel) (lit ++ rest) = Some (PNum lit, rest).
Proof.
  intros Hlit Hrest.
  pose proof (scan_number_ext rest Hrest lit lit "" (number_literal_whole _ Hlit))
    as Hscan.
  destruct (number_literal_start _ Hlit) as [c [t [-> Hc]]].
  destruct (digit_or_minus_start _ Hc) as [Hq [Hb [Hk [Hn [Ht [Hf _]]]]]].
  cbn [append] in *. cbn [scan_once]. rewrite Hq, Hb, Hk.
  unfold scan_literal. unfold keyword at 1 2 3. cbn [prefix].
  destruct (ascii_dec "n" c) as [E|_]; [now elim Hn|].
  destruct (ascii_dec "t" c) as [E|_]; [now elim Ht|].
  destruct (ascii_dec "f" c) as [E|_]; [now elim Hf|].
  cbn [or_else]. rewrite Hscan. reflexivity.
Qed.

End DecodeFacts.

(** * The decoder never runs out of fuel *)

Module FuelFacts.
Import Text TextFacts Py Json Codec.

Lemma skip_ws_length : forall s, String.length (skip_ws s) <= String.length s.
Proof.
  induction s as [|c s IH]; simpl; [lia|].
  destruct (is_ws c); simpl; lia.
Qed.

Lemma expect_length c s r :
  expect c s = Some r -> String.length s = S (String.length r).
Proof.
  destruct s as [|x s]; simpl; [discriminate|].
  destruct (Ascii.eqb x c); [|discriminate]. now intros [= <-].
Qed.

Lemma cons_char_some c o str r :
  cons_char c o = Some (str, r) -> exists str', o = Some (str', r).
Proof.
  destruct o as [[str' r']|]; simpl; [|discriminate].
  intros [= <- <-]. eauto.
Qed.

Lemma scanstring_length : forall s st str r,
  scanstring s st = Some (str, r) -> String.length r < String.length s.
Proof.
  induction s as [|c s IH]; intros st str r H; [discriminate|].
  assert (Hrec : forall st' str', scanstring s st' = Some (str', r) ->
                                  String.length r < String.length (String c s)).
  { intros st' str' E. apply IH in E. simpl. lia. }
  assert (Hcons : forall x st', cons_char x (scanstring s st') = Some (str, r) ->
                                String.length r < String.length (String c s)).
  { intros x st' E. apply cons_char_some in E as [str' E]. eauto. }
  cbn [scanstring] in H. destruct st as [| |n acc].
  - destruct (Ascii.eqb c dquote); [injection H as <- <-; simpl; lia|].
    destruct (Ascii.eqb c backslash); [eauto|].
    destruct (N.ltb (code c) 32); [discriminate | eauto].
  - destruct (Ascii.eqb c "u"); [eauto|].
    destruct (unescape c); [eauto | discriminate].
  - destruct (hex_value c); [|discriminate].
    destruct n as [|[|k]]; [discriminate | | eauto].
    destruct (N.ltb _ 256); [eauto | discriminate].
Qed.

Lemma span_digits_length : forall s d r,
  span_digits s = (d, r) ->
  String.length s = String.length d + String.length r.
Proof.
  induction s as [|c s IH]; intros d r H; simpl in H.
  - now injection H as <- <-.
  - destruct (is_digit c); [|now injection H as <- <-].
    destruct (span_digits s) as [d' r'] eqn:E. injection H as <- <-.
    simpl. now rewrite (IH d' r' eq_refl).
Qed.

Lemma scan_int_length s d r :
  scan_int s = Some (d, r) ->
  String.length s = String.length d + String.length r /\ 1 <= String.length d.
Proof.
  unfold scan_int. destruct s as [|c s]; [discriminate|].
  destruct (Ascii.eqb c "0"); [intros [= <- <-]; simpl; lia|].
  destruct (is_digit c); [|discriminate].
  destruct (span_digits s) as [d' r'] eqn:E. intros [= <- <-].
  apply span_digits_length in E. simpl. lia.
Qed.

Lemma scan_integer_length s d r :
  scan_integer s = Some (d, r) ->
  String.length s = String.length d + String.length r /\ 1 <= String.length d.
Proof.
  unfold scan_integer. destruct s as [|c s]; [discriminate|].
  destruct (Ascii.eqb c "-"); [|apply scan_int_length].
  destruct (scan_int s) as [[d' r']|] eqn:E; [|discriminate].
  intros [= <- <-]. apply scan_int_length in E. simpl. lia.
Qed.

Lemma scan_frac_length s d r :
  scan_frac s = (d, r) -> String.length s = String.length d + String.length r.
Proof.
  unfold scan_frac. destruct s as [|c s]; [now intros [= <- <-]|].
  destruct (Ascii.eqb c "."); [|now intros [= <- <-]].
  destruct (span_digits s) as [d' r'] eqn:E. apply span_digits_length in E.
  destruct d'; intros [= <- <-]; simpl in *; lia.
Qed.

Lemma scan_exp_length s d r :
  scan_exp s = (d, r) -> String.length s = String.length d + String.length r.
Proof.
  unfold scan_exp. destruct s as [|c s]; [now intros [= <- <-]|].
  destruct (Ascii.eqb c "e" || Ascii.eqb c "E")%bool; [|now intros [= <- <-]].
  destruct s as [|g s]; [now intros [= <- <-]|].
  destruct (Ascii.eqb g "-" || Ascii.eqb g "+")%bool.
  - destruct (span_digits s) as [d' r'] eqn:E. apply span_digits_length in E.
    destruct d'; intros [= <- <-]; simpl in *; lia.
  - destruct (span_digits (String g s)) as [d' r'] eqn:E.
    apply span_digits_length in E.
    destruct d'; intros [= <- <-]; simpl in *; lia.
Qed.

Lemma scan_number_length s tok r :
  scan_number s = Some (tok, r) -> String.length r < String.length s.
Proof.
  unfold scan_number.
  destruct (scan_integer s) as [[i r1]|] eqn:Ei; [|discriminate].
  destruct (scan_frac r1) as [f r2] eqn:Ef.
  destruct (scan_exp r2) as [e r3] eqn:Ee. intros [= <- <-].
  apply scan_integer_length in Ei. apply scan_frac_length in Ef.
  apply scan_exp_length in Ee. lia.
Qed.

Lemma drop_prefix_length : forall kw s,
  prefix kw s = true ->
  String.length s = String.length kw + String.length (drop (String.length kw) s).
Proof.
  induction kw as [|x kw IH]; intros s H; [reflexivity|].
  destruct s as [|y s]; simpl in H; [discriminate|].
  destruct (ascii_dec x y); [|discriminate].
  simpl. now rewrite <- (IH s H).
Qed.

Lemma keyword_length kw v s x r :
  kw <> "" -> keyword kw v s = Some (x, r) ->
  String.length r < String.length s.
Proof.
  intros Hne. unfold keyword.
  destruct (prefix kw s) eqn:E; [|discriminate]. intros [= <- <-].
  apply drop_prefix_length in E. destruct kw; [congruence|]. simpl in *. lia.
Qed.

Lemma or_else_some {A} (a b : option A) x :
  or_else a b = Some x -> a = Some x \/ b = Some x.
Proof. destruct a; simpl; auto. Qed.

Lemma scan_literal_length s v r :
  scan_literal s = Some (v, r) -> String.length r < String.length s.
Proof.
  unfold scan_literal. intros H.
  repeat (apply or_else_some in H as [H|H]);
    try (apply keyword_length in H; [assumption | discriminate]).
  destruct (scan_number s) as [[tok r']|] eqn:E; [|discriminate].
  injection H as <- <-. now apply scan_number_length in E.
Qed.

Lemma stable_scan_once f :
  stable elements f -> stable members f -> stable scan_once (S f).
Proof.
  intros He Hm s v r H.
  destruct s as [|c s']; [discriminate|].
  pose proof (skip_ws_length s') as Hw.
  cbn [scan_once] in H.
  destruct (Ascii.eqb c dquote) eqn:Eq.
  { destruct (scanstring s' Plain) as [[str r0]|] eqn:Es; [|discriminate].
    injection H as <- <-. pose proof (scanstring_length _ _ _ _ Es).
    split; [cbn [String.length] in *; lia|]. intros [|f'] Hf'; [cbn [String.length] in *; lia|].
    cbn [scan_once]. now rewrite Eq, Es. }
  destruct (Ascii.eqb c "{") eqn:Eb.
  { destruct (expect "}" (skip_ws s')) as [r0|] eqn:E1.
    - injection H as <- <-. apply expect_length in E1 as L.
      split; [cbn [String.length] in *; lia|]. intros [|f'] Hf'; [cbn [String.length] in *; lia|].
      cbn [scan_once]. now rewrite Eq, Eb, E1.
    - destruct (expect dquote (skip_ws s')) as [r0|] eqn:E2; [|discriminate].
      destruct (members f r0) as [[pairs r1]|] eqn:E3; [|discriminate].
      injection H as <- <-. apply expect_length in E2 as L.
      destruct (Hm _ _ _ E3) as [L' K]. split; [cbn [String.length] in *; lia|].
      intros [|f'] Hf'; [cbn [String.length] in *; lia|].
      cbn [scan_once]. rewrite Eq, Eb, E1, E2, (K f'); [reflexivity|].
      cbn [String.length] in *. lia. }
  destruct (Ascii.eqb c "[") eqn:Ek.
  { destruct (expect "]" (skip_ws s')) as [r0|] eqn:E1.
    - injection H as <- <-. apply expect_length in E1 as L.
      split; [cbn [String.length] in *; lia|]. intros [|f'] Hf'; [cbn [String.length] in *; lia|].
      cbn [scan_once]. now rewrite Eq, Eb, Ek, E1.
    - destruct (elements f (skip_ws s')) as [[l r1]|] eqn:E3; [|discriminate].
      injection H as <- <-.
      destruct (He _ _ _ E3) as [L' K]. split; [cbn [String.length] in *; lia|].
      intros [|f'] Hf'; [cbn [String.length] in *; lia|].
      cbn [scan_once]. rewrite Eq, Eb, Ek, E1, (K f'); [reflexivity|].
      cbn [String.length] in *. lia. }
  pose proof (scan_literal_length _ _ _ H) as L.
  split; [exact L|]. intros [|f'] Hf'; [cbn [String.length] in *; lia|].
  cbn [scan_once]. now rewrite Eq, Eb, Ek.
Qed.

Lemma stable_elements f :
  stable scan_once f -> stable elements f -> stable elements (S f).
Proof.
  intros Hv He s l r H. cbn [elements] in H.
  destruct (scan_once f s) as [[v r1]|] eqn:E1; [|discriminate].
  destruct (Hv _ _ _ E1) as [L1 K1].
  pose proof (skip_ws_length r1) as Hw.
  destruct (expect "]" (skip_ws r1)) as [r2|] eqn:E2.
  - injection H as <- <-. apply expect_length in E2 as L2.
    split; [lia|]. intros [|f'] Hf'; [lia|].
    cbn [elements]. rewrite (K1 f') by lia. now rewrite E2.
  - destruct (expect "," (skip_ws r1)) as [r2|] eqn:E3; [|discriminate].
    destruct (elements f (skip_ws r2)) as [[l' r3]|] eqn:E4; [|discriminate].
    injection H as <- <-. apply expect_length in E3 as L3.
    destruct (He _ _ _ E4) as [L4 K4].
    pose proof (skip_ws_length r2) as Hw2.
    split; [lia|]. intros [|f'] Hf'; [lia|].
    cbn [elements]. rewrite (K1 f') by lia. rewrite E2, E3.
    now rewrite (K4 f') by lia.
Qed.

Lemma stable_members f :
  stable scan_once f -> stable members f -> stable members (S f).
Proof.
  intros Hv Hm s l r H. cbn [members] in H.
  destruct (scanstring s Plain) as [[key r0]|] eqn:E0; [|discriminate].
  pose proof (scanstring_length _ _ _ _ E0) as L0.
  pose proof (skip_ws_length r0) as Hw0.
  destruct (expect ":" (skip_ws r0)) as [r1|] eqn:E1; [|discriminate].
  apply expect_length in E1 as L1.
  pose proof (skip_ws_length r1) as Hw1.
  destruct (scan_once f (skip_ws r1)) as [[v r2]|] eqn:E2; [|discriminate].
  destruct (Hv _ _ _ E2) as [L2 K2].
  pose proof (skip_ws_length r2) as Hw2.
  destruct (expect "}" (skip_ws r2)) as [r3|] eqn:E3.
  - injection H as <- <-. apply expect_length in E3 as L3.
    split; [lia|]. intros [|f'] Hf'; [lia|].
    cbn [members]. rewrite E0, E1, (K2 f') by lia. now rewrite E3.
  - destruct (expect "," (skip_ws r2)) as [r3|] eqn:E4; [|discriminate].
    apply expect_length in E4 as L4.
    pose proof (skip_ws_length r3) as Hw3.
    destruct (expect dquote (skip_ws r3)) as [r4|] eqn:E5; [|discriminate].
    apply expect_length in E5 as L5.
    destruct (members f r4) as [[l' r5]|] eqn:E6; [|discriminate].
    injection H as <- <-. destruct (Hm _ _ _ E6) as [L6 K6].
    split; [lia|]. intros [|f'] Hf'; [lia|].
    cbn [members]. rewrite E0, E1, (K2 f') by lia. rewrite E3, E4, E5.
    now rewrite (K6 f') by lia.
Qed.

Theorem fuel_stable : forall f,
  stable scan_once f /\ stable elements f /\ stable members f.
Proof.
  induction f as [|f [Hv [He Hm]]].
  - split; [|split]; intros s a r H; discriminate.
  - split; [|split].
    + now apply stable_scan_once.
    + now apply stable_elements.
    + now apply stable_members.
Qed.

(** [json.loads] gives what the scan gives with any fuel that lets it end. *)
Theorem json_loads_any_fuel fuel s v r :
  scan_once fuel (skip_ws s) = Some (v, r) ->
  json_loads s = match skip_ws r with
                 | EmptyString => Ok v
                 | String _ _ => Raise JSONDecodeError
                 end.
Proof.
  intros H. destruct (fuel_stable fuel) as [Hv _].
  destruct (Hv _ _ _ H) as [_ K]. unfold json_loads.
  rewrite (K (S (String.length s))); [reflexivity|].
  pose proof (skip_ws_length s). lia.
Qed.

End FuelFacts.

Module RoundTrip.
Import Text TextFacts Py Json Const PyFacts Codec SubstFacts DecodeFacts.

Lemma encode_start v :
  canonical v = true ->
  exists c t, encode v = String c t /\ value_start c = true.
Proof.
  destruct v as [|b|lit|s|l|d|cls|up]; simpl; intros H; try discriminate.
  - now exists "n"%char, "ull".
  - destruct b; [now exists "t"%char, "rue" | now exists "f"%char, "alse"].
  - destruct (number_literal_start _ H) as [c [t [-> Hc]]].
    exists c, t. split; [reflexivity|]. now apply digit_or_minus_start.
  - eexists _, _. split; reflexivity.
  - eexists _, _. split; reflexivity.
  - eexists _, _. split; reflexivity.
Qed.

Lemma encode_starts v rest :
  canonical v = true -> starts_with value_start (encode v ++ rest) = true.
Proof.
  intros H. destruct (encode_start v H) as [c [t [-> Hc]]]. exact Hc.
Qed.

(** [dict(pairs)] of pairs with distinct keys is the list of the pairs. *)
Lemma dict_set_fresh : forall (d : dict) k v,
  existsb (String.eqb k) (map fst d) = false ->
  dict_set d k v = (d ++ [(k, v)])%list.
Proof.
  induction d as [|[k' v'] d IH]; intros k v H; [reflexivity|].
  simpl in H |- *. apply orb_false_iff in H as [Hk Hd].
  rewrite String.eqb_sym, Hk. now rewrite IH.
Qed.

Lemma existsb_app_false {A} (p : A -> bool) l1 l2 :
  existsb p l1 = false -> existsb p l2 = false ->
  existsb p (l1 ++ l2)%list = false.
Proof. intros H1 H2. now rewrite existsb_app, H1, H2. Qed.

Lemma dict_of_pairs_from : forall pairs (acc : dict),
  distinct (map fst pairs) = true ->
  forallb (fun k => negb (existsb (String.eqb k) (map fst acc))) (map fst pairs)
  = true ->
  fold_left (fun d kv => dict_set d (fst kv) (snd kv)) pairs acc
  = (acc ++ pairs)%list.
Proof.
  induction pairs as [|[k v] pairs IH]; intros acc Hd Ha.
  - now rewrite List.app_nil_r.
  - simpl in Hd, Ha |- *.
    apply andb_true_iff in Hd as [Hk Hd]. apply andb_true_iff in Ha as [Hka Ha].
    apply negb_true_iff in Hk, Hka.
    rewrite (dict_set_fresh acc k v Hka), IH, <- List.app_assoc; trivial.
    rewrite forallb_forall in Ha |- *. intros k' Hk'.
    rewrite map_app, existsb_app. simpl. rewrite orb_false_r.
    apply negb_true_iff. apply orb_false_iff. split.
    + apply negb_true_iff. now apply Ha.
    + destruct (String.eqb_spec k' k) as [->|]; [|reflexivity].
      assert (E : existsb (String.eqb k) (map fst pairs) = true).
      { apply existsb_exists. exists k. split; [assumption|].
        apply String.eqb_refl. }
      congruence.
Qed.

Lemma dict_of_pairs_distinct pairs :
  distinct (map fst pairs) = true -> dict_of_pairs pairs = pairs.
Proof.
  intros H. unfold dict_of_pairs. rewrite dict_of_pairs_from; trivial.
  apply forallb_forall. reflexivity.
Qed.

(** ** The items of a list and the members of a dict *)

Lemma items_start y l rest :
  canonical y = true ->
  starts_with value_start (String.concat ", " (map encode (y :: l)) ++ rest)
  = true.
Proof.
  intros H. destruct l as [|z l]; simpl.
  - now apply encode_starts.
  - rewrite app_assoc. now apply encode_starts.
Qed.

Lemma elements_roundtrip : forall l,
  l <> [] -> Forall scans l -> forallb canonical l = true ->
  forall fuel rest,
    list_sum (map (fun x => S (weight x)) l) <= fuel ->
    elements fuel (String.concat ", " (map encode l) ++ String "]" rest)
    = Some (l, rest).
Proof.
  induction l as [|x l IH]; intros Hne Hall Hc fuel rest Hf; [congruence|].
  inversion Hall as [|? ? Hx Hl]; subst.
  simpl in Hc. apply andb_true_iff in Hc as [Hcx Hcl].
  simpl in Hf.
  destruct fuel as [|fuel]; [lia|].
  destruct l as [|y l].
  - cbn [map String.concat elements].
    rewrite (Hx fuel (String "]" rest)) by (simpl; trivial; lia).
    reflexivity.
  - change (String.concat ", " (map encode (x :: y :: l)))
      with (encode x ++ ", " ++ String.concat ", " (map encode (y :: l))).
    rewrite !app_assoc. cbn [append elements].
    rewrite (Hx fuel) by (simpl; trivial; lia).
    cbn [skip_ws is_ws expect]. cbn.
    rewrite skip_ws_start.
    + rewrite IH; trivial; [discriminate | lia].
    + simpl in Hcl. apply andb_true_iff in Hcl as [Hcy _].
      now apply items_start.
Qed.

Lemma member_split k x tail :
  plain k = true ->
  member_text (k, x) ++ tail = String dquote (after_quote k x tail).
Proof.
  intros H. unfold member_text, after_quote. cbn [fst snd].
  rewrite (encode_str_plain k H). cbn [append]. rewrite !app_assoc.
  reflexivity.
Qed.

Lemma members_text_split k x d tail :
  plain k = true ->
  String.concat ", " (map member_text ((k, x) :: d)) ++ tail
  = String dquote
      (after_quote k x
         (match d with
          | [] => tail
          | _ :: _ =>
              String "," (String " " (String.concat ", " (map member_text d) ++ tail))
          end)).
Proof.
  intros H. destruct d as [|kv d].
  - cbn [map String.concat]. now apply member_split.
  - change (String.concat ", " (map member_text ((k, x) :: kv :: d)))
      with (member_text (k, x) ++ ", "
            ++ String.concat ", " (map member_text (kv :: d))).
    rewrite app_assoc, (member_split k x _ H). now rewrite app_assoc.
Qed.

Lemma members_roundtrip : forall d,
  Forall (fun kv => scans (snd kv)) d ->
  forallb (fun kv => (plain (fst kv) && canonical (snd kv))%bool) d = true ->
  forall fuel rest text,
    d <> [] ->
    list_sum (map (fun kv => S (weight (snd kv))) d) <= fuel ->
    String.concat ", " (map member_text d) ++ String "}" rest
    = String dquote text ->
    members fuel text = Some (d, rest).
Proof.
  induction d as [|[k x] d IH]; intros Hall Hc fuel rest text Hne Hf Htext;
    [congruence|].
  inversion Hall as [|? ? Hx Hd]; subst. cbn [snd] in Hx.
  simpl in Hc. apply andb_true_iff in Hc as [Hkx Hcd].
  apply andb_true_iff in Hkx as [Hk Hcx].
  simpl in Hf. destruct fuel as [|fuel]; [lia|].
  rewrite (members_text_split k x d _ Hk) in Htext.
  injection Htext as <-. unfold after_quote.
  cbn [members]. rewrite (scanstring_plain k _ Hk).
  cbn [skip_ws is_ws expect]. cbn.
  rewrite (skip_ws_start (encode x ++ _)) by now apply encode_starts.
  destruct d as [|[k' x'] d].
  - rewrite (Hx fuel (String "}" rest)) by (simpl; trivial; lia).
    reflexivity.
  - rewrite (Hx fuel) by (simpl; trivial; lia).
    pose proof Hcd as Hk'. simpl in Hk'.
    apply andb_true_iff in Hk' as [Hk' _]. apply andb_true_iff in Hk' as [Hk' _].
    rewrite (members_text_split k' x' d _ Hk'). cbn.
    rewrite (IH Hd Hcd fuel rest _); [reflexivity | discriminate | lia |].
    now rewrite (members_text_split k' x' d _ Hk').
Qed.

(** ** The round trip *)

Lemma encode_list_text l rest :
  encode (PList l) ++ rest
  = String "[" (String.concat ", " (map encode l) ++ String "]" rest).
Proof. cbn [encode append]. now rewrite app_assoc. Qed.

Lemma encode_dict_text d rest :
  encode (PDict d) ++ rest
  = String "{" (String.concat ", " (map member_text d) ++ String "}" rest).
Proof. cbn [encode append]. now rewrite app_assoc. Qed.

Theorem scan_once_encode : forall v,
  canonical v = true -> unique_keys v = true -> scans v.
Proof.
  induction v as [|b|lit|s|l IH|d IH|cls|up] using pyval_nested_ind;
    intros Hc Hu fuel rest Hf Hr; simpl in Hc; try discriminate;
    (destruct fuel as [|fuel]; [simpl in Hf; lia|]).
  - now destruct rest.
  - now destruct b, rest.
  - now apply scan_once_number.
  - cbn [encode]. rewrite (encode_str_plain s Hc). cbn [append].
    rewrite app_assoc. cbn [append scan_once].
    change (Ascii.eqb dquote dquote) with true. cbv iota.
    now rewrite scanstring_plain.
  - rewrite encode_list_text. cbn [scan_once]. cbn.
    assert (Hs : Forall scans l).
    { simpl in Hu. rewrite forallb_forall in Hc, Hu.
      rewrite Forall_forall in IH |- *. intros x Hx. now apply IH; auto. }
    destruct l as [|x l]; [reflexivity|].
    rewrite (skip_ws_start (String.concat ", " (map encode (x :: l)) ++ _)).
    + destruct (encode_start x) as [c [t [Ex Hx]]].
      { simpl in Hc. now apply andb_true_iff in Hc as [? _]. }
      assert (E : expect "]" (String.concat ", " (map encode (x :: l))
                              ++ String "]" rest) = None).
      { destruct l; cbn [map String.concat]; rewrite ?app_assoc, Ex;
          cbn [append expect]; now rewrite (value_start_not_rbracket _ Hx). }
      rewrite E. rewrite elements_roundtrip; trivial; [discriminate|].
      simpl in Hf. simpl. lia.
    + apply items_start. simpl in Hc. now apply andb_true_iff in Hc as [? _].
  - rewrite encode_dict_text. cbn [scan_once]. cbn.
    simpl in Hu. apply andb_true_iff in Hu as [Hdist Hu].
    assert (Hs : Forall (fun kv => scans (snd kv)) d).
    { rewrite forallb_forall in Hc, Hu.
      rewrite Forall_forall in IH |- *. intros kv Hkv.
      specialize (Hc _ Hkv). apply andb_true_iff in Hc as [_ Hc].
      now apply IH; auto. }
    destruct d as [|[k x] d]; [reflexivity|].
    assert (Hk : plain k = true).
    { simpl in Hc. apply andb_true_iff in Hc as [Hc _].
      now apply andb_true_iff in Hc as [? _]. }
    rewrite (members_text_split k x d _ Hk). cbn.
    rewrite (members_roundtrip ((k, x) :: d) Hs Hc fuel rest).
    + now rewrite dict_of_pairs_distinct.
    + discriminate.
    + simpl in Hf. simpl. lia.
    + apply members_text_split, Hk.
Qed.

(** ** The length of the text is fuel enough *)

Lemma concat_length_bound {A} (w : A -> nat) (text : A -> string) : forall l,
  Forall (fun a => w a <= String.length (text a)) l ->
  list_sum (map (fun a => S (w a)) l)
  <= S (String.length (String.concat ", " (map text l))).
Proof.
  induction l as [|a l IH]; intros H; [simpl; lia|].
  inversion H as [|? ? Ha Hl]; subst. specialize (IH Hl).
  destruct l as [|b l].
  - simpl. lia.
  - change (String.concat ", " (map text (a :: b :: l)))
      with (text a ++ ", " ++ String.concat ", " (map text (b :: l))).
    rewrite !length_app.
    change (list_sum (map (fun a => S (w a)) (a :: b :: l)))
      with (S (w a) + list_sum (map (fun a => S (w a)) (b :: l))).
    change (String.length ", ") with 2.
    remember (list_sum (map (fun a => S (w a)) (b :: l))) as total.
    remember (String.length (String.concat ", " (map text (b :: l)))) as len.
    lia.
Qed.

Lemma weight_le_length : forall v,
  canonical v = true -> weight v <= String.length (encode v).
Proof.
  induction v as [|b|lit|s|l IH|d IH|cls|up] using pyval_nested_ind;
    intros Hc; simpl in Hc; try discriminate.
  - simpl. lia.
  - destruct b; simpl; lia.
  - destruct (number_literal_start _ Hc) as [c [t [-> _]]]. simpl. lia.
  - simpl. lia.
  - cbn [weight encode]. rewrite !length_app. simpl String.length.
    pose proof (concat_length_bound weight encode l) as B.
    rewrite forallb_forall in Hc. rewrite Forall_forall in IH, B.
    specialize (B (fun x Hx => IH x Hx (Hc x Hx))). lia.
  - change (encode (PDict d))
      with ("{" ++ String.concat ", " (map member_text d) ++ "}").
    cbn [weight]. rewrite !length_app. simpl String.length.
    pose proof (concat_length_bound (fun kv => weight (snd kv)) member_text d)
      as B.
    rewrite forallb_forall in Hc. rewrite Forall_forall in IH, B.
    assert (H : forall kv, In kv d ->
                weight (snd kv) <= String.length (member_text kv)).
    { intros kv Hkv. specialize (Hc _ Hkv).
      apply andb_true_iff in Hc as [_ Hc]. specialize (IH _ Hkv Hc).
      unfold member_text. rewrite !length_app. lia. }
    specialize (B H). lia.
Qed.

Lemma dumps_canonical : forall v,
  canonical v = true -> json_dumps v = Ok (encode v).
Proof.
  intros v H. unfold json_dumps.
  assert (E : dumps_error v = None); [|now rewrite E].
  revert H.
  induction v as [|b|lit|s|l IH|d IH|cls|up] using pyval_nested_ind;
    intros Hc; simpl in Hc; try discriminate; try reflexivity.
  - simpl. induction IH as [|x l Hx _ IHl]; [reflexivity|].
    simpl in Hc. apply andb_true_iff in Hc as [Hcx Hcl].
    now rewrite (Hx Hcx), IHl.
  - simpl. induction IH as [|[k x] d Hx _ IHd]; [reflexivity|].
    simpl in Hc, Hx. apply andb_true_iff in Hc as [Hcx Hcd].
    apply andb_true_iff in Hcx as [_ Hcx].
    now rewrite (Hx Hcx), IHd.
Qed.

(** [json.loads] of the text of a canonical value is the value. *)
Theorem loads_encode v :
  canonical v = true -> unique_keys v = true -> json_loads (encode v) = Ok v.
Proof.
  intros Hc Hu. unfold json_loads.
  rewrite skip_ws_start.
  - rewrite <- (app_nil_r (encode v)) at 2.
    rewrite (scan_once_encode v Hc Hu); [reflexivity | | reflexivity].
    pose proof (weight_le_length v Hc). lia.
  - rewrite <- (app_nil_r (encode v)). now apply encode_starts.
Qed.

End RoundTrip.

(** * What the schedule schema accepts *)

Module ShapeFacts.
Import Text TextFacts Py Json Const PyFacts Codec SubstFacts DecodeFacts
  RoundTrip Schema.

Lemma exact_keys_one k d :
  exact_keys [k] d = true -> exists v, d = [(k, v)].
Proof.
  unfold exact_keys, has_key. destruct d as [|[a va] [|? ?]]; try discriminate.
  simpl. destruct (String.eqb_spec a k) as [->|]; [|discriminate].
  intros _. now exists va.
Qed.

Lemma exact_keys_two k1 k2 d :
  k1 <> k2 -> exact_keys [k1; k2] d = true ->
  exists v1 v2, d = [(k1, v1); (k2, v2)] \/ d = [(k2, v2); (k1, v1)].
Proof.
  intros Hne. unfold exact_keys, has_key.
  destruct d as [|[a va] [|[b vb] [|? ?]]]; try discriminate.
  simpl.
  destruct (String.eqb_spec a k1), (String.eqb_spec a k2),
    (String.eqb_spec b k1), (String.eqb_spec b k2);
    subst; simpl; intros H; try discriminate; try congruence;
    first [ now (exists va, vb; left) | now (exists vb, va; right) ].
Qed.

Lemma time_of_day_text v :
  is_time_of_day v = true -> exists t, v = PStr t /\ str_all time_char t = true.
Proof.
  destruct v as [| | |s| | | |]; try discriminate.
  destruct s as [|h1 [|h2 [|c1 [|m1 [|m2 [|c2 [|s1 [|s2 [|? ?]]]]]]]]];
    try discriminate.
  unfold is_time_of_day. cbn [forallb]. intros H.
  do 3 (apply andb_true_iff in H as [H _]).
  apply andb_true_iff in H as [H C2]. apply andb_true_iff in H as [H C1].
  apply andb_true_iff in H as [D1 H]. apply andb_true_iff in H as [D2 H].
  apply andb_true_iff in H as [D3 H]. apply andb_true_iff in H as [D4 H].
  apply andb_true_iff in H as [D5 H]. apply andb_true_iff in H as [D6 _].
  eexists. split; [reflexivity|]. cbn [str_all]. unfold time_char.
  rewrite D1, D2, D3, D4, D5, D6, C1, C2. now rewrite !orb_true_r.
Qed.

Lemma number_text v :
  is_number v = true -> exists lit, v = PNum lit /\ is_number_literal lit = true.
Proof. destruct v; try discriminate. intros H. eauto. Qed.

Lemma dhw_state_text v :
  is_dhw_state v = true -> exists s, v = PStr s /\ (s = "On" \/ s = "Off").
Proof.
  destruct v as [| | |s| | | |]; try discriminate. simpl. intros H.
  exists s. split; [reflexivity|].
  apply orb_true_iff in H as [H|H]; apply String.eqb_eq in H; auto.
Qed.

Lemma day_name_text v :
  is_day_name v = true -> exists s, v = PStr s /\ In s DAYS_OF_WEEK.
Proof.
  destruct v as [| | |s| | | |]; try discriminate. unfold is_day_name.
  intros H. exists s. split; [reflexivity|].
  apply existsb_exists in H as [x [Hx E]]. apply String.eqb_eq in E. now subst.
Qed.

Lemma list_of_accepts (p : pyval -> bool) (P : pyval -> Prop) v :
  (forall x, p x = true -> P x) ->
  list_of p v = true -> exists l, v = PList l /\ Forall P l.
Proof.
  intros Hp. destruct v as [| | | |l| | |]; try discriminate. simpl.
  intros H. exists l. split; [reflexivity|].
  rewrite forallb_forall in H. apply Forall_forall. auto.
Qed.

Lemma switchpoint_accepts sp :
  SCH_SWITCHPOINT sp = true -> switchpoint_shape sp.
Proof.
  destruct sp as [| | | | |d| |]; try discriminate. unfold SCH_SWITCHPOINT.
  intros H. apply orb_true_iff in H as [H|H];
    apply andb_true_iff in H as [H Ht]; apply andb_true_iff in H as [Hk Hx];
    apply exact_keys_two in Hk; try discriminate;
    destruct Hk as [x [t [-> | ->]]]; unfold field in Hx, Ht; simpl in Hx, Ht;
    apply time_of_day_text in Ht as [t' [-> Ht]].
  - apply number_text in Hx as [lit [-> Hx]].
    apply value_then_time; [now constructor | assumption].
  - apply number_text in Hx as [lit [-> Hx]].
    apply time_then_value; [now constructor | assumption].
  - apply dhw_state_text in Hx as [s [-> Hx]].
    apply value_then_time; [now constructor | assumption].
  - apply dhw_state_text in Hx as [s [-> Hx]].
    apply time_then_value; [now constructor | assumption].
Qed.

Lemma day_accepts day : SCH_DAILY_SCHEDULE day = true -> day_shape day.
Proof.
  destruct day as [| | | | |d| |]; try discriminate. unfold SCH_DAILY_SCHEDULE.
  intros H. apply andb_true_iff in H as [H Hs].
  apply andb_true_iff in H as [Hk Hn].
  apply exact_keys_two in Hk; try discriminate.
  destruct Hk as [n [s [-> | ->]]]; unfold field in Hn, Hs; simpl in Hn, Hs;
    apply day_name_text in Hn as [name [-> Hn]];
    apply (list_of_accepts _ switchpoint_shape) in Hs as [sps [-> Hs]];
    try exact switchpoint_accepts.
  - now apply name_then_switchpoints.
  - now apply switchpoints_then_name.
Qed.

Theorem schedule_accepts v : SCH_SCHEDULE v = true -> schedule_shape v.
Proof.
  destruct v as [| | | | |d| |]; try discriminate. unfold SCH_SCHEDULE.
  intros H. apply andb_true_iff in H as [Hk Hd].
  apply exact_keys_one in Hk as [x ->]. unfold field in Hd. simpl in Hd.
  apply (list_of_accepts _ day_shape) in Hd as [days [-> Hd]];
    [|exact day_accepts].
  now constructor.
Qed.

End ShapeFacts.

(** * The read path on an accepted schedule *)

Module ScheduleFacts.
Import Text TextFacts Py Json Const PyFacts Codec SubstFacts DecodeFacts
  RoundTrip Schema ShapeFacts Broker Spec BrokerFacts.

Lemma str_all_impl (p q : ascii -> bool) :
  (forall c, p c = true -> q c = true) ->
  forall s, str_all p s = true -> str_all q s = true.
Proof.
  intros Hpq. induction s as [|c s IH]; intros H; [reflexivity|].
  simpl in H |- *. apply andb_true_iff in H as [Hc Hs].
  now rewrite (Hpq c Hc), IH.
Qed.

Lemma time_char_plain c : time_char c = true -> plain_char c = true.
Proof. by_cases_on c. Qed.

Lemma codec_ok_num lit : is_number_literal lit = true -> codec_ok (PNum lit).
Proof. intros H. repeat split; assumption. Qed.

Lemma codec_ok_str s :
  plain s = true -> ZoneBase.replace_keys s = s -> codec_ok (PStr s).
Proof.
  intros Hp Hs. unfold codec_ok. cbn [map_str rename_keys canonical unique_keys].
  rewrite Hs. repeat split; assumption.
Qed.

Lemma codec_ok_time t : str_all time_char t = true -> codec_ok (PStr t).
Proof.
  intros H. apply codec_ok_str.
  - exact (str_all_impl time_char plain_char time_char_plain t H).
  - apply (fold_replace_inert time_char); [repeat constructor | exact H].
Qed.

Lemma codec_ok_day_name day : In day DAYS_OF_WEEK -> codec_ok (PStr day).
Proof.
  intros H. apply codec_ok_str;
    repeat (destruct H as [<-|H]; [reflexivity|]); destruct H.
Qed.

Lemma codec_ok_list l : Forall codec_ok l -> codec_ok (PList l).
Proof.
  intros H. unfold codec_ok. cbn [map_str rename_keys canonical unique_keys].
  repeat split.
  - apply forallb_forall. rewrite Forall_forall in H. intros x Hx.
    now apply H.
  - f_equal. apply map_ext_Forall. revert H. apply Forall_impl.
    now intros x [_ [E _]].
  - rewrite forallb_forall. intros y Hy. apply in_map_iff in Hy as [x [<- Hx]].
    rewrite Forall_forall in H. now apply H.
  - rewrite forallb_forall. intros y Hy. apply in_map_iff in Hy as [x [<- Hx]].
    rewrite Forall_forall in H. now apply H.
Qed.

Lemma codec_ok_one k x : key_ok k -> codec_ok x -> codec_ok (PDict [(k, x)]).
Proof.
  intros [Hp [Hr Hp']] [Hc [Hm [Hc' Hu]]]. unfold codec_ok.
  cbn [map_str rename_keys canonical unique_keys map forallb fst snd distinct
         existsb negb andb].
  rewrite Hp, Hc, Hr, Hm, Hp', Hc', Hu. repeat split.
Qed.

Lemma codec_ok_two k1 x1 k2 x2 :
  key_ok k1 -> key_ok k2 -> String.eqb (rename_key k1) (rename_key k2) = false ->
  codec_ok x1 -> codec_ok x2 -> codec_ok (PDict [(k1, x1); (k2, x2)]).
Proof.
  intros [Hp1 [Hr1 Hp1']] [Hp2 [Hr2 Hp2']] Hne
    [Hc1 [Hm1 [Hc1' Hu1]]] [Hc2 [Hm2 [Hc2' Hu2]]].
  unfold codec_ok.
  cbn [map_str rename_keys canonical unique_keys map forallb fst snd distinct
         existsb negb andb orb].
  rewrite Hp1, Hc1, Hr1, Hm1, Hp1', Hc1', Hu1, Hp2, Hc2, Hr2, Hm2, Hp2', Hc2',
    Hu2, Hne.
  repeat split.
Qed.

Lemma key_ok_schema :
  key_ok SZ_DAILY_SCHEDULES /\ key_ok SZ_DAY_OF_WEEK /\ key_ok SZ_SWITCHPOINTS
  /\ key_ok SZ_TIME_OF_DAY /\ key_ok SZ_HEAT_SETPOINT /\ key_ok SZ_DHW_STATE.
Proof. repeat split; vm_compute; reflexivity. Qed.

Lemma setpoint_ok k x :
  setpoint_field k x ->
  key_ok k /\ codec_ok x
  /\ String.eqb (rename_key k) (rename_key SZ_TIME_OF_DAY) = false
  /\ String.eqb (rename_key SZ_TIME_OF_DAY) (rename_key k) = false.
Proof.
  destruct key_ok_schema as [_ [_ [_ [_ [Hh Hd]]]]].
  intros [lit Hlit | state Hstate].
  - split; [exact Hh|]. split; [now apply codec_ok_num|]. split; reflexivity.
  - split; [exact Hd|]. split; [|split; reflexivity].
    destruct Hstate as [-> | ->]; apply codec_ok_str; reflexivity.
Qed.

Lemma switchpoint_ok sp : switchpoint_shape sp -> codec_ok sp.
Proof.
  destruct key_ok_schema as [_ [_ [_ [Ht _]]]].
  intros [k x t Hf Htime | k x t Hf Htime];
    destruct (setpoint_ok k x Hf) as [Hk [Hx [N1 N2]]];
    apply codec_ok_two; trivial; now apply codec_ok_time.
Qed.

Lemma day_ok day : day_shape day -> codec_ok day.
Proof.
  destruct key_ok_schema as [_ [Hd [Hs _]]].
  intros [name sps Hn Hsps | name sps Hn Hsps];
    apply codec_ok_two; trivial;
    try (now apply codec_ok_day_name);
    apply codec_ok_list; revert Hsps; apply Forall_impl, switchpoint_ok.
Qed.

Theorem schedule_ok v : schedule_shape v -> codec_ok v.
Proof.
  destruct key_ok_schema as [Hk _].
  intros [days Hdays]. apply codec_ok_one; trivial.
  apply codec_ok_list. revert Hdays. apply Forall_impl, day_ok.
Qed.

(** [json.dumps], the substitution and [json.loads] on an accepted
    schedule: the schedule with its known keys renamed. *)
Theorem text_round v :
  codec_ok v ->
  json_dumps v = Ok (encode v)
  /\ json_loads (ZoneBase.replace_keys (encode v)) = Ok (rename_keys v).
Proof.
  intros [Hc [Hm [Hc' Hu]]]. split.
  - now apply dumps_canonical.
  - rewrite (replace_keys_encode v Hc), Hm. now apply loads_encode.
Qed.

(** ** The coroutine *)

Lemma get_schedule_run (_type : string) (s : state) :
  ZoneBase.get_schedule _type s
  = match _broker (self s) (calls s)
            (GET (ZoneBase.url _type (self s) "schedule") SCH_SCHEDULE) with
    | Ok schedule =>
        (read_path schedule,
         after s (GET (ZoneBase.url _type (self s) "schedule") SCH_SCHEDULE))
    | Raise e =>
        (Raise e,
         after s (GET (ZoneBase.url _type (self s) "schedule") SCH_SCHEDULE))
    end.
Proof.
  unfold ZoneBase.get_schedule, read_path, bind, get_self, broker_get, call,
    lift, ret, after.
  destruct (_broker (self s) (calls s) _) as [schedule|e]; [|reflexivity].
  cbn [self calls].
  destruct (json_dumps schedule) as [text|e]; [|reflexivity].
  destruct (json_loads _) as [result|e]; [|reflexivity].
  destruct (subscript result _) as [days|e]; [|reflexivity].
  destruct (py_iter days) as [items|e]; [|reflexivity].
  destruct (ZoneBase.number_days 0 items); reflexivity.
Qed.

Lemma number_days_dicts : forall items n,
  Forall (fun x => exists d, x = PDict d) items ->
  ZoneBase.number_days n items = Ok (number_from n items).
Proof.
  induction items as [|x items IH]; intros n H; [reflexivity|].
  inversion H as [|? ? [d ->] Hrest]; subst.
  cbn [ZoneBase.number_days number_from setitem]. now rewrite IH.
Qed.

Lemma renamed_day_dict day : day_shape day -> exists d, rename_keys day = PDict d.
Proof. intros [? ? _ _ | ? ? _ _]; eexists; reflexivity. Qed.

Theorem read_path_decodes v : schedule_shape v -> read_path v = Ok (decode v).
Proof.
  intros Hv. destruct (text_round v (schedule_ok v Hv)) as [Hd Hl].
  unfold read_path. rewrite Hd, Hl.
  destruct Hv as [days Hdays]. unfold decode.
  cbn [rename_keys map fst snd].
  change (rename_key SZ_DAILY_SCHEDULES) with (capitalize SZ_DAILY_SCHEDULES).
  unfold subscript, getitem. cbn [dict_get]. rewrite String.eqb_refl.
  cbn [py_iter]. rewrite number_days_dicts.
  - reflexivity.
  - apply Forall_forall. intros y Hy. apply in_map_iff in Hy as [x [<- Hx]].
    rewrite Forall_forall in Hdays. now apply renamed_day_dict, Hdays.
Qed.

(** ** Content and ordinals of the decoded schedule *)

Lemma switchpoint_content sp :
  switchpoint_shape sp ->
  exists pair,
    switchpoint_pair remote_names sp = Some pair
    /\ switchpoint_pair internal_names (rename_keys sp) = Some pair.
Proof.
  intros [k x t Hf _ | k x t Hf _];
    destruct Hf as [lit _ | state _]; eexists; split; reflexivity.
Qed.

Lemma switchpoints_content sps :
  Forall switchpoint_shape sps ->
  exists pairs,
    traverse (switchpoint_pair remote_names) sps = Some pairs
    /\ traverse (switchpoint_pair internal_names) (map rename_keys sps)
       = Some pairs.
Proof.
  induction 1 as [|sp sps Hsp _ [pairs [E1 E2]]].
  - now exists [].
  - destruct (switchpoint_content sp Hsp) as [pair [P1 P2]].
    exists (pair :: pairs). cbn [traverse map]. now rewrite P1, P2, E1, E2.
Qed.

Lemma days_content days :
  Forall day_shape days ->
  forall n,
  exists content,
    traverse (day_switchpoints remote_names) days = Some content
    /\ traverse (day_switchpoints internal_names)
         (number_from n (map rename_keys days))
       = Some content.
Proof.
  induction 1 as [|day days Hday _ IH]; intros n.
  - now exists [].
  - destruct (IH (S n)) as [content [E1 E2]].
    destruct Hday as [name sps _ Hsps | name sps _ Hsps];
      destruct (switchpoints_content sps Hsps) as [pairs [P1 P2]];
      exists (pairs :: content); cbn [traverse map number_from];
      rewrite E1, E2; split.
    + change (day_switchpoints remote_names
                (PDict [(SZ_DAY_OF_WEEK, PStr name); (SZ_SWITCHPOINTS, PList sps)]))
        with (traverse (switchpoint_pair remote_names) sps).
      now rewrite P1.
    + change (traverse (switchpoint_pair internal_names) (map rename_keys sps)
              = Some pairs) in P2.
      cbn. cbn in P2. now rewrite P2.
    + change (day_switchpoints remote_names
                (PDict [(SZ_SWITCHPOINTS, PList sps); (SZ_DAY_OF_WEEK, PStr name)]))
        with (traverse (switchpoint_pair remote_names) sps).
      now rewrite P1.
    + cbn. cbn in P2. now rewrite P2.
Qed.

Lemma decode_days days :
  decode (PDict [(SZ_DAILY_SCHEDULES, PList days)])
  = PDict [(capitalize SZ_DAILY_SCHEDULES,
            PList (number_from 0 (map rename_keys days)))].
Proof. reflexivity. Qed.

Theorem decode_content v :
  schedule_shape v ->
  exists content,
    schedule_content remote_names v = Some content
    /\ schedule_content internal_names (decode v) = Some content.
Proof.
  intros [days Hdays]. destruct (days_content days Hdays 0) as [content [E1 E2]].
  exists content. rewrite decode_days. split; [exact E1 | exact E2].
Qed.

Lemma days_ordinals days :
  Forall day_shape days ->
  forall n,
    map (fun day => subscript day (capitalize SZ_DAY_OF_WEEK))
      (number_from n (map rename_keys days))
    = map (fun i => Ok (py_int i)) (seq n (List.length days)).
Proof.
  induction 1 as [|day days Hday _ IH]; intros n; [reflexivity|].
  cbn [map number_from List.length seq]. rewrite IH. f_equal.
  destruct Hday as [name sps _ _ | name sps _ _]; reflexivity.
Qed.

(** ** The read path, run *)

(** The names that [str.capitalize] gives the known keys. *)
Example capitalized_keys :
  map capitalize ZoneBase.CAPITALIZED_KEYS
  = ["Dailyschedules"; "Dayofweek"; "Dhwstate"; "Switchpoints"; "Temperature";
     "Timeofday"].
Proof. reflexivity. Qed.

Example read_path_one_day :
  read_path
    (PDict [(SZ_DAILY_SCHEDULES,
             PList [PDict [(SZ_DAY_OF_WEEK, PStr "Friday");
                           (SZ_SWITCHPOINTS,
                            PList [PDict [(SZ_DHW_STATE, PStr "On");
                                          (SZ_TIME_OF_DAY, PStr "07:00:00")]])]])])
  = Ok (PDict [("Dailyschedules",
                PList [PDict [("Dayofweek", PNum "0");
                              ("Switchpoints",
                               PList [PDict [("Dhwstate", PStr "On");
                                             ("Timeofday", PStr "07:00:00")]])]])]).
Proof. vm_compute. reflexivity. Qed.

(** The substitution works on the text: outside the schema it also
    rewrites a string value that contains a key, and a key that follows a
    backslash escape in the text breaks the escape. *)
Example read_path_rewrites_values :
  read_path (PDict [(SZ_DAILY_SCHEDULES, PList []); ("note", PStr "temperature")])
  = Ok (PDict [("Dailyschedules", PList []); ("note", PStr "Temperature")]).
Proof. vm_compute. reflexivity. Qed.

Example read_path_breaks_escape :
  read_path
    (PDict [(SZ_DAILY_SCHEDULES, PList []);
            ("note", PStr (String (chr 9) "emperature"))])
  = Raise JSONDecodeError.
Proof. vm_compute. reflexivity. Qed.

End ScheduleFacts.

(** * The read path on any serializable payload *)

Module ReadFacts.
Import Text TextFacts Py Json Const PyFacts Codec SubstFacts RoundTrip Broker
  Spec BrokerFacts ScheduleFacts ReadPath.

Lemma map_str_canonical : forall v,
  canonical v = true -> canonical (map_str ZoneBase.replace_keys v) = true.
Proof.
  induction v as [|b|lit|s|l IH|d IH|cls|up] using pyval_nested_ind;
    intros Hv; simpl in Hv; try discriminate; try assumption.
  - simpl. now apply replace_keys_plain.
  - cbn [map_str canonical]. rewrite forallb_forall in Hv |- *.
    rewrite Forall_forall in IH. intros y Hy.
    apply in_map_iff in Hy as [x [<- Hx]]. apply IH; auto.
  - cbn [map_str canonical]. rewrite forallb_forall in Hv |- *.
    rewrite Forall_forall in IH. intros y Hy.
    apply in_map_iff in Hy as [[k x] [<- Hx]].
    specialize (Hv _ Hx). specialize (IH _ Hx). cbn [fst snd] in *.
    apply andb_true_iff in Hv as [Hk Hx'].
    now rewrite (replace_keys_plain _ Hk), (IH Hx').
Qed.

(** The substitution in the text is the substitution in every string of
    the tree. *)
Lemma read_path_text v :
  canonical v = true ->
  unique_keys (map_str ZoneBase.replace_keys v) = true ->
  read_path v = finish (map_str ZoneBase.replace_keys v).
Proof.
  intros Hc Hu. unfold read_path, finish.
  rewrite (dumps_canonical v Hc), (replace_keys_encode v Hc).
  now rewrite (loads_encode _ (map_str_canonical v Hc) Hu).
Qed.

Lemma prefix_empty s : prefix "" s = true.
Proof. now destruct s. Qed.

Lemma replace_from_absent old new : forall s,
  contains old s = false -> replace_from old new s 0 = s.
Proof.
  induction s as [|c s IH]; intros H; [reflexivity|].
  cbn [contains] in H. apply orb_false_iff in H as [Hp Hs].
  cbn [replace_from]. now rewrite Hp, IH.
Qed.

Lemma str_replace_absent old new s :
  contains old s = false -> str_replace s old new = s.
Proof.
  intros H. unfold str_replace. destruct old as [|c old].
  - destruct s; discriminate.
  - now apply replace_from_absent.
Qed.

Lemma fold_replace_absent s : forall keys,
  forallb (fun k => negb (contains k s)) keys = true ->
  fold_left (fun text k => str_replace text k (capitalize k)) keys s = s.
Proof.
  induction keys as [|k keys IH]; intros H; [reflexivity|].
  cbn [forallb] in H. apply andb_true_iff in H as [Hk Hrest].
  apply negb_true_iff in Hk. cbn [fold_left].
  rewrite (str_replace_absent _ _ _ Hk). now apply IH.
Qed.

Lemma key_free_replace s : key_free s = true -> ZoneBase.replace_keys s = s.
Proof. apply fold_replace_absent. Qed.

Lemma known_key_cases k :
  known_key k = true -> In k ZoneBase.CAPITALIZED_KEYS.
Proof.
  unfold known_key. intros H. apply existsb_exists in H as [x [Hx He]].
  apply String.eqb_eq in He. now subst.
Qed.

Lemma known_key_replace k :
  known_key k = true -> ZoneBase.replace_keys k = capitalize k.
Proof.
  intros H. apply known_key_cases in H.
  repeat (destruct H as [<-|H]; [reflexivity|]). destruct H.
Qed.

Lemma key_rename k :
  (known_key k || key_free k)%bool = true ->
  ZoneBase.replace_keys k = rename_key k.
Proof.
  intros H. unfold rename_key. fold (known_key k).
  destruct (known_key k) eqn:Hk.
  - now apply known_key_replace.
  - now apply key_free_replace.
Qed.

(** On a renamable value the substitution renames the known keys and does
    nothing else. *)
Lemma renamable_rename : forall v,
  renamable v = true -> map_str ZoneBase.replace_keys v = rename_keys v.
Proof.
  induction v as [|b|lit|s|l IH|d IH|cls|up] using pyval_nested_ind;
    intros Hv; try reflexivity.
  - simpl in Hv. simpl. now rewrite key_free_replace.
  - cbn [renamable] in Hv. cbn [map_str rename_keys]. f_equal.
    apply map_ext_Forall. rewrite forallb_forall in Hv.
    rewrite Forall_forall in IH |- *. intros x Hx. apply IH; auto.
  - cbn [renamable] in Hv. cbn [map_str rename_keys]. f_equal.
    apply map_ext_Forall. rewrite forallb_forall in Hv.
    rewrite Forall_forall in IH |- *. intros [k x] Hx.
    specialize (Hv _ Hx). specialize (IH _ Hx). cbn [fst snd] in *.
    apply andb_true_iff in Hv as [Hk Hx'].
    now rewrite (key_rename k Hk), (IH Hx').
Qed.

Lemma forallb_is_dict items :
  forallb is_dict items = true ->
  Forall (fun x => exists d, x = PDict d) items.
Proof.
  intros H. rewrite forallb_forall in H. apply Forall_forall. intros x Hx.
  specialize (H x Hx). destruct x; try discriminate. eexists; reflexivity.
Qed.

Lemma finish_decode v d days :
  rename_keys v = PDict d ->
  dict_get d (capitalize SZ_DAILY_SCHEDULES) = Some (PList days) ->
  forallb is_dict days = true ->
  finish (rename_keys v) = Ok (decode v).
Proof.
  intros Hd Hdays Hitems. unfold finish, decode. rewrite Hd.
  unfold subscript, getitem. rewrite Hdays. cbn [py_iter].
  rewrite (number_days_dicts days 0 (forallb_is_dict days Hitems)).
  reflexivity.
Qed.

(** ** The daily schedules of a renamed dict *)

Lemma rename_to_days k :
  rename_key k = capitalize SZ_DAILY_SCHEDULES ->
  k = SZ_DAILY_SCHEDULES \/ k = capitalize SZ_DAILY_SCHEDULES.
Proof.
  unfold rename_key. fold (known_key k). destruct (known_key k) eqn:Hk.
  - apply known_key_cases in Hk.
    repeat (destruct Hk as [<-|Hk]; [first [now left | discriminate]|]).
    destruct Hk.
  - now right.
Qed.

Lemma renamed_without_days : forall d,
  dict_get d SZ_DAILY_SCHEDULES = None ->
  dict_get d (capitalize SZ_DAILY_SCHEDULES) = None ->
  dict_get (map renamed d) (capitalize SZ_DAILY_SCHEDULES) = None.
Proof.
  induction d as [|[k v] d IH]; intros H1 H2; [reflexivity|].
  cbn [dict_get] in H1, H2. cbn [map dict_get renamed fst snd].
  destruct (String.eqb_spec k SZ_DAILY_SCHEDULES) as [|N1]; [discriminate|].
  destruct (String.eqb_spec k (capitalize SZ_DAILY_SCHEDULES)) as [|N2];
    [discriminate|].
  destruct (String.eqb_spec (rename_key k) (capitalize SZ_DAILY_SCHEDULES))
    as [E|_]; [|now apply IH].
  apply rename_to_days in E as [E|E]; contradiction.
Qed.

Lemma dict_get_key k v : forall d,
  dict_get d k = Some v -> In (rename_key k) (map fst (map renamed d)).
Proof.
  induction d as [|[k0 v0] d IH]; intros H; [discriminate|].
  cbn [dict_get] in H. cbn [map renamed fst snd].
  destruct (String.eqb_spec k0 k) as [->|_]; [now left|].
  right. now apply IH.
Qed.

Lemma renamed_lookup k v : forall d,
  distinct (map fst (map renamed d)) = true ->
  dict_get d k = Some v ->
  dict_get (map renamed d) (rename_key k) = Some (rename_keys v).
Proof.
  induction d as [|[k0 v0] d IH]; intros Hd H; [discriminate|].
  cbn [map renamed fst snd distinct] in Hd.
  apply andb_true_iff in Hd as [Hfresh Hd]. apply negb_true_iff in Hfresh.
  cbn [dict_get] in H. cbn [map dict_get renamed fst snd].
  destruct (String.eqb_spec k0 k) as [->|Hne].
  - rewrite String.eqb_refl. now injection H as ->.
  - destruct (String.eqb_spec (rename_key k0) (rename_key k)) as [E|_];
      [|now apply IH].
    assert (Hin : existsb (String.eqb (rename_key k0))
                    (map fst (map renamed d)) = true).
    { apply existsb_exists. exists (rename_key k). split.
      - exact (dict_get_key k v d H).
      - rewrite E. apply String.eqb_refl. }
    congruence.
Qed.

Lemma rename_keys_dicts days :
  forallb is_dict (map rename_keys days) = forallb is_dict days.
Proof.
  induction days as [|day days IH]; [reflexivity|].
  cbn [map forallb]. rewrite IH. now destruct day.
Qed.

(** A renamable dict with a list of dicts as its daily schedules is
    decoded. *)
Lemma read_path_renamable d days :
  canonical (PDict d) = true ->
  renamable (PDict d) = true ->
  unique_keys (rename_keys (PDict d)) = true ->
  dict_get d SZ_DAILY_SCHEDULES = Some (PList days) ->
  forallb is_dict days = true ->
  read_path (PDict d) = Ok (decode (PDict d)).
Proof.
  intros Hc Hr Hu Hg Hdays.
  rewrite read_path_text;
    [|assumption | now rewrite (renamable_rename _ Hr)].
  rewrite (renamable_rename _ Hr).
  apply (finish_decode _ (map renamed d) (map rename_keys days)).
  - reflexivity.
  - cbn [rename_keys unique_keys] in Hu. apply andb_true_iff in Hu as [Hu _].
    exact (renamed_lookup SZ_DAILY_SCHEDULES (PList days) d Hu Hg).
  - now rewrite rename_keys_dicts.
Qed.

Lemma read_path_without_days d :
  canonical (PDict d) = true ->
  renamable (PDict d) = true ->
  unique_keys (rename_keys (PDict d)) = true ->
  dict_get d SZ_DAILY_SCHEDULES = None ->
  dict_get d (capitalize SZ_DAILY_SCHEDULES) = None ->
  read_path (PDict d) = Raise (KeyError (capitalize SZ_DAILY_SCHEDULES)).
Proof.
  intros Hc Hr Hu H1 H2.
  rewrite read_path_text;
    [|assumption | now rewrite (renamable_rename _ Hr)].
  rewrite (renamable_rename _ Hr).
  unfold finish. cbn [rename_keys subscript]. unfold getitem.
  change (map (fun kv => (rename_key (fst kv), rename_keys (snd kv))) d)
    with (map renamed d).
  now rewrite (renamed_without_days d H1 H2).
Qed.

End ReadFacts.

(** * The numbering loop and the ordinals it writes *)

Module LoopFacts.
Import Text TextFacts Py Json Const PyFacts Codec SubstFacts RoundTrip
  ScheduleFacts ReadPath.

Lemma dict_get_set k v k' : forall d,
  dict_get (dict_set d k v) k'
  = if String.eqb k k' then Some v else dict_get d k'.
Proof.
  induction d as [|[k0 v0] d IH]; [reflexivity|].
  cbn [dict_set]. destruct (String.eqb_spec k0 k) as [->|Hne].
  - cbn [dict_get]. now destruct (String.eqb k k').
  - cbn [dict_get]. destruct (String.eqb_spec k0 k') as [->|Hne'].
    + destruct (String.eqb_spec k k'); [congruence | reflexivity].
    + exact IH.
Qed.

Lemma dict_set_length k v : forall d,
  List.length d <= List.length (dict_set d k v).
Proof.
  induction d as [|[k0 v0] d IH]; simpl; [lia|].
  destruct (String.eqb k0 k); simpl; lia.
Qed.

Lemma number_from_length : forall days n,
  List.length (number_from n days) = List.length days.
Proof. induction days as [|day days IH]; intros n; simpl; [|rewrite IH]; reflexivity. Qed.

Lemma number_from_nth : forall days n i,
  nth_error (number_from n days) i
  = option_map (numbered (n + i)) (nth_error days i).
Proof.
  induction days as [|day days IH]; intros n i.
  - now destruct i.
  - destruct i as [|i]; cbn [number_from nth_error option_map].
    + now rewrite Nat.add_0_r.
    + rewrite IH. now replace (S n + i) with (n + S i) by lia.
Qed.

(** The loop stops with a [TypeError] at the first entry that is not a
    dict, and numbers every entry otherwise. *)
Lemma number_days_spec : forall items n,
  match ZoneBase.number_days n items with
  | Ok items' => forallb is_dict items = true /\ items' = number_from n items
  | Raise e => forallb is_dict items = false /\ exists msg, e = TypeError msg
  end.
Proof.
  induction items as [|x items IH]; intros n; [now split|].
  cbn [ZoneBase.number_days forallb number_from].
  specialize (IH (S n)).
  destruct x; cbn [setitem is_dict andb];
    try (split; [reflexivity | eexists; reflexivity]).
  destruct (ZoneBase.number_days (S n) items) as [items'|e].
  - destruct IH as [-> ->]. now split.
  - exact IH.
Qed.

(** *** The ordinals are number literals *)

Lemma uint_digits : forall d,
  str_all is_digit (NilEmpty.string_of_uint d) = true.
Proof. induction d; simpl; auto. Qed.

Lemma span_digits_all : forall s,
  str_all is_digit s = true -> span_digits s = (s, "").
Proof.
  induction s as [|c s IH]; intros H; [reflexivity|].
  simpl in H. apply andb_true_iff in H as [Hc Hs].
  cbn [span_digits]. now rewrite Hc, (IH Hs).
Qed.

Lemma digits_literal c s :
  is_digit c = true -> Ascii.eqb c "0" = false -> str_all is_digit s = true ->
  is_number_literal (String c s) = true.
Proof.
  intros Hc Hz Hs. unfold is_number_literal, scan_number, scan_integer.
  assert (Hm : Ascii.eqb c "-" = false).
  { destruct (Ascii.eqb_spec c "-") as [->|]; [discriminate | reflexivity]. }
  rewrite Hm. unfold scan_int. rewrite Hz, Hc, (span_digits_all s Hs).
  cbn [scan_frac scan_exp]. rewrite !app_nil_r. apply String.eqb_refl.
Qed.

Lemma nzhead_head d :
  match Decimal.nzhead d with Decimal.D0 _ => False | _ => True end.
Proof. induction d; simpl; auto. Qed.

Lemma unorm_literal d :
  is_number_literal (NilZero.string_of_uint (Decimal.unorm d)) = true.
Proof.
  unfold Decimal.unorm. pose proof (nzhead_head d) as H.
  destruct (Decimal.nzhead d) as [|u|u|u|u|u|u|u|u|u|u]; try reflexivity;
    try (destruct H);
    cbn [NilZero.string_of_uint NilEmpty.string_of_uint];
    apply digits_literal; try reflexivity; apply uint_digits.
Qed.

Lemma to_uint_normal n : Nat.to_uint n = Decimal.unorm (Nat.to_uint n).
Proof.
  rewrite <- (DecimalNat.Unsigned.to_of (Nat.to_uint n)).
  now rewrite DecimalNat.Unsigned.of_to.
Qed.

Lemma py_int_canonical n : canonical (py_int n) = true.
Proof.
  unfold py_int. cbn [canonical]. rewrite to_uint_normal. apply unorm_literal.
Qed.

(** *** Numbering keeps a value serializable *)

Lemma dict_set_canonical k v : forall d,
  plain k = true -> canonical v = true -> canonical (PDict d) = true ->
  canonical (PDict (dict_set d k v)) = true.
Proof.
  intros d Hk Hv. cbn [canonical].
  induction d as [|[k0 v0] d IH]; intros Hd.
  - cbn [dict_set forallb fst snd]. now rewrite Hk, Hv.
  - cbn [forallb fst snd] in Hd. apply andb_true_iff in Hd as [H0 Hd].
    apply andb_true_iff in H0 as [Hk0 Hv0].
    cbn [dict_set]. destruct (String.eqb k0 k); cbn [forallb fst snd].
    + now rewrite Hk0, Hv, Hd.
    + now rewrite Hk0, Hv0, (IH Hd).
Qed.

Lemma number_from_canonical : forall days n,
  forallb canonical days = true ->
  forallb canonical (number_from n days) = true.
Proof.
  induction days as [|day days IH]; intros n H; [reflexivity|].
  cbn [forallb] in H. apply andb_true_iff in H as [Hday Hdays].
  cbn [number_from forallb]. rewrite (IH _ Hdays), andb_true_r.
  destruct day; try assumption.
  apply dict_set_canonical; [reflexivity | apply py_int_canonical | assumption].
Qed.

Lemma dict_get_canonical k v : forall d,
  canonical (PDict d) = true -> dict_get d k = Some v -> canonical v = true.
Proof.
  cbn [canonical]. induction d as [|[k0 v0] d IH]; intros Hd Hg; [discriminate|].
  cbn [forallb fst snd] in Hd. apply andb_true_iff in Hd as [H0 Hd].
  apply andb_true_iff in H0 as [_ Hv0].
  cbn [dict_get] in Hg. destruct (String.eqb k0 k); [|now apply IH].
  now injection Hg as <-.
Qed.

Lemma decode_canonical v :
  canonical (rename_keys v) = true -> canonical (decode v) = true.
Proof.
  intros H. unfold decode. destruct (rename_keys v) as [| | | | |d| |] eqn:E;
    try assumption.
  destruct (dict_get d (capitalize SZ_DAILY_SCHEDULES)) as [days|] eqn:Hg;
    [|assumption].
  destruct days as [| | | |days| | |]; try assumption.
  apply dict_set_canonical; [reflexivity| |assumption].
  cbn [canonical]. apply number_from_canonical.
  exact (dict_get_canonical _ _ _ H Hg).
Qed.

End LoopFacts.

(** * Sequences of calls on one object *)

Module TraceFacts.
Import Text TextFacts Py Json Const Broker Datetime Spec BrokerFacts
  ScheduleFacts ReadFacts Trace.

Lemma prefix_app : forall a b, prefix a (a ++ b) = true.
Proof.
  induction a as [|c a IH]; intros b; [apply prefix_empty|].
  simpl. destruct (ascii_dec c c); [apply IH | congruence].
Qed.

Lemma url_under (_type : string) (s : state) (leaf : string) :
  prefix (root _type s) (ZoneBase.url _type (self s) leaf) = true.
Proof.
  unfold root, ZoneBase.url.
  replace (_type ++ "/" ++ py_str (_id (self s)) ++ "/" ++ leaf)
    with ((_type ++ "/" ++ py_str (_id (self s)) ++ "/") ++ leaf).
  - apply prefix_app.
  - rewrite app_assoc. f_equal. cbn [append]. f_equal. now rewrite app_assoc.
Qed.

Lemma evolved_refl root s : evolved root 0 s s.
Proof.
  repeat split. exists []. rewrite List.app_nil_r. repeat split; auto.
Qed.

Lemma evolved_after (_type : string) (s : state) (r : request) :
  prefix (root _type s) (request_url r) = true ->
  evolved (root _type s) 1 s (after s r).
Proof.
  intros H. repeat split. exists [r]. repeat split; auto.
Qed.

Lemma evolved_weaken root n m s s' :
  n <= m -> evolved root n s s' -> evolved root m s s'.
Proof.
  intros Hle [Hb [Hc [Hi [new [Hn [Hl Hf]]]]]]. repeat split; trivial.
  exists new. repeat split; trivial. lia.
Qed.

Lemma evolved_trans root n m s s' s'' :
  evolved root n s s' -> evolved root m s' s'' -> evolved root (n + m) s s''.
Proof.
  intros [Hb [Hc [Hi [new [Hn [Hl Hf]]]]]] [Hb' [Hc' [Hi' [new' [Hn' [Hl' Hf']]]]]].
  repeat split; try congruence.
  exists (new ++ new')%list. repeat split.
  - now rewrite Hn', Hn, List.app_assoc.
  - rewrite List.length_app. lia.
  - apply Forall_app. now split.
Qed.

Lemma root_evolved _type root0 n s s' :
  evolved root0 n s s' -> root _type s' = root _type s.
Proof. intros [_ [_ [Hi _]]]. unfold root. now rewrite Hi. Qed.

(** ** What each coroutine leaves *)

Lemma leaves_refresh _type schema s :
  let req := GET (ZoneBase.url _type (self s) "status") schema in
  (exists status,
     _broker (self s) (calls s) req = Ok status
     /\ leaves (ZoneBase._refresh_status _type schema) s
        = {| self := with_status (self s) status; calls := calls s ++ [req] |})
  \/ leaves (ZoneBase._refresh_status _type schema) s = after s req.
Proof.
  intros req. unfold leaves. rewrite refresh_status_run. fold req.
  destruct (_broker (self s) (calls s) req) as [status|e].
  - left. exists status. now split.
  - now right.
Qed.

Lemma leaves_get_schedule _type s :
  leaves (ZoneBase.get_schedule _type) s
  = after s (GET (ZoneBase.url _type (self s) "schedule") SCH_SCHEDULE).
Proof.
  unfold leaves. rewrite get_schedule_run.
  now destruct (_broker (self s) (calls s) _).
Qed.

Lemma leaves_put url body schema s :
  leaves (bind (broker_put url body schema) (fun _ => ret tt)) s
  = after s (PUT url body schema).
Proof. unfold leaves. now rewrite put_run. Qed.

Lemma leaves_set_schedule _type schedule s :
  leaves (ZoneBase.set_schedule _type schedule) s = s
  \/ exists body,
       leaves (ZoneBase.set_schedule _type schedule) s
       = after s (PUT (ZoneBase.url _type (self s) "schedule") body
                      (Some SCH_SCHEDULE)).
Proof.
  unfold leaves, ZoneBase.set_schedule, bind at 1, get_self.
  destruct schedule as [|b|lit|text|l|d|cls|up];
    try (left; reflexivity).
  - destruct (json_loads text) as [value|exc].
    + right. exists value. unfold bind at 1, ret at 1.
      exact (leaves_put _ _ _ s).
    + left. unfold bind. now destruct (ZoneBase.except_decode exc).
  - destruct (json_dumps (PDict d)) as [text|exc].
    + right. exists (PDict d). unfold bind at 1, ret at 1.
      exact (leaves_put _ _ _ s).
    + left. unfold bind. now destruct (ZoneBase.except_dumps exc).
Qed.

Lemma evolved_self_after _type s leaf (r : request) :
  request_url r = ZoneBase.url _type (self s) leaf ->
  evolved (root _type s) 1 s (after s r).
Proof. intros H. apply evolved_after. rewrite H. apply url_under. Qed.

Lemma evolved_stay root s : evolved root 1 s s.
Proof. apply (evolved_weaken root 0); [lia | apply evolved_refl]. Qed.

Lemma evolved_refresh _type schema s :
  evolved (root _type s) 1 s (leaves (ZoneBase._refresh_status _type schema) s).
Proof.
  destruct (leaves_refresh _type schema s) as [[status [_ ->]] | ->].
  - split; [reflexivity|]. split; [reflexivity|]. split; [reflexivity|].
    eexists. split; [reflexivity|]. split; [apply Nat.le_refl|].
    constructor; [apply url_under | constructor].
  - now apply (evolved_self_after _ _ "status").
Qed.

Lemma evolved_get_schedule _type s :
  evolved (root _type s) 1 s (leaves (ZoneBase.get_schedule _type) s).
Proof. rewrite leaves_get_schedule. now apply (evolved_self_after _ _ "schedule"). Qed.

Lemma evolved_set_schedule _type schedule s :
  evolved (root _type s) 1 s (leaves (ZoneBase.set_schedule _type schedule) s).
Proof.
  destruct (leaves_set_schedule _type schedule s) as [-> | [body ->]].
  - apply evolved_stay.
  - now apply (evolved_self_after _ _ "schedule").
Qed.

Lemma status_refresh _type schema s :
  status_from (_broker (self s)) (root _type s ++ "status") schema s
    (leaves (ZoneBase._refresh_status _type schema) s).
Proof.
  assert (Hu : root _type s ++ "status" = ZoneBase.url _type (self s) "status").
  { unfold root, ZoneBase.url. rewrite app_assoc. f_equal. cbn [append].
    f_equal. now rewrite app_assoc. }
  rewrite Hu.
  destruct (leaves_refresh _type schema s) as [[status [Hb ->]] | ->].
  - right. exists (calls s). exact Hb.
  - now left.
Qed.

Lemma status_set_schedule _type schedule s :
  _status (self (leaves (ZoneBase.set_schedule _type schedule) s))
  = _status (self s).
Proof.
  now destruct (leaves_set_schedule _type schedule s) as [-> | [body ->]].
Qed.

(** ** Runs *)

Section Runs.

Variable C : Type.
Variable step : C -> state -> state.
Variable _type : string.
Variable schema : schema_name.
Variable is_refresh : C -> bool.

Hypothesis step_evolved : forall c s, evolved (root _type s) 1 s (step c s).
Hypothesis step_quiet :
  forall c s, is_refresh c = false -> _status (self (step c s)) = _status (self s).
Hypothesis step_status :
  forall c s,
    status_from (_broker (self s)) (root _type s ++ "status") schema s (step c s).

Lemma run_evolved : forall cs s,
  evolved (root _type s) (List.length cs) s (run step cs s).
Proof.
  induction cs as [|c cs IH]; intros s; [apply evolved_refl|].
  cbn [run fold_left List.length]. fold (run step cs (step c s)).
  change (S (List.length cs)) with (1 + List.length cs).
  apply (evolved_trans _ _ _ _ (step c s)); [apply step_evolved|].
  rewrite <- (root_evolved _type _ _ _ _ (step_evolved c s)). apply IH.
Qed.

Lemma run_quiet : forall cs s,
  existsb is_refresh cs = false ->
  _status (self (run step cs s)) = _status (self s).
Proof.
  induction cs as [|c cs IH]; intros s H; [reflexivity|].
  cbn [existsb] in H. apply orb_false_iff in H as [Hc Hcs].
  cbn [run fold_left]. fold (run step cs (step c s)).
  rewrite (IH _ Hcs). now apply step_quiet.
Qed.

Lemma run_status : forall cs s,
  status_from (_broker (self s)) (root _type s ++ "status") schema s
    (run step cs s).
Proof.
  induction cs as [|c cs IH]; intros s; [now left|].
  cbn [run fold_left]. fold (run step cs (step c s)).
  specialize (IH (step c s)).
  pose proof (step_evolved c s) as He.
  rewrite (root_evolved _type _ _ _ _ He) in IH.
  destruct He as [Hb _]. rewrite Hb in IH.
  destruct IH as [Hsame | Hfrom]; [|now right].
  destruct (step_status c s) as [Hsame' | [before Hfrom']].
  - left. congruence.
  - right. exists before. now rewrite Hsame.
Qed.

End Runs.

(** ** The steps of a zone and of a hot-water object *)

Lemma evolved_mode _type leaf mode s :
  evolved (root _type s) 1 s
    (leaves (bind get_self
               (fun me =>
                  bind (broker_put (ZoneBase.url _type me leaf) mode None)
                    (fun _ => ret tt))) s).
Proof.
  unfold bind at 1, get_self, leaves. fold (leaves (bind (broker_put (ZoneBase.url _type (self s) leaf) mode None) (fun _ => ret tt)) s).
  rewrite leaves_put. now apply (evolved_self_after _ _ leaf).
Qed.

Lemma status_mode _type leaf mode s :
  _status (self (leaves (bind get_self
               (fun me =>
                  bind (broker_put (ZoneBase.url _type me leaf) mode None)
                    (fun _ => ret tt))) s))
  = _status (self s).
Proof.
  unfold bind at 1, get_self, leaves. fold (leaves (bind (broker_put (ZoneBase.url _type (self s) leaf) mode None) (fun _ => ret tt)) s).
  now rewrite leaves_put.
Qed.

Lemma zone_step_evolved c s : evolved (root Zone._type s) 1 s (zone_step c s).
Proof.
  destruct c; cbn [zone_step].
  - apply evolved_refresh.
  - apply evolved_get_schedule.
  - apply evolved_set_schedule.
  - apply evolved_mode.
  - apply evolved_mode.
  - apply evolved_stay.
Qed.

Lemma zone_step_quiet c s :
  is_zone_refresh c = false -> _status (self (zone_step c s)) = _status (self s).
Proof.
  destruct c; cbn [zone_step is_zone_refresh]; intros H; try discriminate.
  - unfold Zone.get_schedule. now rewrite leaves_get_schedule.
  - apply status_set_schedule.
  - apply status_mode.
  - apply status_mode.
  - reflexivity.
Qed.

Lemma zone_step_status c s :
  status_from (_broker (self s)) (root Zone._type s ++ "status") SCH_ZONE_STATUS
    s (zone_step c s).
Proof.
  destruct c; try (left; now apply zone_step_quiet).
  apply status_refresh.
Qed.

Lemma dhw_step_evolved c s : evolved (root HotWater._type s) 1 s (dhw_step c s).
Proof.
  destruct c; cbn [dhw_step]; try apply evolved_stay.
  - apply evolved_refresh.
  - apply evolved_get_schedule.
  - apply evolved_set_schedule.
  - apply evolved_mode.
  - apply evolved_mode.
  - apply evolved_mode.
Qed.

Lemma dhw_step_quiet c s :
  is_dhw_refresh c = false -> _status (self (dhw_step c s)) = _status (self s).
Proof.
  destruct c; cbn [dhw_step is_dhw_refresh]; intros H; try discriminate;
    try reflexivity.
  - unfold HotWater.get_schedule. now rewrite leaves_get_schedule.
  - apply status_set_schedule.
  - apply status_mode.
  - apply status_mode.
  - apply status_mode.
Qed.

Lemma dhw_step_status c s :
  status_from (_broker (self s)) (root HotWater._type s ++ "status")
    SCH_DHW_STATUS s (dhw_step c s).
Proof.
  destruct c; try (left; now apply dhw_step_quiet).
  apply status_refresh.
Qed.

End TraceFacts.

(** * The write path and the constructors *)

Module WriteFacts.
Import Text TextFacts Py Json Const Broker Spec BrokerFacts Codec RoundTrip.

Lemma set_schedule_dict_run _type d text s :
  json_dumps (PDict d) = Ok text ->
  ZoneBase.set_schedule _type (PDict d) s
  = (answer s (PUT (ZoneBase.url _type (self s) "schedule") (PDict d)
                   (Some SCH_SCHEDULE)),
     after s (PUT (ZoneBase.url _type (self s) "schedule") (PDict d)
                  (Some SCH_SCHEDULE))).
Proof.
  intros H. unfold ZoneBase.set_schedule.
  unfold bind at 1 2. unfold get_self. rewrite H. unfold ret at 1.
  apply put_run.
Qed.

Lemma set_schedule_str_run _type text body s :
  json_loads text = Ok body ->
  ZoneBase.set_schedule _type (PStr text) s
  = (answer s (PUT (ZoneBase.url _type (self s) "schedule") body
                   (Some SCH_SCHEDULE)),
     after s (PUT (ZoneBase.url _type (self s) "schedule") body
                  (Some SCH_SCHEDULE))).
Proof.
  intros H. unfold ZoneBase.set_schedule.
  unfold bind at 1 2. unfold get_self. rewrite H. unfold ret at 1.
  apply put_run.
Qed.

(** [set_schedule] ends before its call, raising, or with its call. *)
Lemma set_schedule_ends _type schedule s :
  (exists e, ZoneBase.set_schedule _type schedule s = (Raise e, s))
  \/ exists body,
       ZoneBase.set_schedule _type schedule s
       = (answer s (PUT (ZoneBase.url _type (self s) "schedule") body
                        (Some SCH_SCHEDULE)),
          after s (PUT (ZoneBase.url _type (self s) "schedule") body
                       (Some SCH_SCHEDULE))).
Proof.
  destruct schedule as [|b|lit|text|l|d|cls|up];
    try (left; eexists; reflexivity).
  - destruct (json_loads text) as [body|exc] eqn:Hl.
    + right. exists body. now apply set_schedule_str_run.
    + left. unfold ZoneBase.set_schedule, bind, get_self. rewrite Hl.
      destruct (ZoneBase.except_decode exc); eexists; reflexivity.
  - destruct (json_dumps (PDict d)) as [text|exc] eqn:Hd.
    + right. exists (PDict d). now apply (set_schedule_dict_run _ _ text).
    + left. unfold ZoneBase.set_schedule, bind, get_self. rewrite Hd.
      destruct (ZoneBase.except_dumps exc); eexists; reflexivity.
Qed.

Lemma after_calls s r : calls (after s r) <> calls s.
Proof.
  cbn [after calls]. intros H.
  apply (f_equal (@List.length request)) in H.
  rewrite List.length_app in H. cbn [List.length] in H. lia.
Qed.

Lemma zone_init_ok tcs config me :
  Zone.__init__ tcs config = Ok me ->
  exists id,
    dict_get config SZ_ZONE_ID = Some id /\ truthy id = true
    /\ me = ZoneBase.new tcs config id.
Proof.
  unfold Zone.__init__, Zone.zoneId_of, getitem.
  destruct (dict_get config SZ_ZONE_ID) as [id|]; [|discriminate].
  destruct (truthy id) eqn:Ht; [|discriminate].
  intros [= <-]. now exists id.
Qed.

Lemma dhw_init_ok tcs config me :
  HotWater.__init__ tcs config = Ok me ->
  exists id,
    dict_get config SZ_DHW_ID = Some id /\ truthy id = true
    /\ me = ZoneBase.new tcs config id.
Proof.
  unfold HotWater.__init__, HotWater.dhwId_of, getitem.
  destruct (dict_get config SZ_DHW_ID) as [id|]; [|discriminate].
  destruct (truthy id) eqn:Ht; [|discriminate].
  intros [= <-]. now exists id.
Qed.

End WriteFacts.

(** * The substitution changes the case of letters only *)

Module CaseFacts.
Import Text TextFacts Py Json Const.

Lemma str_lower_app : forall a b,
  str_lower (a ++ b) = str_lower a ++ str_lower b.
Proof. induction a as [|c a IH]; intros b; simpl; [|rewrite IH]; reflexivity. Qed.

Lemma str_lower_length : forall s, String.length (str_lower s) = String.length s.
Proof. induction s as [|c s IH]; simpl; [|rewrite IH]; reflexivity. Qed.

Lemma prefix_drop : forall a b,
  prefix a b = true -> b = a ++ drop (String.length a) b.
Proof.
  induction a as [|x a IH]; intros b H; [reflexivity|].
  destruct b as [|y b]; simpl in H; [discriminate|].
  destruct (ascii_dec x y) as [->|]; [|discriminate].
  simpl. f_equal. now apply IH.
Qed.

Lemma replace_from_lower old new :
  old <> "" -> str_lower new = str_lower old ->
  forall s k,
    k <= String.length s ->
    str_lower (replace_from old new s k) = str_lower (drop k s).
Proof.
  intros Hne Hnew. induction s as [|c s IH]; intros k Hk.
  - now destruct k.
  - cbn [String.length] in Hk. destruct k as [|k]; cbn [replace_from drop].
    + destruct (prefix old (String c s)) eqn:Hp.
      * destruct old as [|o old]; [congruence|].
        rewrite str_lower_app, Hnew. cbn [String.length].
        replace (S (String.length old) - 1) with (String.length old) by lia.
        simpl in Hp. destruct (ascii_dec o c) as [->|]; [|discriminate].
        rewrite IH by (apply prefix_length in Hp; lia).
        cbn [str_lower append]. f_equal.
        now rewrite <- str_lower_app, <- (prefix_drop old s Hp).
      * cbn [str_lower]. f_equal. now rewrite IH by lia.
    + apply IH. lia.
Qed.

Lemma str_replace_lower old new s :
  old <> "" -> str_lower new = str_lower old ->
  str_lower (str_replace s old new) = str_lower s.
Proof.
  intros Hne Hnew. unfold str_replace. destruct old as [|o old]; [congruence|].
  now rewrite (replace_from_lower _ _ Hne Hnew) by lia.
Qed.

Lemma fold_replace_lower : forall keys,
  Forall (fun k => k <> "" /\ str_lower (capitalize k) = str_lower k) keys ->
  forall s,
    str_lower
      (fold_left (fun text k => str_replace text k (capitalize k)) keys s)
    = str_lower s.
Proof.
  induction keys as [|k keys IH]; intros H s; [reflexivity|].
  inversion H as [|? ? [Hne Hk] Hrest]; subst. cbn [fold_left].
  rewrite (IH Hrest). now apply str_replace_lower.
Qed.

Lemma replace_keys_lower s :
  str_lower (ZoneBase.replace_keys s) = str_lower s.
Proof.
  apply fold_replace_lower. repeat constructor; discriminate.
Qed.

End CaseFacts.

(** * The exceptions of the read path *)

Module ErrorFacts.
Import Text TextFacts Py Json Const PyFacts Broker Spec BrokerFacts Codec
  ReadPath LoopFacts.

Lemma json_dumps_error v e :
  json_dumps v = Raise e ->
  (exists m, e = TypeError m) \/ (exists m, e = ValueError m).
Proof.
  unfold json_dumps. destruct (dumps_error v) as [e'|] eqn:He; [|discriminate].
  intros [= <-]. exact (dumps_error_kind v e' He).
Qed.

Lemma json_loads_error s e : json_loads s = Raise e -> e = JSONDecodeError.
Proof.
  unfold json_loads.
  destruct (scan_once _ _) as [[v r]|]; [destruct (skip_ws r)|]; congruence.
Qed.

Lemma subscript_error v k e :
  subscript v k = Raise e -> e = KeyError k \/ exists m, e = TypeError m.
Proof.
  destruct v as [|b|lit|s|l|d|cls|up]; cbn [subscript];
    try (intros [= <-]; right; eexists; reflexivity).
  unfold getitem. destruct (dict_get d k); [discriminate|].
  intros [= <-]. now left.
Qed.

Lemma py_iter_error v e : py_iter v = Raise e -> exists m, e = TypeError m.
Proof.
  destruct v as [|b|lit|s|l|d|cls|up]; cbn [py_iter]; try discriminate;
    intros [= <-]; eexists; reflexivity.
Qed.

Lemma number_days_error items n e :
  ZoneBase.number_days n items = Raise e -> exists m, e = TypeError m.
Proof.
  intros H. pose proof (number_days_spec items n) as Hs. rewrite H in Hs.
  now destruct Hs.
Qed.

Lemma read_path_error v e :
  read_path v = Raise e ->
  (exists m, e = TypeError m) \/ (exists m, e = ValueError m)
  \/ e = JSONDecodeError \/ e = KeyError (capitalize SZ_DAILY_SCHEDULES).
Proof.
  unfold read_path.
  destruct (json_dumps v) as [text|e1] eqn:Hd.
  - destruct (json_loads (ZoneBase.replace_keys text)) as [result|e2] eqn:Hl.
    + destruct (subscript result (capitalize SZ_DAILY_SCHEDULES))
        as [days|e3] eqn:Hs.
      * destruct (py_iter days) as [items|e4] eqn:Hi.
        -- destruct (ZoneBase.number_days 0 items) as [items'|e5] eqn:Hn;
             [discriminate|].
           intros [= <-]. left. exact (number_days_error _ _ _ Hn).
        -- intros [= <-]. left. exact (py_iter_error _ _ Hi).
      * intros [= <-]. destruct (subscript_error _ _ _ Hs) as [->|Ht]; auto.
    + intros [= <-]. right. right. left. exact (json_loads_error _ _ Hl).
  - intros [= <-]. destruct (json_dumps_error _ _ Hd); auto.
Qed.

End ErrorFacts.

(** * The status cache, the commands, the constructors and the stubs *)

Module Properties.
Import Text Py Json Const Broker Datetime Spec PyFacts BrokerFacts Codec
  ShapeFacts ScheduleFacts.

(** C1.  On a payload that the schedule schema accepts, [get_schedule]
    returns the payload with its known field names capitalized and its
    daily schedules numbered, and nothing else changed: the daily schedules,
    the switchpoints of each and their (time of day, setpoint or state)
    pairs are the same, in the same order. *)
Theorem get_schedule_preserves_content :
  forall (_type : string) (s : state) (payload : pyval),
    let req := GET (_type ++ "/" ++ py_str (_id (self s)) ++ "/schedule")
                   SCH_SCHEDULE in
    _broker (self s) (calls s) req = Ok payload ->
    Schema.SCH_SCHEDULE payload = true ->
    exists result content,
      ZoneBase.get_schedule _type s = (Ok result, after s req)
      /\ result = decode payload
      /\ schedule_content remote_names payload = Some content
      /\ schedule_content internal_names result = Some content.
Proof.
  intros _type s payload req Hget Hvalid.
  apply schedule_accepts in Hvalid.
  destruct (decode_content payload Hvalid) as [content [Hremote Hinternal]].
  exists (decode payload), content.
  rewrite get_schedule_run.
  change (GET (ZoneBase.url _type (self s) "schedule") SCH_SCHEDULE) with req.
  rewrite Hget, (read_path_decodes payload Hvalid).
  repeat split; assumption.
Qed.

Lemma get_schedule_preserves_content_witness :
  exists result content,
    Zone.get_schedule (sample_state (answering sample_schedule))
    = (Ok result,
       {| self := sample_zone (answering sample_schedule);
          calls := [GET "temperatureZone/3432521/schedule" SCH_SCHEDULE] |})
    /\ result = decode sample_schedule
    /\ schedule_content remote_names sample_schedule = Some content
    /\ schedule_content internal_names result = Some content.
Proof.
  apply (get_schedule_preserves_content Zone._type
           (sample_state (answering sample_schedule)) sample_schedule);
    reflexivity.
Defined.

(** C2.  On an accepted payload with seven daily schedules, the entries
    of the result carry, in order, the ordinals 0 to 6 under the capitalized
    day-of-week key, whatever day names the payload had. *)
Theorem get_schedule_numbers_days :
  forall (_type : string) (s : state) (payload : pyval) (days : list pyval),
    let req := GET (_type ++ "/" ++ py_str (_id (self s)) ++ "/schedule")
                   SCH_SCHEDULE in
    _broker (self s) (calls s) req = Ok payload ->
    Schema.SCH_SCHEDULE payload = true ->
    subscript payload SZ_DAILY_SCHEDULES = Ok (PList days) ->
    List.length days = 7 ->
    exists result days',
      ZoneBase.get_schedule _type s = (Ok result, after s req)
      /\ subscript result "Dailyschedules" = Ok (PList days')
      /\ map (fun day => subscript day "Dayofweek") days'
         = map (fun i => Ok (PNum i)) ["0"; "1"; "2"; "3"; "4"; "5"; "6"].
Proof.
  intros _type s payload days req Hget Hvalid Hdays Hlen.
  apply schedule_accepts in Hvalid.
  pose proof (read_path_decodes payload Hvalid) as Hread.
  destruct Hvalid as [days0 Hshape].
  assert (days0 = days) as -> by (cbn in Hdays; congruence).
  exists (decode (PDict [(SZ_DAILY_SCHEDULES, PList days)])),
    (number_from 0 (map rename_keys days)).
  rewrite get_schedule_run.
  change (GET (ZoneBase.url _type (self s) "schedule") SCH_SCHEDULE) with req.
  rewrite Hget, Hread, decode_days.
  split; [reflexivity|]. split; [reflexivity|].
  change "Dayofweek" with (capitalize SZ_DAY_OF_WEEK).
  rewrite (days_ordinals days Hshape 0), Hlen. reflexivity.
Qed.

Lemma get_schedule_numbers_days_witness :
  exists result days',
    HotWater.get_schedule (sample_state (answering sample_schedule))
    = (Ok result,
       {| self := sample_zone (answering sample_schedule);
          calls := [GET "domesticHotWater/3432521/schedule" SCH_SCHEDULE] |})
    /\ subscript result "Dailyschedules" = Ok (PList days')
    /\ map (fun day => subscript day "Dayofweek") days'
       = map (fun i => Ok (PNum i)) ["0"; "1"; "2"; "3"; "4"; "5"; "6"].
Proof.
  apply (get_schedule_numbers_days HotWater._type
           (sample_state (answering sample_schedule)) sample_schedule
           (map sample_day (rev Schema.DAYS_OF_WEEK)));
    reflexivity.
Defined.

(** C3.  [_refresh_status] makes one GET on [{type}/{id}/status] with the
    status schema of the variant, stores the payload it gets as the whole
    status, nothing else of the object changed, and returns it; the status
    accessors then read the fields of that payload, and [None] for a field
    it lacks.  An object that was just constructed has an empty status, so
    every accessor reads [None]. *)
Theorem refresh_status_then_accessors :
  (forall (s : state) (payload : dict),
     let req := GET ("temperatureZone/" ++ py_str (_id (self s)) ++ "/status")
                    SCH_ZONE_STATUS in
     _broker (self s) (calls s) req = Ok (PDict payload) ->
     let me := with_status (self s) (PDict payload) in
     Zone._refresh_status s
     = (Ok (PDict payload), {| self := me; calls := calls s ++ [req] |})
       /\ _status me = PDict payload
       /\ reads Zone.activeFaults SZ_ACTIVE_FAULTS payload me
       /\ reads Zone.temperatureStatus SZ_TEMPERATURE_STATUS payload me
       /\ reads Zone.setpointStatus SZ_SETPOINT_STATUS payload me)
  /\ (forall (s : state) (payload : dict),
        let req := GET ("domesticHotWater/" ++ py_str (_id (self s)) ++ "/status")
                       SCH_DHW_STATUS in
        _broker (self s) (calls s) req = Ok (PDict payload) ->
        let me := with_status (self s) (PDict payload) in
        HotWater._refresh_status s
        = (Ok (PDict payload), {| self := me; calls := calls s ++ [req] |})
          /\ _status me = PDict payload
          /\ reads HotWater.activeFaults SZ_ACTIVE_FAULTS payload me
          /\ reads HotWater.temperatureStatus SZ_TEMPERATURE_STATUS payload me
          /\ reads HotWater.stateStatus SZ_STATE_STATUS payload me)
  /\ (forall tcs config me,
        Zone.__init__ tcs config = Ok me \/ HotWater.__init__ tcs config = Ok me ->
        _status me = PDict []
        /\ Zone.activeFaults me = Ok PNone
        /\ Zone.temperatureStatus me = Ok PNone
        /\ Zone.setpointStatus me = Ok PNone
        /\ HotWater.stateStatus me = Ok PNone).
Proof.
  split; [|split].
  - intros s payload req H me.
    unfold Zone._refresh_status. rewrite refresh_status_run.
    change (GET (ZoneBase.url Zone._type (self s) "status") Zone.STATUS_SCHEMA)
      with req.
    rewrite H. split; [reflexivity|]. split; [reflexivity|].
    unfold reads, Zone.activeFaults, Zone.temperatureStatus,
      ZoneBase.activeFaults, ZoneBase.temperatureStatus, Zone.setpointStatus,
      py_get, get, me, with_status. cbn [_status].
    repeat split;
      match goal with |- context [dict_get payload ?k] =>
        destruct (dict_get payload k); reflexivity end.
  - intros s payload req H me.
    unfold HotWater._refresh_status. rewrite refresh_status_run.
    change (GET (ZoneBase.url HotWater._type (self s) "status")
                HotWater.STATUS_SCHEMA) with req.
    rewrite H. split; [reflexivity|]. split; [reflexivity|].
    unfold reads, HotWater.activeFaults, HotWater.temperatureStatus,
      ZoneBase.activeFaults, ZoneBase.temperatureStatus, HotWater.stateStatus,
      py_get, get, me, with_status. cbn [_status].
    repeat split;
      match goal with |- context [dict_get payload ?k] =>
        destruct (dict_get payload k); reflexivity end.
  - intros tcs config me H.
    assert (Hs : _status me = PDict []).
    { destruct H as [H|H].
      - unfold Zone.__init__ in H.
        destruct (Zone.zoneId_of config); [|discriminate].
        destruct (truthy a); [|discriminate]. now injection H as <-.
      - unfold HotWater.__init__ in H.
        destruct (HotWater.dhwId_of config); [|discriminate].
        destruct (truthy a); [|discriminate]. now injection H as <-. }
    unfold Zone.activeFaults, Zone.temperatureStatus, ZoneBase.activeFaults,
      ZoneBase.temperatureStatus, Zone.setpointStatus, HotWater.stateStatus.
    rewrite Hs. repeat split.
Qed.

Lemma refresh_status_then_accessors_witness :
  (Zone._refresh_status (sample_state (answering (PDict sample_status)))
   = (Ok (PDict sample_status),
      {| self := with_status (sample_zone (answering (PDict sample_status)))
                   (PDict sample_status);
         calls := [GET "temperatureZone/3432521/status" SCH_ZONE_STATUS] |})
   /\ Zone.activeFaults
        (with_status (sample_zone (answering (PDict sample_status)))
           (PDict sample_status))
      = Ok (PList [])
   /\ Zone.setpointStatus
        (with_status (sample_zone (answering (PDict sample_status)))
           (PDict sample_status))
      = Ok PNone)
  /\ Zone.temperatureStatus (sample_zone failing) = Ok PNone.
Proof.
  destruct refresh_status_then_accessors as [Hzone [_ Hnew]]. split.
  - destruct (Hzone (sample_state (answering (PDict sample_status)))
                sample_status eq_refl)
      as [Hrun [_ [Hfaults [_ Hsetpoint]]]].
    repeat split; assumption.
  - apply (Hnew {| tcs_broker := failing |}
             [(SZ_ZONE_ID, PStr "3432521"); (SZ_NAME, PStr "Kitchen")]).
    left. reflexivity.
Defined.

(** C9.  When the GET of [_refresh_status] raises, the coroutine raises the
    same exception and the object, its status included, is as it was; only
    the call is recorded. *)
Theorem refresh_failure_keeps_status :
  forall (_type : string) (schema : schema_name) (s : state) (e : exn),
    let req := GET (_type ++ "/" ++ py_str (_id (self s)) ++ "/status") schema in
    _broker (self s) (calls s) req = Raise e ->
    ZoneBase._refresh_status _type schema s
    = (Raise e, {| self := self s; calls := calls s ++ [req] |})
    /\ _status (self (snd (ZoneBase._refresh_status _type schema s)))
       = _status (self s).
Proof.
  intros _type schema s e req H.
  rewrite refresh_status_run.
  change (GET (ZoneBase.url _type (self s) "status") schema) with req.
  rewrite H. split; reflexivity.
Qed.

Lemma refresh_failure_keeps_status_witness :
  Zone._refresh_status (sample_state failing)
  = (Raise (BrokerError "503"),
     {| self := sample_zone failing;
        calls := [GET "temperatureZone/3432521/status" SCH_ZONE_STATUS] |})
  /\ _status (self (snd (Zone._refresh_status (sample_state failing))))
     = PDict [].
Proof.
  apply (refresh_failure_keeps_status Zone._type Zone.STATUS_SCHEMA
           (sample_state failing) (BrokerError "503")).
  reflexivity.
Defined.

(** C8.  On the write path nothing is renamed: a [dict] that [json.dumps]
    accepts is itself the body of the PUT on [{type}/{id}/schedule], and for
    a [str] that [json.loads] accepts the body is the value decoded. *)
Theorem set_schedule_sends_unchanged :
  forall (_type : string) (s : state) (schedule body : pyval),
    match schedule with
    | PDict _ => (exists text, json_dumps schedule = Ok text) /\ body = schedule
    | PStr text => json_loads text = Ok body
    | _ => False
    end ->
    let req := PUT (_type ++ "/" ++ py_str (_id (self s)) ++ "/schedule") body
                   (Some SCH_SCHEDULE) in
    ZoneBase.set_schedule _type schedule s = (answer s req, after s req).
Proof.
  intros _type s schedule body H req.
  unfold ZoneBase.set_schedule.
  destruct schedule as [| | |text| |d| |]; try contradiction.
  - unfold bind at 1 2. unfold get_self. rewrite H. unfold ret at 1.
    apply put_run.
  - destruct H as [[text H] ->].
    unfold bind at 1 2. unfold get_self. rewrite H. unfold ret at 1.
    apply put_run.
Qed.

Lemma set_schedule_sends_unchanged_witness :
  Zone.set_schedule
    (PDict [("Dailyschedules", PList [])]) (sample_state (answering PNone))
  = (Ok tt,
     {| self := sample_zone (answering PNone);
        calls := [PUT "temperatureZone/3432521/schedule"
                      (PDict [("Dailyschedules", PList [])])
                      (Some SCH_SCHEDULE)] |})
  /\ HotWater.set_schedule (PStr "[1, 2.5]") (sample_state (answering PNone))
     = (Ok tt,
        {| self := sample_zone (answering PNone);
           calls := [PUT "domesticHotWater/3432521/schedule"
                         (PList [PNum "1"; PNum "2.5"])
                         (Some SCH_SCHEDULE)] |}).
Proof.
  split.
  - apply (set_schedule_sends_unchanged Zone._type
             (sample_state (answering PNone))
             (PDict [("Dailyschedules", PList [])])
             (PDict [("Dailyschedules", PList [])])).
    split; [eexists|]; reflexivity.
  - apply (set_schedule_sends_unchanged HotWater._type
             (sample_state (answering PNone))
             (PStr "[1, 2.5]") (PList [PNum "1"; PNum "2.5"])).
    reflexivity.
Defined.

(** C5.  Each mode command makes one PUT, on [domesticHotWater/{id}/state]
    or [temperatureZone/{id}/heatSetpoint], whose body is the payload of the
    command: a permanent override without [until], a temporary one with the
    formatted [until], the follow-schedule payloads for [set_auto] and
    [cancel_temp_override]. *)
Theorem mode_command_payloads :
  forall (s : state) (temperature : pyval) (until : dt),
    let id := py_str (_id (self s)) in
    let formatted := PStr (strftime until API_STRFTIME) in
    let put_state body :=
      PUT ("domesticHotWater/" ++ id ++ "/state") (PDict body) None in
    let put_setpoint body :=
      PUT ("temperatureZone/" ++ id ++ "/heatSetpoint") (PDict body) None in
    let sends (op : M unit) (req : request) := op s = (answer s req, after s req) in
    sends (HotWater.set_on None)
      (put_state [("Mode", PStr "PermanentOverride"); ("State", PStr "On");
              ("UntilTime", PNone)])
    /\ sends (HotWater.set_on (Some until))
         (put_state [("Mode", PStr "TemporaryOverride"); ("State", PStr "On");
                 ("UntilTime", formatted)])
    /\ sends (HotWater.set_off None)
         (put_state [("Mode", PStr "PermanentOverride"); ("State", PStr "Off");
                 ("UntilTime", PNone)])
    /\ sends (HotWater.set_off (Some until))
         (put_state [("Mode", PStr "TemporaryOverride"); ("State", PStr "Off");
                 ("UntilTime", formatted)])
    /\ sends HotWater.set_auto
         (put_state [("Mode", PStr "FollowSchedule"); ("State", PStr "");
                 ("UntilTime", PNone)])
    /\ sends (Zone.set_temperature temperature None)
         (put_setpoint [("SetpointMode", PStr "PermanentOverride");
                    ("HeatSetpointValue", temperature); ("TimeUntil", PNone)])
    /\ sends (Zone.set_temperature temperature (Some until))
         (put_setpoint [("SetpointMode", PStr "TemporaryOverride");
                    ("HeatSetpointValue", temperature); ("TimeUntil", formatted)])
    /\ sends Zone.cancel_temp_override
         (put_setpoint [("SetpointMode", PStr "FollowSchedule");
                    ("HeatSetpointValue", PNum "0.0"); ("TimeUntil", PNone)]).
Proof.
  intros s temperature until id formatted put_state put_setpoint sends.
  unfold sends, HotWater.set_on, HotWater.set_off, HotWater.set_auto,
    Zone.set_temperature, Zone.cancel_temp_override, HotWater._set_mode,
    Zone._set_mode.
  repeat split; unfold bind at 1; unfold get_self; apply put_run.
Qed.

(** C6.  Every retired operation raises a [NotImplementedError] whose
    message names the operation to use, whatever its arguments, and makes no
    broker call: the state is as it was. *)
Theorem deprecated_operations_fail :
  forall (me : instance) (s : state) (args : list pyval) (kwargs : dict),
    (exists e, Zone.zone_type me = Raise e /\ deprecated_use "._type" e)
    /\ (exists e, HotWater.zone_type me = Raise e /\ deprecated_use "._type" e)
    /\ (exists e, Zone.schedule s = (Raise e, s)
                  /\ deprecated_use ".get_schedule()" e)
    /\ (exists e, HotWater.schedule s = (Raise e, s)
                  /\ deprecated_use ".get_schedule()" e)
    /\ (exists e, HotWater.zoneId me = Raise e /\ deprecated_use ".dhwId" e)
    /\ (exists e, HotWater.get_dhw_state args kwargs s = (Raise e, s)
                  /\ deprecated_use ".update_status()" e)
    /\ (exists e, HotWater.set_dhw_on args kwargs s = (Raise e, s)
                  /\ deprecated_use ".set_on()" e)
    /\ (exists e, HotWater.set_dhw_off args kwargs s = (Raise e, s)
                  /\ deprecated_use ".set_off()" e)
    /\ (exists e, HotWater.set_dhw_auto args kwargs s = (Raise e, s)
                  /\ deprecated_use ".set_auto()" e).
Proof.
  intros me s args kwargs.
  repeat split; eexists; (split; [reflexivity|]);
    eexists; (split; [reflexivity|]); reflexivity.
Qed.

(** C7.  A constructor fails, and returns no object, when the identifier
    field of the configuration is missing (the lookup raises [KeyError]) or
    empty (the assertion raises [AssertionError]); with an identifier that
    is present and not empty it returns an object whose [_id] is that
    identifier.  An identifier is empty when it is false as a truth value,
    which for a [str] means the empty string. *)
Theorem construction_needs_identifier :
  forall (tcs : ControlSystem) (config : dict),
    (match dict_get config SZ_ZONE_ID with
     | None => Zone.__init__ tcs config = Raise (KeyError SZ_ZONE_ID)
     | Some id =>
         if truthy id
         then exists me, Zone.__init__ tcs config = Ok me /\ _id me = id
                         /\ _config me = config
         else Zone.__init__ tcs config = Raise (AssertionError "Invalid config dict")
     end)
    /\ (match dict_get config SZ_DHW_ID with
        | None => HotWater.__init__ tcs config = Raise (KeyError SZ_DHW_ID)
        | Some id =>
            if truthy id
            then exists me, HotWater.__init__ tcs config = Ok me /\ _id me = id
                            /\ _config me = config
            else HotWater.__init__ tcs config
                 = Raise (AssertionError "Invalid config dict")
        end)
    /\ (forall e, Zone.__init__ tcs config = Raise e ->
                  config_integrity_error SZ_ZONE_ID e)
    /\ (forall e, HotWater.__init__ tcs config = Raise e ->
                  config_integrity_error SZ_DHW_ID e)
    /\ (forall id : string, truthy (PStr id) = true <-> id <> "").
Proof.
  intros tcs config.
  unfold Zone.__init__, HotWater.__init__, Zone.zoneId_of, HotWater.dhwId_of,
    getitem, config_integrity_error.
  repeat split.
  - destruct (dict_get config SZ_ZONE_ID) as [id|]; [|reflexivity].
    destruct (truthy id); [|reflexivity]. eexists. repeat split.
  - destruct (dict_get config SZ_DHW_ID) as [id|]; [|reflexivity].
    destruct (truthy id); [|reflexivity]. eexists. repeat split.
  - intros e. destruct (dict_get config SZ_ZONE_ID) as [id|].
    + destruct (truthy id); [discriminate|]. intros [= <-]. now right.
    + intros [= <-]. now left.
  - intros e. destruct (dict_get config SZ_DHW_ID) as [id|].
    + destruct (truthy id); [discriminate|]. intros [= <-]. now right.
    + intros [= <-]. now left.
  - simpl. destruct (String.eqb_spec id ""); simpl; congruence.
  - simpl. destruct (String.eqb_spec id ""); simpl; congruence.
Qed.

Lemma construction_needs_identifier_witness :
  Zone.__init__ {| tcs_broker := failing |} [(SZ_NAME, PStr "Kitchen")]
  = Raise (KeyError "zoneId")
  /\ HotWater.__init__ {| tcs_broker := failing |} [(SZ_DHW_ID, PStr "")]
     = Raise (AssertionError "Invalid config dict")
  /\ (exists me,
        Zone.__init__ {| tcs_broker := failing |} [(SZ_ZONE_ID, PStr "3432521")]
        = Ok me
        /\ _id me = PStr "3432521"
        /\ _config me = [(SZ_ZONE_ID, PStr "3432521")])
  /\ config_integrity_error SZ_DHW_ID (AssertionError "Invalid config dict").
Proof.
  split; [|split; [|split]].
  - exact (proj1 (construction_needs_identifier {| tcs_broker := failing |}
                    [(SZ_NAME, PStr "Kitchen")])).
  - exact (proj1 (proj2 (construction_needs_identifier
                           {| tcs_broker := failing |} [(SZ_DHW_ID, PStr "")]))).
  - exact (proj1 (construction_needs_identifier {| tcs_broker := failing |}
                    [(SZ_ZONE_ID, PStr "3432521")])).
  - apply (proj1 (proj2 (proj2 (proj2 (construction_needs_identifier
             {| tcs_broker := failing |} [(SZ_DHW_ID, PStr "")]))))).
    reflexivity.
Defined.

(** C10.  The name of a hot-water object is the constant
    ["Domestic Hot Water"], whatever its configuration and status, before
    and after a refresh; the name of a heating zone is the [name] field of
    its configuration. *)
Theorem hotwater_name_is_constant :
  forall (me : instance) (s : state),
    HotWater.name me = Ok (PStr "Domestic Hot Water")
    /\ HotWater.name (self (snd (HotWater._refresh_status s)))
       = Ok (PStr "Domestic Hot Water")
    /\ Zone.name me = getitem (_config me) SZ_NAME.
Proof.
  intros me s. repeat split.
  unfold Zone.name, get, getitem.
  destruct (dict_get (_config me) SZ_NAME) as [v|]; [|reflexivity].
  destruct (truthy v); reflexivity.
Qed.

End Properties.

(** * Further properties of the read path, the write path and the calls *)

Module Behaviour.
Import Text TextFacts Py Json Const Broker Datetime Spec PyFacts BrokerFacts
  Codec SubstFacts RoundTrip ShapeFacts ScheduleFacts ReadPath ReadFacts
  LoopFacts Trace TraceFacts WriteFacts.

(** X1.  [get_schedule] only reads: whatever the broker answers, and
    whether the decoding succeeds or not, it makes one GET on
    [{type}/{id}/schedule] with the schedule schema and leaves the object,
    its status included, as it was; an exception of the broker is raised as
    it is. *)
Theorem get_schedule_only_reads :
  forall (_type : string) (s : state),
    let req := GET (_type ++ "/" ++ py_str (_id (self s)) ++ "/schedule")
                   SCH_SCHEDULE in
    snd (ZoneBase.get_schedule _type s) = after s req
    /\ self (snd (ZoneBase.get_schedule _type s)) = self s
    /\ (forall e, _broker (self s) (calls s) req = Raise e ->
                  fst (ZoneBase.get_schedule _type s) = Raise e).
Proof.
  intros _type s req.
  pose proof (leaves_get_schedule _type s) as H. unfold leaves in H.
  change (GET (ZoneBase.url _type (self s) "schedule") SCH_SCHEDULE) with req in H.
  split; [exact H|]. split; [now rewrite H|].
  intros e He. rewrite get_schedule_run.
  change (GET (ZoneBase.url _type (self s) "schedule") SCH_SCHEDULE) with req.
  now rewrite He.
Qed.

(** X2.  The substitution that [get_schedule] makes in the text reaches
    every string of the payload, the values as well as the keys: on a
    payload without escapes, [get_schedule] does what the rest of its body
    does on the payload with [replace_keys] applied to each of its keys and
    of its string values. *)
Theorem get_schedule_rewrites_every_string :
  forall (_type : string) (s : state) (payload : pyval),
    let req := GET (_type ++ "/" ++ py_str (_id (self s)) ++ "/schedule")
                   SCH_SCHEDULE in
    _broker (self s) (calls s) req = Ok payload ->
    canonical payload = true ->
    unique_keys (map_str ZoneBase.replace_keys payload) = true ->
    ZoneBase.get_schedule _type s
    = (finish (map_str ZoneBase.replace_keys payload), after s req).
Proof.
  intros _type s payload req Hget Hc Hu.
  rewrite get_schedule_run.
  change (GET (ZoneBase.url _type (self s) "schedule") SCH_SCHEDULE) with req.
  rewrite Hget. now rewrite read_path_text.
Qed.

Lemma get_schedule_rewrites_every_string_witness :
  Zone.get_schedule
    (sample_state
       (answering (PDict [(SZ_DAILY_SCHEDULES, PList []);
                          ("mode", PStr "temperature")])))
  = (Ok (PDict [("Dailyschedules", PList []); ("mode", PStr "Temperature")]),
     after
       (sample_state
          (answering (PDict [(SZ_DAILY_SCHEDULES, PList []);
                             ("mode", PStr "temperature")])))
       (GET "temperatureZone/3432521/schedule" SCH_SCHEDULE)).
Proof.
  apply (get_schedule_rewrites_every_string Zone._type
           (sample_state
              (answering (PDict [(SZ_DAILY_SCHEDULES, PList []);
                                 ("mode", PStr "temperature")])))
           (PDict [(SZ_DAILY_SCHEDULES, PList []);
                   ("mode", PStr "temperature")]));
    reflexivity.
Defined.

(** X3.  Beyond the payloads of the schema: on a dict without escapes
    whose string values contain none of the six names and whose keys are
    one of them or contain none, and whose daily schedules are a list of
    dicts, [get_schedule] renames the known keys, numbers the daily
    schedules and changes nothing else, whatever other fields the payload
    has. *)
Theorem get_schedule_decodes_renamable :
  forall (_type : string) (s : state) (d : dict) (days : list pyval),
    let req := GET (_type ++ "/" ++ py_str (_id (self s)) ++ "/schedule")
                   SCH_SCHEDULE in
    _broker (self s) (calls s) req = Ok (PDict d) ->
    canonical (PDict d) = true ->
    renamable (PDict d) = true ->
    unique_keys (rename_keys (PDict d)) = true ->
    dict_get d SZ_DAILY_SCHEDULES = Some (PList days) ->
    forallb is_dict days = true ->
    ZoneBase.get_schedule _type s = (Ok (decode (PDict d)), after s req).
Proof.
  intros _type s d days req Hget Hc Hr Hu Hg Hdays.
  rewrite get_schedule_run.
  change (GET (ZoneBase.url _type (self s) "schedule") SCH_SCHEDULE) with req.
  rewrite Hget. now rewrite (read_path_renamable d days).
Qed.

Lemma get_schedule_decodes_renamable_witness :
  HotWater.get_schedule
    (sample_state
       (answering
          (PDict [("zoneName", PStr "Kitchen");
                  (SZ_DAILY_SCHEDULES,
                   PList [PDict [(SZ_SWITCHPOINTS, PList []);
                                 ("comment", PStr "none")]])])))
  = (Ok (PDict [("zoneName", PStr "Kitchen");
                ("Dailyschedules",
                 PList [PDict [("Switchpoints", PList []);
                               ("comment", PStr "none");
                               ("Dayofweek", PNum "0")]])]),
     after
       (sample_state
          (answering
             (PDict [("zoneName", PStr "Kitchen");
                     (SZ_DAILY_SCHEDULES,
                      PList [PDict [(SZ_SWITCHPOINTS, PList []);
                                    ("comment", PStr "none")]])])))
       (GET "domesticHotWater/3432521/schedule" SCH_SCHEDULE)).
Proof.
  apply (get_schedule_decodes_renamable HotWater._type
           (sample_state
              (answering
                 (PDict [("zoneName", PStr "Kitchen");
                         (SZ_DAILY_SCHEDULES,
                          PList [PDict [(SZ_SWITCHPOINTS, PList []);
                                        ("comment", PStr "none")]])])))
           [("zoneName", PStr "Kitchen");
            (SZ_DAILY_SCHEDULES,
             PList [PDict [(SZ_SWITCHPOINTS, PList []);
                           ("comment", PStr "none")]])]
           [PDict [(SZ_SWITCHPOINTS, PList []); ("comment", PStr "none")]]);
    reflexivity.
Defined.

(** X4.  On such a dict that has no daily schedules, under the remote name
    or the capitalized one, [get_schedule] raises the [KeyError] of the
    lookup, which names the capitalized key, after its GET; the object is as
    it was. *)
Theorem get_schedule_without_daily_schedules :
  forall (_type : string) (s : state) (d : dict),
    let req := GET (_type ++ "/" ++ py_str (_id (self s)) ++ "/schedule")
                   SCH_SCHEDULE in
    _broker (self s) (calls s) req = Ok (PDict d) ->
    canonical (PDict d) = true ->
    renamable (PDict d) = true ->
    unique_keys (rename_keys (PDict d)) = true ->
    dict_get d SZ_DAILY_SCHEDULES = None ->
    dict_get d "Dailyschedules" = None ->
    ZoneBase.get_schedule _type s
    = (Raise (KeyError "Dailyschedules"), after s req).
Proof.
  intros _type s d req Hget Hc Hr Hu H1 H2.
  rewrite get_schedule_run.
  change (GET (ZoneBase.url _type (self s) "schedule") SCH_SCHEDULE) with req.
  rewrite Hget. now rewrite (read_path_without_days d).
Qed.

Lemma get_schedule_without_daily_schedules_witness :
  Zone.get_schedule
    (sample_state (answering (PDict [(SZ_SWITCHPOINTS, PList [])])))
  = (Raise (KeyError "Dailyschedules"),
     after (sample_state (answering (PDict [(SZ_SWITCHPOINTS, PList [])])))
       (GET "temperatureZone/3432521/schedule" SCH_SCHEDULE)).
Proof.
  apply (get_schedule_without_daily_schedules Zone._type
           (sample_state (answering (PDict [(SZ_SWITCHPOINTS, PList [])])))
           [(SZ_SWITCHPOINTS, PList [])]);
    reflexivity.
Defined.

(** X5.  The loop of [get_schedule] over the entries that [json.loads]
    built (distinct objects): when every entry is a dict, each entry [i]
    gets the ordinal [start + i] under the capitalized day-of-week key and
    keeps every other field, and no entry is added or dropped; when some
    entry is not a dict, the loop raises a [TypeError]. *)
Theorem number_days_loop :
  forall (items : list pyval) (start : nat),
    (forallb is_dict items = true ->
     exists items',
       ZoneBase.number_days start items = Ok items'
       /\ List.length items' = List.length items
       /\ forall i d,
            nth_error items i = Some (PDict d) ->
            exists d',
              nth_error items' i = Some (PDict d')
              /\ forall k,
                   dict_get d' k
                   = if String.eqb "Dayofweek" k
                     then Some (py_int (start + i))
                     else dict_get d k)
    /\ (forallb is_dict items = false ->
        exists msg, ZoneBase.number_days start items = Raise (TypeError msg)).
Proof.
  intros items start. pose proof (number_days_spec items start) as H.
  destruct (ZoneBase.number_days start items) as [items'|e];
    destruct H as [Hd H]; split; intros Hd'; try congruence.
  - subst items'. eexists. split; [reflexivity|].
    split; [apply number_from_length|].
    intros i d Hi. rewrite number_from_nth, Hi. cbn [option_map numbered].
    eexists. split; [reflexivity|]. intros k. apply dict_get_set.
  - destruct H as [msg ->]. now exists msg.
Qed.

Lemma number_days_loop_witness :
  (exists items',
     ZoneBase.number_days 0
       [PDict [("Dayofweek", PStr "Sunday")]; PDict [("Switchpoints", PList [])]]
     = Ok items'
     /\ List.length items' = 2
     /\ forall i d,
          nth_error
            [PDict [("Dayofweek", PStr "Sunday")];
             PDict [("Switchpoints", PList [])]] i = Some (PDict d) ->
          exists d',
            nth_error items' i = Some (PDict d')
            /\ forall k,
                 dict_get d' k
                 = if String.eqb "Dayofweek" k
                   then Some (py_int (0 + i))
                   else dict_get d k)
  /\ exists msg,
       ZoneBase.number_days 0 [PDict []; PStr "Monday"] = Raise (TypeError msg).
Proof.
  split.
  - apply (proj1 (number_days_loop
                    [PDict [("Dayofweek", PStr "Sunday")];
                     PDict [("Switchpoints", PList [])]] 0)).
    reflexivity.
  - apply (proj2 (number_days_loop [PDict []; PStr "Monday"] 0)).
    reflexivity.
Defined.

(** X6.  What [get_schedule] returns for a payload of the schema is not
    what the remote side sent: given back to [set_schedule], it is accepted
    and is itself the body of the PUT, with the capitalized names and the
    ordinals; it has no field under the remote name of the daily schedules,
    and the schedule schema of the specification does not accept it. *)
Theorem set_schedule_after_get_schedule :
  forall (_type : string) (s : state) (payload : pyval),
    let get := GET (_type ++ "/" ++ py_str (_id (self s)) ++ "/schedule")
                   SCH_SCHEDULE in
    _broker (self s) (calls s) get = Ok payload ->
    Schema.SCH_SCHEDULE payload = true ->
    let put := PUT (_type ++ "/" ++ py_str (_id (self s)) ++ "/schedule")
                   (decode payload) (Some SCH_SCHEDULE) in
    ZoneBase.get_schedule _type s = (Ok (decode payload), after s get)
    /\ ZoneBase.set_schedule _type (decode payload) (after s get)
       = (answer (after s get) put, after (after s get) put)
    /\ subscript (decode payload) SZ_DAILY_SCHEDULES
       = Raise (KeyError SZ_DAILY_SCHEDULES)
    /\ Schema.SCH_SCHEDULE (decode payload) = false.
Proof.
  intros _type s payload get Hget Hvalid put.
  apply schedule_accepts in Hvalid.
  pose proof (schedule_ok payload Hvalid) as [_ [_ [Hc _]]].
  apply decode_canonical, dumps_canonical in Hc.
  split.
  - rewrite get_schedule_run.
    change (GET (ZoneBase.url _type (self s) "schedule") SCH_SCHEDULE) with get.
    now rewrite Hget, (read_path_decodes payload Hvalid).
  - destruct Hvalid as [days Hdays]. subst put. rewrite decode_days in *.
    split; [|split; reflexivity].
    exact (set_schedule_dict_run _type _ _ (after s get) Hc).
Qed.

Lemma set_schedule_after_get_schedule_witness :
  Zone.get_schedule (sample_state (answering sample_schedule))
  = (Ok (decode sample_schedule),
     after (sample_state (answering sample_schedule))
       (GET "temperatureZone/3432521/schedule" SCH_SCHEDULE))
  /\ Zone.set_schedule (decode sample_schedule)
       (after (sample_state (answering sample_schedule))
          (GET "temperatureZone/3432521/schedule" SCH_SCHEDULE))
     = (Ok tt,
        {| self := sample_zone (answering sample_schedule);
           calls := [GET "temperatureZone/3432521/schedule" SCH_SCHEDULE;
                     PUT "temperatureZone/3432521/schedule"
                       (decode sample_schedule) (Some SCH_SCHEDULE)] |})
  /\ subscript (decode sample_schedule) SZ_DAILY_SCHEDULES
     = Raise (KeyError "dailySchedules")
  /\ Schema.SCH_SCHEDULE (decode sample_schedule) = false.
Proof.
  apply (set_schedule_after_get_schedule Zone._type
           (sample_state (answering sample_schedule)) sample_schedule);
    reflexivity.
Defined.

(** X7.  On the write path a value and the text that [json.dumps] writes
    for it are the same schedule: for a value without escapes,
    [set_schedule] of the text makes the PUT with the value as its body.  For
    a dict this is what [set_schedule] of the dict itself does; a value that
    is neither a dict nor a [str] is refused when given itself, although its
    text is sent. *)
Theorem set_schedule_of_dumped_text :
  forall (_type : string) (s : state) (v : pyval) (text : string),
    canonical v = true ->
    unique_keys v = true ->
    json_dumps v = Ok text ->
    let put := PUT (_type ++ "/" ++ py_str (_id (self s)) ++ "/schedule") v
                   (Some SCH_SCHEDULE) in
    ZoneBase.set_schedule _type (PStr text) s = (answer s put, after s put)
    /\ match v with
       | PDict _ =>
           ZoneBase.set_schedule _type v s
           = ZoneBase.set_schedule _type (PStr text) s
       | PStr _ => True
       | _ =>
           exists msg,
             ZoneBase.set_schedule _type v s = (Raise (InvalidSchedule msg), s)
       end.
Proof.
  intros _type s v text Hc Hu Hd put.
  assert (Hs : ZoneBase.set_schedule _type (PStr text) s
               = (answer s put, after s put)).
  { apply set_schedule_str_run.
    rewrite (dumps_canonical v Hc) in Hd. injection Hd as <-.
    now apply loads_encode. }
  split; [exact Hs|].
  destruct v as [|b|lit|t|l|d|cls|up]; try exact I;
    try (eexists; reflexivity).
  rewrite Hs. exact (set_schedule_dict_run _type d text s Hd).
Qed.

Lemma set_schedule_of_dumped_text_witness :
  (HotWater.set_schedule (PStr "[null, {}]") (sample_state (answering PNone))
   = (Ok tt,
      after (sample_state (answering PNone))
        (PUT "domesticHotWater/3432521/schedule" (PList [PNone; PDict []])
           (Some SCH_SCHEDULE)))
   /\ exists msg,
        HotWater.set_schedule (PList [PNone; PDict []])
          (sample_state (answering PNone))
        = (Raise (InvalidSchedule msg), sample_state (answering PNone)))
  /\ Zone.set_schedule (PStr "{}") (sample_state failing)
     = (Raise (BrokerError "503"),
        after (sample_state failing)
          (PUT "temperatureZone/3432521/schedule" (PDict [])
             (Some SCH_SCHEDULE)))
  /\ Zone.set_schedule (PDict []) (sample_state failing)
     = Zone.set_schedule (PStr "{}") (sample_state failing).
Proof.
  split.
  - apply (set_schedule_of_dumped_text HotWater._type
             (sample_state (answering PNone)) (PList [PNone; PDict []])
             "[null, {}]"); reflexivity.
  - apply (set_schedule_of_dumped_text Zone._type (sample_state failing)
             (PDict []) "{}"); reflexivity.
Defined.

(** X8.  Whatever coroutines of a heating zone are called one after the
    other, with whatever arguments and whatever the broker answers: the
    broker, the configuration and the identifier of the object stay the
    same; each call makes at most one request, on a path under
    [temperatureZone/{id}/]; the status is the one there was or a payload
    that the broker answered to the GET of the status; and without a
    refresh among the calls the status is the one there was. *)
Theorem zone_calls_keep_the_object :
  forall (cs : list zone_call) (s : state),
    let s' := run zone_step cs s in
    let root := "temperatureZone/" ++ py_str (_id (self s)) ++ "/" in
    evolved root (List.length cs) s s'
    /\ status_from (_broker (self s)) (root ++ "status") SCH_ZONE_STATUS s s'
    /\ (existsb is_zone_refresh cs = false ->
        _status (self s') = _status (self s)).
Proof.
  intros cs s s' root. subst s'.
  change root with (Trace.root Zone._type s).
  split; [|split].
  - apply run_evolved. exact zone_step_evolved.
  - apply (run_status zone_call zone_step Zone._type SCH_ZONE_STATUS).
    + exact zone_step_evolved.
    + exact zone_step_status.
  - apply (run_quiet zone_call zone_step). exact zone_step_quiet.
Qed.

Lemma zone_calls_keep_the_object_witness :
  _status
    (self
       (run zone_step
          [GetSchedule; SetSchedule (PStr "{");
           SetTemperature (PNum "21.0") None; CancelTempOverride; Schedule]
          (sample_state (answering (PDict sample_status)))))
  = PDict [].
Proof.
  apply (proj2 (proj2 (zone_calls_keep_the_object
                         [GetSchedule; SetSchedule (PStr "{");
                          SetTemperature (PNum "21.0") None;
                          CancelTempOverride; Schedule]
                         (sample_state (answering (PDict sample_status)))))).
  reflexivity.
Defined.

(** X9.  The same for a hot-water object, the retired operations included:
    the requests are on paths under [domesticHotWater/{id}/], and the
    status changes by a refresh only. *)
Theorem dhw_calls_keep_the_object :
  forall (cs : list dhw_call) (s : state),
    let s' := run dhw_step cs s in
    let root := "domesticHotWater/" ++ py_str (_id (self s)) ++ "/" in
    evolved root (List.length cs) s s'
    /\ status_from (_broker (self s)) (root ++ "status") SCH_DHW_STATUS s s'
    /\ (existsb is_dhw_refresh cs = false ->
        _status (self s') = _status (self s)).
Proof.
  intros cs s s' root. subst s'.
  change root with (Trace.root HotWater._type s).
  split; [|split].
  - apply run_evolved. exact dhw_step_evolved.
  - apply (run_status dhw_call dhw_step HotWater._type SCH_DHW_STATUS).
    + exact dhw_step_evolved.
    + exact dhw_step_status.
  - apply (run_quiet dhw_call dhw_step). exact dhw_step_quiet.
Qed.

Lemma dhw_calls_keep_the_object_witness :
  _status
    (self
       (run dhw_step
          [SetOn None; DhwGetSchedule; SetAuto; GetDhwState [] [];
           DhwSetSchedule (PDict [])]
          (sample_state (answering (PDict sample_status)))))
  = PDict [].
Proof.
  apply (proj2 (proj2 (dhw_calls_keep_the_object
                         [SetOn None; DhwGetSchedule; SetAuto;
                          GetDhwState [] []; DhwSetSchedule (PDict [])]
                         (sample_state (answering (PDict sample_status)))))).
  reflexivity.
Defined.

(** X10.  The identifier of an object that a constructor returned is the
    identifier field of its configuration, is not empty, and stays so
    whatever coroutines are called on the object: [zoneId] (or [dhwId])
    reads [_id], and the broker is the one of the control system. *)
Theorem constructed_identifier_is_kept :
  forall (tcs : ControlSystem) (config : dict) (me : instance)
         (before : list request),
    (Zone.__init__ tcs config = Ok me ->
     forall cs : list zone_call,
       let s' := run zone_step cs {| self := me; calls := before |} in
       Zone.zoneId (self s') = Ok (_id (self s'))
       /\ truthy (_id (self s')) = true
       /\ _broker (self s') = tcs_broker tcs)
    /\ (HotWater.__init__ tcs config = Ok me ->
        forall cs : list dhw_call,
          let s' := run dhw_step cs {| self := me; calls := before |} in
          HotWater.dhwId (self s') = Ok (_id (self s'))
          /\ truthy (_id (self s')) = true
          /\ _broker (self s') = tcs_broker tcs).
Proof.
  intros tcs config me before. split; intros Hinit cs s'.
  - apply zone_init_ok in Hinit as [id [Hg [Ht ->]]].
    destruct (run_evolved zone_call zone_step Zone._type zone_step_evolved cs
                {| self := ZoneBase.new tcs config id; calls := before |})
      as [Hb [Hc [Hi _]]].
    fold s' in Hb, Hc, Hi. cbn [self ZoneBase.new _broker _config _id] in *.
    unfold Zone.zoneId, Zone.zoneId_of, getitem.
    rewrite Hc, Hi, Hb, Hg. now repeat split.
  - apply dhw_init_ok in Hinit as [id [Hg [Ht ->]]].
    destruct (run_evolved dhw_call dhw_step HotWater._type dhw_step_evolved cs
                {| self := ZoneBase.new tcs config id; calls := before |})
      as [Hb [Hc [Hi _]]].
    fold s' in Hb, Hc, Hi. cbn [self ZoneBase.new _broker _config _id] in *.
    unfold HotWater.dhwId, HotWater.dhwId_of, getitem.
    rewrite Hc, Hi, Hb, Hg. now repeat split.
Qed.

Lemma constructed_identifier_is_kept_witness :
  Zone.zoneId
    (self (run zone_step [Refresh; SetSchedule (PDict []); GetSchedule]
             (sample_state (answering (PDict sample_status)))))
  = Ok (_id
          (self (run zone_step [Refresh; SetSchedule (PDict []); GetSchedule]
                   (sample_state (answering (PDict sample_status))))))
  /\ truthy
       (_id
          (self (run zone_step [Refresh; SetSchedule (PDict []); GetSchedule]
                   (sample_state (answering (PDict sample_status))))))
     = true
  /\ _broker
       (self (run zone_step [Refresh; SetSchedule (PDict []); GetSchedule]
                (sample_state (answering (PDict sample_status)))))
     = answering (PDict sample_status).
Proof.
  apply (proj1 (constructed_identifier_is_kept
                  {| tcs_broker := answering (PDict sample_status) |}
                  [(SZ_ZONE_ID, PStr "3432521"); (SZ_NAME, PStr "Kitchen")]
                  (sample_zone (answering (PDict sample_status))) [])
           eq_refl [Refresh; SetSchedule (PDict []); GetSchedule]).
Defined.

(** X11.  [VerifyVersionCommand.run] of [setup.py] returns only when the
    environment variable [CIRCLE_TAG] is set to the version of the package,
    ["0.3.3b2"]; with another tag it leaves through [sys.exit] with a
    message that names the tag and the version, and without a tag the
    message names the tag [None]. *)
Theorem verify_version_needs_the_tag :
  forall env : Setup.environ,
    (Setup.run env = Setup.Returned
     <-> Setup.getenv env "CIRCLE_TAG" = Some "0.3.3b2")
    /\ (forall tag,
          Setup.getenv env "CIRCLE_TAG" = Some tag -> tag <> "0.3.3b2" ->
          Setup.run env
          = Setup.SystemExit
              ("Git tag: " ++ tag
               ++ " does not match the version of this app: 0.3.3b2"))
    /\ (Setup.getenv env "CIRCLE_TAG" = None ->
        Setup.run env
        = Setup.SystemExit
            "Git tag: None does not match the version of this app: 0.3.3b2").
Proof.
  intros env. unfold Setup.run, Setup.tag_differs, Setup.VERSION.
  destruct (Setup.getenv env "CIRCLE_TAG") as [tag|].
  - destruct (String.eqb_spec tag "0.3.3b2") as [->|Hne]; cbn [negb].
    + split; [split; reflexivity|]. split; [|discriminate].
      intros tag [= <-] H. congruence.
    + split; [split; [discriminate | congruence]|]. split; [|discriminate].
      now intros tag' [= <-] _.
  - split; [split; discriminate|]. split; [discriminate | reflexivity].
Qed.

Lemma verify_version_needs_the_tag_witness :
  Setup.run [("HOME", "/root"); ("CIRCLE_TAG", "0.3.3b2")] = Setup.Returned
  /\ Setup.run [("CIRCLE_TAG", "v0.3.3b2")]
     = Setup.SystemExit
         "Git tag: v0.3.3b2 does not match the version of this app: 0.3.3b2"
  /\ Setup.run []
     = Setup.SystemExit
         "Git tag: None does not match the version of this app: 0.3.3b2".
Proof.
  split; [|split].
  - apply (proj1 (verify_version_needs_the_tag
                    [("HOME", "/root"); ("CIRCLE_TAG", "0.3.3b2")])).
    reflexivity.
  - apply (proj1 (proj2 (verify_version_needs_the_tag
                           [("CIRCLE_TAG", "v0.3.3b2")])) "v0.3.3b2").
    + reflexivity.
    + discriminate.
  - apply (proj2 (proj2 (verify_version_needs_the_tag []))). reflexivity.
Defined.

(** X12.  The properties that read the configuration ([zoneId], [name],
    [modelType], [setpointCapabilities], [scheduleCapabilities], [zoneType]
    of a zone; [dhwId], [dhwStateCapabilitiesResponse],
    [scheduleCapabilitiesResponse], [name] of a hot-water object) read the
    same, value or exception, before and after any calls of coroutines on
    the object. *)
Theorem configuration_properties_are_constant :
  forall (zone_calls : list zone_call) (dhw_calls : list dhw_call) (s : state),
    let zone := self (run zone_step zone_calls s) in
    let dhw := self (run dhw_step dhw_calls s) in
    Zone.zoneId zone = Zone.zoneId (self s)
    /\ Zone.name zone = Zone.name (self s)
    /\ Zone.modelType zone = Zone.modelType (self s)
    /\ Zone.setpointCapabilities zone = Zone.setpointCapabilities (self s)
    /\ Zone.scheduleCapabilities zone = Zone.scheduleCapabilities (self s)
    /\ Zone.zoneType zone = Zone.zoneType (self s)
    /\ HotWater.dhwId dhw = HotWater.dhwId (self s)
    /\ HotWater.dhwStateCapabilitiesResponse dhw
       = HotWater.dhwStateCapabilitiesResponse (self s)
    /\ HotWater.scheduleCapabilitiesResponse dhw
       = HotWater.scheduleCapabilitiesResponse (self s)
    /\ HotWater.name dhw = HotWater.name (self s).
Proof.
  intros zone_calls dhw_calls s zone dhw.
  destruct (run_evolved zone_call zone_step Zone._type zone_step_evolved
              zone_calls s) as [_ [Hz _]].
  destruct (run_evolved dhw_call dhw_step HotWater._type dhw_step_evolved
              dhw_calls s) as [_ [Hd _]].
  fold zone in Hz. fold dhw in Hd.
  unfold Zone.zoneId, Zone.name, Zone.modelType, Zone.setpointCapabilities,
    Zone.scheduleCapabilities, Zone.zoneType, HotWater.dhwId,
    HotWater.dhwStateCapabilitiesResponse,
    HotWater.scheduleCapabilitiesResponse, HotWater.name.
  rewrite Hz, Hd. repeat split.
Qed.

(** X13.  The substitution of [get_schedule] changes the case of letters
    and nothing else: the text after it has the length of the text before,
    and the two are the same once lower-cased. *)
Theorem replace_keys_changes_case_only :
  forall text : string,
    str_lower (ZoneBase.replace_keys text) = str_lower text
    /\ String.length (ZoneBase.replace_keys text) = String.length text.
Proof.
  intros text. pose proof (CaseFacts.replace_keys_lower text) as H.
  split; [exact H|].
  rewrite <- (CaseFacts.str_lower_length (ZoneBase.replace_keys text)), H.
  apply CaseFacts.str_lower_length.
Qed.

(** X14.  The exceptions of [get_schedule]: the one that the broker raised,
    or, on the payload that the broker returned, a [TypeError] or a
    [ValueError] (of [json.dumps], of the lookup or of the loop), a
    [JSONDecodeError] (of [json.loads] on the text after the substitution)
    or the [KeyError] of the capitalized daily-schedules key.  None of them
    is turned into an [InvalidSchedule]. *)
Theorem get_schedule_exceptions :
  forall (_type : string) (s : state) (e : exn),
    fst (ZoneBase.get_schedule _type s) = Raise e ->
    let req := GET (_type ++ "/" ++ py_str (_id (self s)) ++ "/schedule")
                   SCH_SCHEDULE in
    _broker (self s) (calls s) req = Raise e
    \/ (exists m, e = TypeError m) \/ (exists m, e = ValueError m)
    \/ e = JSONDecodeError \/ e = KeyError "Dailyschedules".
Proof.
  intros _type s e H req. rewrite get_schedule_run in H.
  change (GET (ZoneBase.url _type (self s) "schedule") SCH_SCHEDULE)
    with req in H.
  destruct (_broker (self s) (calls s) req) as [payload|e'].
  - right. cbn [fst] in H. exact (ErrorFacts.read_path_error payload e H).
  - left. cbn [fst] in H. exact H.
Qed.

Lemma get_schedule_exceptions_witness :
  _broker (self (sample_state (answering (PList []))))
    (calls (sample_state (answering (PList []))))
    (GET "temperatureZone/3432521/schedule" SCH_SCHEDULE)
  = Raise (TypeError "list indices must be integers or slices, not str")
  \/ (exists m,
        TypeError "list indices must be integers or slices, not str"
        = TypeError m)
  \/ (exists m,
        TypeError "list indices must be integers or slices, not str"
        = ValueError m)
  \/ TypeError "list indices must be integers or slices, not str"
     = JSONDecodeError
  \/ TypeError "list indices must be integers or slices, not str"
     = KeyError "Dailyschedules".
Proof.
  apply (get_schedule_exceptions Zone._type
           (sample_state (answering (PList [])))
           (TypeError "list indices must be integers or slices, not str")).
  reflexivity.
Defined.

(** X15.  [set_schedule] returns only after its PUT: when it returns
    [None], one call was made, the PUT on [{type}/{id}/schedule] with the
    schedule schema, and the broker answered it; when it raises after a
    call, the call is that PUT and the exception is the one of the broker;
    and when it makes no call, it raises and the state is as it was. *)
Theorem set_schedule_returns_after_put :
  forall (_type : string) (s : state) (schedule : pyval),
    let put body := PUT (_type ++ "/" ++ py_str (_id (self s)) ++ "/schedule")
                        body (Some SCH_SCHEDULE) in
    let outcome := ZoneBase.set_schedule _type schedule s in
    (fst outcome = Ok tt ->
     exists body answer,
       _broker (self s) (calls s) (put body) = Ok answer
       /\ snd outcome = after s (put body))
    /\ (forall e,
          fst outcome = Raise e -> calls (snd outcome) <> calls s ->
          exists body,
            _broker (self s) (calls s) (put body) = Raise e
            /\ snd outcome = after s (put body))
    /\ (calls (snd outcome) = calls s ->
        exists e, outcome = (Raise e, s)).
Proof.
  intros _type s schedule put outcome. subst outcome.
  destruct (set_schedule_ends _type schedule s) as [[e ->] | [body ->]];
    cbn [fst snd].
  - split; [discriminate|]. split; [congruence|]. intros _. now exists e.
  - change (PUT (ZoneBase.url _type (self s) "schedule") body
              (Some SCH_SCHEDULE)) with (put body).
    unfold answer.
    destruct (_broker (self s) (calls s) (put body)) as [answer|e'] eqn:Hb.
    + split; [|split].
      * intros _. now exists body, answer.
      * discriminate.
      * intros H. now apply after_calls in H.
    + split; [|split].
      * discriminate.
      * intros e [= <-] _. now exists body.
      * intros H. now apply after_calls in H.
Qed.

Lemma set_schedule_returns_after_put_witness :
  (exists body answer,
     _broker (self (sample_state (answering PNone)))
       (calls (sample_state (answering PNone)))
       (PUT "temperatureZone/3432521/schedule" body (Some SCH_SCHEDULE))
     = Ok answer
     /\ snd (Zone.set_schedule (PDict []) (sample_state (answering PNone)))
        = after (sample_state (answering PNone))
            (PUT "temperatureZone/3432521/schedule" body (Some SCH_SCHEDULE)))
  /\ (exists body,
        _broker (self (sample_state failing)) (calls (sample_state failing))
          (PUT "temperatureZone/3432521/schedule" body (Some SCH_SCHEDULE))
        = Raise (BrokerError "503")
        /\ snd (Zone.set_schedule (PStr "{}") (sample_state failing))
           = after (sample_state failing)
               (PUT "temperatureZone/3432521/schedule" body
                  (Some SCH_SCHEDULE)))
  /\ exists e,
       Zone.set_schedule PNone (sample_state failing)
       = (Raise e, sample_state failing).
Proof.
  split; [|split].
  - apply (proj1 (set_schedule_returns_after_put Zone._type
                    (sample_state (answering PNone)) (PDict []))).
    reflexivity.
  - apply (proj1 (proj2 (set_schedule_returns_after_put Zone._type
                           (sample_state failing) (PStr "{}")))
             (BrokerError "503")).
    + reflexivity.
    + discriminate.
  - apply (proj2 (proj2 (set_schedule_returns_after_put Zone._type
                           (sample_state failing) PNone))).
    reflexivity.
Defined.

(** X16.  The numbering does not depend on there being seven days: on a
    payload of the schema with any number of daily schedules, the result of
    [get_schedule] is a dict with the capitalized daily-schedules key only,
    whose entries carry, in order, the ordinals 0, 1, ... under the
    capitalized day-of-week key, one for each daily schedule of the
    payload. *)
Theorem get_schedule_numbers_any_days :
  forall (_type : string) (s : state) (payload : pyval) (days : list pyval),
    let req := GET (_type ++ "/" ++ py_str (_id (self s)) ++ "/schedule")
                   SCH_SCHEDULE in
    _broker (self s) (calls s) req = Ok payload ->
    Schema.SCH_SCHEDULE payload = true ->
    subscript payload SZ_DAILY_SCHEDULES = Ok (PList days) ->
    exists days',
      ZoneBase.get_schedule _type s
      = (Ok (PDict [("Dailyschedules", PList days')]), after s req)
      /\ map (fun day => subscript day "Dayofweek") days'
         = map (fun i => Ok (py_int i)) (seq 0 (List.length days)).
Proof.
  intros _type s payload days req Hget Hvalid Hdays.
  apply schedule_accepts in Hvalid.
  pose proof (read_path_decodes payload Hvalid) as Hread.
  destruct Hvalid as [days0 Hshape].
  assert (days0 = days) as -> by (cbn in Hdays; congruence).
  exists (number_from 0 (map rename_keys days)).
  rewrite get_schedule_run.
  change (GET (ZoneBase.url _type (self s) "schedule") SCH_SCHEDULE) with req.
  rewrite Hget, Hread, decode_days.
  split; [reflexivity|].
  exact (days_ordinals days Hshape 0).
Qed.

Lemma get_schedule_numbers_any_days_witness :
  exists days',
    Zone.get_schedule
      (sample_state
         (answering
            (PDict [(SZ_DAILY_SCHEDULES,
                     PList (map sample_day ["Sunday"; "Sunday"; "Friday"]))])))
    = (Ok (PDict [("Dailyschedules", PList days')]),
       after
         (sample_state
            (answering
               (PDict [(SZ_DAILY_SCHEDULES,
                        PList (map sample_day
                                 ["Sunday"; "Sunday"; "Friday"]))])))
         (GET "temperatureZone/3432521/schedule" SCH_SCHEDULE))
    /\ map (fun day => subscript day "Dayofweek") days'
       = [Ok (PNum "0"); Ok (PNum "1"); Ok (PNum "2")].
Proof.
  apply (get_schedule_numbers_any_days Zone._type
           (sample_state
              (answering
                 (PDict [(SZ_DAILY_SCHEDULES,
                          PList (map sample_day
                                   ["Sunday"; "Sunday"; "Friday"]))])))
           (PDict [(SZ_DAILY_SCHEDULES,
                    PList (map sample_day ["Sunday"; "Sunday"; "Friday"]))])
           (map sample_day ["Sunday"; "Sunday"; "Friday"]));
    reflexivity.
Defined.

End Behaviour.
